(** * Recommendation and cuisine-matching engine of the home-kitchen backend

    A shallow embedding of [app/routes/ai.py], [app/utils/distance.py] and the
    preference accessors of [app/models/user.py] and [app/models/dish.py],
    together with the properties of the recommendation engine.

    Conventions of the embedding:
    - Python [str] values are [string]s; [lower], [strip] and [split] act on
      the ASCII range (letters A-Z, ASCII white space).
    - Python [float] scores and prices are rationals ([Q]): every step of the
      scorer is exact arithmetic, and statements about scores are relative
      to the scores the program computes.  Coordinates are rationals as well
      and the great-circle distance is the real number the formula denotes;
      what its evaluation in binary floating point adds (rounding, the
      [ValueError] of [math.sqrt] and [math.asin] outside their domains,
      non-finite coordinates) is outside the embedding, so a statement that
      a call returns is made for calls that evaluate no distance
      ([no_distance_evaluated]).
    - Values produced by [json.loads] are [pyval]s; the JSON decoder and
      [repr] belong to the Python runtime and are an interface
      ([PyRuntime]) of the development.
    - A [TypeError] raised while iterating a value that is not iterable is
      the [Raise] outcome of the [res] monad.
    - Queries follow SQLite: [LIMIT] with a negative count is unbounded,
      NULL sorts below every value, and rows that tie on the sort keys keep
      the order of the table.  A row is identified by its primary key.  A
      row count outside the signed 64-bit integers makes the driver raise
      [OverflowError]; a statement that a call returns is made for counts
      that fit ([fits_int64]).
    - The list of dictionaries a route returns is the list of the dishes
      the dictionaries are made from. *)

From Stdlib Require Import String Ascii List Bool Arith ZArith QArith Qminmax Lia.
From Stdlib Require Import Sorting.Sorted Sorting.Permutation.
From Stdlib Require Import Reals Lra.
Import ListNotations.

#[local] Set Warnings "-register-all".

Local Open Scope string_scope.
Local Open Scope list_scope.

(* ===================================================================== *)
(** ** Python string operations *)
(* ===================================================================== *)

Module PyStr.

(** [c.lower()] on one ASCII character. *)
Definition lower_char (c : ascii) : ascii :=
  let n := nat_of_ascii c in
  if ((65 <=? n) && (n <=? 90))%nat then ascii_of_nat (n + 32) else c.

(** [s.lower()] *)
Fixpoint lower (s : string) : string :=
  match s with
  | EmptyString => EmptyString
  | String c s' => String (lower_char c) (lower s')
  end.

(** [c.isspace()] on the ASCII range: TAB, LF, VT, FF, CR, FS, GS, RS, US
    and the space. *)
Definition is_space (c : ascii) : bool :=
  let n := nat_of_ascii c in
  (((9 <=? n) && (n <=? 13)) || ((28 <=? n) && (n <=? 32)))%nat.

(** [s.lstrip()] *)
Fixpoint lstrip (s : string) : string :=
  match s with
  | EmptyString => EmptyString
  | String c s' => if is_space c then lstrip s' else s
  end.

(** [s.rstrip()] *)
Fixpoint rstrip (s : string) : string :=
  match s with
  | EmptyString => EmptyString
  | String c s' =>
      match rstrip s' with
      | EmptyString => if is_space c then EmptyString else String c EmptyString
      | r => String c r
      end
  end.

(** [s.strip()] *)
Definition strip (s : string) : string := rstrip (lstrip s).

(** [s.startswith(p)] *)
Fixpoint startswith (p s : string) : bool :=
  match p, s with
  | EmptyString, _ => true
  | String _ _, EmptyString => false
  | String a p', String b s' => Ascii.eqb a b && startswith p' s'
  end.

(** [sub in s] for two strings. *)
Fixpoint contains (sub s : string) : bool :=
  startswith sub s ||
  match s with
  | EmptyString => false
  | String _ s' => contains sub s'
  end.

(** Truth value of a string: [bool(s)]. *)
Definition nonempty (s : string) : bool :=
  match s with EmptyString => false | _ => true end.

(** [s.split(sep)] for a one-character separator: the accumulator [cur]
    holds the current field in reverse. *)
Fixpoint rev_string (acc s : string) : string :=
  match s with
  | EmptyString => acc
  | String c s' => rev_string (String c acc) s'
  end.

Fixpoint split_on_aux (sep : ascii) (cur s : string) : list string :=
  match s with
  | EmptyString => [rev_string EmptyString cur]
  | String c s' =>
      if Ascii.eqb c sep
      then rev_string EmptyString cur :: split_on_aux sep EmptyString s'
      else split_on_aux sep (String c cur) s'
  end.

Definition split_on (sep : ascii) (s : string) : list string :=
  split_on_aux sep EmptyString s.

(** [s.split()]: fields separated by runs of white space, no empty field. *)
Fixpoint split_ws_aux (cur s : string) : list string :=
  match s with
  | EmptyString =>
      match cur with
      | EmptyString => []
      | _ => [rev_string EmptyString cur]
      end
  | String c s' =>
      if is_space c
      then match cur with
           | EmptyString => split_ws_aux EmptyString s'
           | _ => rev_string EmptyString cur :: split_ws_aux EmptyString s'
           end
      else split_ws_aux (String c cur) s'
  end.

Definition split_ws (s : string) : list string := split_ws_aux EmptyString s.

(** The characters of a string, as Python iterates over it. *)
Fixpoint chars (s : string) : list string :=
  match s with
  | EmptyString => []
  | String c s' => String c EmptyString :: chars s'
  end.

(** [x in l] for a list of strings. *)
Definition mem (x : string) (l : list string) : bool :=
  existsb (String.eqb x) l.

(** [set(l)] as a duplicate-free list, then difference and intersection. *)
Fixpoint to_set (l : list string) : list string :=
  match l with
  | [] => []
  | x :: l' => if mem x l' then to_set l' else x :: to_set l'
  end.

Definition set_diff (a b : list string) : list string :=
  filter (fun x => negb (mem x b)) a.

Definition set_inter (a b : list string) : list string :=
  filter (fun x => mem x b) a.

End PyStr.

(* ===================================================================== *)
(** ** Cuisine taxonomy matcher ([app/routes/ai.py]) *)
(* ===================================================================== *)

(** [normalize_cuisine_name]: lower case, then trimmed. *)
Definition normalize_cuisine_name (cuisine : string) : string :=
  if PyStr.nonempty cuisine then PyStr.strip (PyStr.lower cuisine) else "".

(** The table [cuisine_groups], in the order the dictionary is written. *)
Definition cuisine_groups : list (string * list string) :=
  [ ("south indian",
      ["south indian"; "south"; "tamil"; "telugu"; "kannada"; "malayalam";
       "kerala"; "kerala cuisine"; "andhra"; "andhra pradesh"; "dosa"; "idli";
       "sambar"; "rasam"]);
    ("north indian",
      ["north indian"; "north"; "punjabi"; "delhi"; "rajasthani"; "gujarati";
       "uttar pradesh"; "haryana"; "himachal"]);
    ("bengali", ["bengali"; "bengal"; "kolkata"; "west bengal"]);
    ("gujarati", ["gujarati"; "gujarat"]);
    ("maharashtrian", ["maharashtrian"; "maharashtra"; "marathi"; "pune"; "mumbai"]);
    ("punjabi", ["punjabi"; "punjab"]);
    ("rajasthani", ["rajasthani"; "rajasthan"]);
    ("kerala", ["kerala"; "kerala cuisine"; "malayalam"; "kerala food"]) ].

(** The first group one of whose variants occurs in the normalised name. *)
Definition find_group (norm : string) : option string :=
  option_map fst
    (find (fun g => existsb (fun variant => PyStr.contains variant norm) (snd g))
          cuisine_groups).

Definition same_group (ug pg : option string) : bool :=
  match ug, pg with
  | Some u, Some p => PyStr.nonempty u && PyStr.nonempty p && String.eqb u p
  | _, _ => false
  end.

Definition common_noise_words : list string :=
  ["indian"; "cuisine"; "food"; "style"; "cooking"].

(** The north/south test of [cuisine_matches]. *)
Definition north_south_conflict (user_norm producer_norm : string) : bool :=
  let user_has_north := PyStr.contains "north" user_norm in
  let user_has_south := PyStr.contains "south" user_norm in
  let producer_has_north := PyStr.contains "north" producer_norm in
  let producer_has_south := PyStr.contains "south" producer_norm in
  (user_has_north && producer_has_south) || (user_has_south && producer_has_north).

(** Word-level overlap: [len(common) > 0 and len(common) >= min(..) * 0.5]. *)
Definition word_overlap (user_norm producer_norm : string) : bool :=
  let user_words :=
    PyStr.set_diff (PyStr.to_set (PyStr.split_ws user_norm)) common_noise_words in
  let producer_words :=
    PyStr.set_diff (PyStr.to_set (PyStr.split_ws producer_norm)) common_noise_words in
  let common_words := PyStr.set_inter user_words producer_words in
  ((0 <? length common_words) &&
   (Nat.min (length user_words) (length producer_words) <=? 2 * length common_words))%nat.

Definition cuisine_matches (user_cuisine producer_cuisine : string) : bool :=
  if negb (PyStr.nonempty user_cuisine) || negb (PyStr.nonempty producer_cuisine)
  then false
  else
    let user_norm := normalize_cuisine_name user_cuisine in
    let producer_norm := normalize_cuisine_name producer_cuisine in
    if north_south_conflict user_norm producer_norm then false
    else if same_group (find_group user_norm) (find_group producer_norm) then true
    else if String.eqb user_norm producer_norm then true
    else if PyStr.contains user_norm producer_norm
         then (if north_south_conflict user_norm producer_norm then false else true)
    else if PyStr.contains producer_norm user_norm
         then (if north_south_conflict user_norm producer_norm then false else true)
    else if word_overlap user_norm producer_norm
         then (if north_south_conflict user_norm producer_norm then false else true)
    else false.

(* ===================================================================== *)
(** ** Python values, errors and the runtime interface *)
(* ===================================================================== *)

(** A Python [float]: a finite value (kept exact) or one of the specials. *)
Inductive pyfloat : Type :=
| Finite (q : Q)
| PosInf
| NegInf
| NaN.

(** The values [json.loads] can produce. *)
Inductive pyval : Type :=
| PNone
| PBool (b : bool)
| PInt (z : Z)
| PFloat (f : pyfloat)
| PStr (s : string)
| PList (l : list pyval)
| PDict (kv : list (string * pyval)).

(** The exception the engine can raise on ill-typed preference data. *)
Inductive pyerr : Type := TypeError.

Inductive res (A : Type) : Type :=
| Ok (a : A)
| Raise (e : pyerr).

Arguments Ok {A} a.
Arguments Raise {A} e.

Definition bind {A B : Type} (m : res A) (k : A -> res B) : res B :=
  match m with
  | Ok a => k a
  | Raise e => Raise e
  end.

Declare Scope res_scope.
Delimit Scope res_scope with res.
Notation "x <- m ;; k" := (bind m (fun x => k))
  (at level 61, m at next level, right associativity) : res_scope.

(** The part of the Python runtime the engine calls into: the JSON decoder
    ([None] when [json.loads] raises) and [repr] of a value. *)
Class PyRuntime : Type := {
  json_loads : string -> option pyval;
  py_repr : pyval -> string
}.

(** [bool(v)] *)
Definition truthy (v : pyval) : bool :=
  match v with
  | PNone => false
  | PBool b => b
  | PInt z => negb (z =? 0)%Z
  | PFloat (Finite q) => negb (Qeq_bool q 0)
  | PFloat _ => true
  | PStr s => PyStr.nonempty s
  | PList l => match l with [] => false | _ => true end
  | PDict kv => match kv with [] => false | _ => true end
  end.

(** [isinstance(v, str)] with the string it holds. *)
Definition as_str (v : pyval) : option string :=
  match v with PStr s => Some s | _ => None end.

(** [for x in v]: the items a loop visits, or [TypeError]. *)
Definition py_iter (v : pyval) : res (list pyval) :=
  match v with
  | PList l => Ok l
  | PStr s => Ok (map PStr (PyStr.chars s))
  | PDict kv => Ok (map (fun p => PStr (fst p)) kv)
  | _ => Raise TypeError
  end.

(** [needle in v] for a string [needle]: membership in a list, substring of
    a string, key of a dictionary, or [TypeError]. *)
Definition py_in (needle : string) (v : pyval) : res bool :=
  match v with
  | PList l =>
      Ok (existsb (fun x => match x with PStr s => String.eqb needle s | _ => false end) l)
  | PStr s => Ok (PyStr.contains needle s)
  | PDict kv => Ok (existsb (fun p => String.eqb needle (fst p)) kv)
  | _ => Raise TypeError
  end.

(** [str(v)] *)
Definition py_str {rt : PyRuntime} (v : pyval) : string :=
  match v with
  | PStr s => s
  | _ => py_repr v
  end.

(** The fallback of the accessors when [json.loads] raises:
    [s.split(',') if ',' in s else [s]]. *)
Definition split_or_single (s : string) : pyval :=
  if PyStr.contains "," s
  then PList (map PStr (PyStr.split_on "," s))
  else PList [PStr s].

(** A nullable text column holding JSON or comma-separated text:
    [get_allergens_list], [get_meal_preferences_list],
    [get_dietary_restrictions_list]. *)
Definition parse_list_column {rt : PyRuntime} (col : option string) : pyval :=
  match col with
  | Some s =>
      if PyStr.nonempty s
      then match json_loads s with
           | Some v => v
           | None => split_or_single s
           end
      else PList []
  | None => PList []
  end.

(* ===================================================================== *)
(** ** A reference runtime: JSON decoder and [repr] *)
(* ===================================================================== *)

(** The decoder follows the grammar [json.loads] accepts (RFC 8259 plus the
    literals NaN, Infinity and -Infinity).  Numbers keep their exact decimal
    value, and a [\u] escape yields the UTF-8 bytes of its code point. *)
Module Json.

Definition is_ws (c : ascii) : bool :=
  let n := nat_of_ascii c in
  ((n =? 32) || (n =? 9) || (n =? 10) || (n =? 13))%nat.

Fixpoint skip_ws (s : string) : string :=
  match s with
  | String c s' => if is_ws c then skip_ws s' else s
  | EmptyString => EmptyString
  end.

Definition digit_val (c : ascii) : option Z :=
  let n := nat_of_ascii c in
  if ((48 <=? n) && (n <=? 57))%nat then Some (Z.of_nat (n - 48)) else None.

Definition hex_val (c : ascii) : option nat :=
  let n := nat_of_ascii c in
  if ((48 <=? n) && (n <=? 57))%nat then Some (n - 48)%nat
  else if ((97 <=? n) && (n <=? 102))%nat then Some (n - 87)%nat
  else if ((65 <=? n) && (n <=? 70))%nat then Some (n - 55)%nat
  else None.

(** A run of digits: its value after [acc], how many there were, the rest. *)
Fixpoint take_digits (s : string) (acc : Z) (count : nat) : Z * nat * string :=
  match s with
  | String c s' =>
      match digit_val c with
      | Some d => take_digits s' (10 * acc + d)%Z (S count)
      | None => (acc, count, s)
      end
  | EmptyString => (acc, count, s)
  end.

(** [drop_prefix p s]: what follows [p] in [s]. *)
Fixpoint drop_prefix (p s : string) : option string :=
  match p, s with
  | EmptyString, _ => Some s
  | String a p', String b s' => if Ascii.eqb a b then drop_prefix p' s' else None
  | String _ _, EmptyString => None
  end.

Definition pow10 (e : Z) : Q :=
  if (0 <=? e)%Z then inject_Z (10 ^ e) else 1 / inject_Z (10 ^ (- e)).

(** The integer part is [0] or starts with a non-zero digit. *)
Definition parse_int_part (s : string) : option (Z * string) :=
  match s with
  | String c s' =>
      match digit_val c with
      | Some 0%Z => Some (0%Z, s')
      | Some _ => let '(v, _, r) := take_digits s 0%Z 0%nat in Some (v, r)
      | None => None
      end
  | EmptyString => None
  end.

Definition parse_number (s : string) : option (pyval * string) :=
  let '(neg, s1) :=
    match s with
    | String "-" r => (true, r)
    | _ => (false, s)
    end in
  match parse_int_part s1 with
  | None => None
  | Some (ip, r1) =>
      let '(frac, r2) :=
        match r1 with
        | String "." r =>
            let '(v, n, r') := take_digits r 0%Z 0%nat in
            match n with
            | O => (None, r1)
            | _ => (Some (v, n), r')
            end
        | _ => (None, r1)
        end in
      let '(ex, r3) :=
        match r2 with
        | String c r =>
            if Ascii.eqb c "e" || Ascii.eqb c "E"
            then
              let '(sgn, rr) :=
                match r with
                | String "+" t => (1%Z, t)
                | String "-" t => ((-1)%Z, t)
                | _ => (1%Z, r)
                end in
              let '(v, n, r') := take_digits rr 0%Z 0%nat in
              match n with
              | O => (None, r2)
              | _ => (Some (sgn * v)%Z, r')
              end
            else (None, r2)
        | EmptyString => (None, r2)
        end in
      let sign := if neg then (-1)%Z else 1%Z in
      match frac, ex with
      | None, None => Some (PInt (sign * ip), r3)
      | _, _ =>
          let '(fv, fn) := match frac with Some p => p | None => (0%Z, 0%nat) end in
          let mant := (inject_Z (sign * (ip * 10 ^ Z.of_nat fn + fv)) * pow10 (- Z.of_nat fn))%Q in
          let e := match ex with Some e => e | None => 0%Z end in
          Some (PFloat (Finite (Qred (mant * pow10 e))), r3)
      end
  end.

(** UTF-8 bytes of a code point below 65536. *)
Definition utf8 (cp : nat) : string :=
  if (cp <? 128)%nat then String (ascii_of_nat cp) EmptyString
  else if (cp <? 2048)%nat
  then String (ascii_of_nat (192 + cp / 64))
         (String (ascii_of_nat (128 + cp mod 64)) EmptyString)
  else String (ascii_of_nat (224 + cp / 4096))
         (String (ascii_of_nat (128 + (cp / 64) mod 64))
            (String (ascii_of_nat (128 + cp mod 64)) EmptyString)).

(** The one-letter escapes: quote (34), backslash (92), slash (47), then
    b, f, n, r and t. *)
Definition simple_escape (c : ascii) : option ascii :=
  let n := nat_of_ascii c in
  if (n =? 34)%nat then Some c
  else if (n =? 92)%nat then Some c
  else if (n =? 47)%nat then Some c
  else if (n =? 98)%nat then Some (ascii_of_nat 8)
  else if (n =? 102)%nat then Some (ascii_of_nat 12)
  else if (n =? 110)%nat then Some (ascii_of_nat 10)
  else if (n =? 114)%nat then Some (ascii_of_nat 13)
  else if (n =? 116)%nat then Some (ascii_of_nat 9)
  else None.

(** The body of a string literal, after the opening quote; [acc] is the
    text read so far, in reverse. *)
Fixpoint parse_string_body (s acc : string) : option (string * string) :=
  match s with
  | EmptyString => None
  | String c r =>
      if (nat_of_ascii c =? 34)%nat then Some (PyStr.rev_string EmptyString acc, r)
      else if (nat_of_ascii c =? 92)%nat then
        match r with
        | String e r' =>
            if (nat_of_ascii e =? 117)%nat then
              match r' with
              | String h1 (String h2 (String h3 (String h4 r5))) =>
                  match hex_val h1, hex_val h2, hex_val h3, hex_val h4 with
                  | Some a, Some b, Some c', Some d =>
                      parse_string_body r5
                        (PyStr.rev_string acc (utf8 (((a * 16 + b) * 16 + c') * 16 + d)))
                  | _, _, _, _ => None
                  end
              | _ => None
              end
            else
              match simple_escape e with
              | Some x => parse_string_body r' (String x acc)
              | None => None
              end
        | EmptyString => None
        end
      else if (nat_of_ascii c <? 32)%nat then None
      else parse_string_body r (String c acc)
  end.

(** Assignment to a dictionary key: the last value wins, the position of the
    first insertion is kept. *)
Fixpoint dict_set (k : string) (v : pyval) (kv : list (string * pyval))
  : list (string * pyval) :=
  match kv with
  | [] => [(k, v)]
  | (k', v') :: rest =>
      if String.eqb k k' then (k', v) :: rest else (k', v') :: dict_set k v rest
  end.

Definition parse_literal (s : string) : option (pyval * string) :=
  match drop_prefix "null" s with Some r => Some (PNone, r) | None =>
  match drop_prefix "true" s with Some r => Some (PBool true, r) | None =>
  match drop_prefix "false" s with Some r => Some (PBool false, r) | None =>
  match drop_prefix "NaN" s with Some r => Some (PFloat NaN, r) | None =>
  match drop_prefix "Infinity" s with Some r => Some (PFloat PosInf, r) | None =>
  match drop_prefix "-Infinity" s with Some r => Some (PFloat NegInf, r) | None =>
  parse_number s
  end end end end end end.

Fixpoint parse_value (fuel : nat) (s : string) : option (pyval * string) :=
  match fuel with
  | O => None
  | S fuel' =>
      match s with
      | String c r =>
          if (nat_of_ascii c =? 34)%nat then
            match parse_string_body r EmptyString with
            | Some (str, r') => Some (PStr str, r')
            | None => None
            end
          else if (nat_of_ascii c =? 91)%nat then
            match skip_ws r with
            | String c' r' =>
                if (nat_of_ascii c' =? 93)%nat then Some (PList [], r')
                else parse_elems fuel' (skip_ws r) []
            | EmptyString => None
            end
          else if (nat_of_ascii c =? 123)%nat then
            match skip_ws r with
            | String c' r' =>
                if (nat_of_ascii c' =? 125)%nat then Some (PDict [], r')
                else parse_members fuel' (skip_ws r) []
            | EmptyString => None
            end
          else parse_literal s
      | EmptyString => None
      end
  end

with parse_elems (fuel : nat) (s : string) (acc : list pyval)
  : option (pyval * string) :=
  match fuel with
  | O => None
  | S fuel' =>
      match parse_value fuel' s with
      | Some (v, r) =>
          match skip_ws r with
          | String c r' =>
              if (nat_of_ascii c =? 44)%nat then parse_elems fuel' (skip_ws r') (v :: acc)
              else if (nat_of_ascii c =? 93)%nat then Some (PList (rev (v :: acc)), r')
              else None
          | EmptyString => None
          end
      | None => None
      end
  end

with parse_members (fuel : nat) (s : string) (acc : list (string * pyval))
  : option (pyval * string) :=
  match fuel with
  | O => None
  | S fuel' =>
      match s with
      | String q r =>
          if (nat_of_ascii q =? 34)%nat then
            match parse_string_body r EmptyString with
            | Some (k, r1) =>
                match skip_ws r1 with
                | String colon r2 =>
                    if (nat_of_ascii colon =? 58)%nat then
                      match parse_value fuel' (skip_ws r2) with
                      | Some (v, r3) =>
                          match skip_ws r3 with
                          | String c r4 =>
                              if (nat_of_ascii c =? 44)%nat
                              then parse_members fuel' (skip_ws r4) (dict_set k v acc)
                              else if (nat_of_ascii c =? 125)%nat
                              then Some (PDict (dict_set k v acc), r4)
                              else None
                          | EmptyString => None
                          end
                      | None => None
                      end
                    else None
                | EmptyString => None
                end
            | None => None
            end
          else None
      | EmptyString => None
      end
  end.

(** [json.loads(s)]: one value between optional white space. *)
Definition loads (s : string) : option pyval :=
  match parse_value (2 * String.length s + 2) (skip_ws s) with
  | Some (v, r) =>
      match skip_ws r with
      | EmptyString => Some v
      | _ => None
      end
  | None => None
  end.

Fixpoint digits_of (fuel : nat) (n : N) (acc : string) : string :=
  match fuel with
  | O => acc
  | S fuel' =>
      let acc' := String (ascii_of_N (48 + N.modulo n 10)) acc in
      if (n <? 10)%N then acc' else digits_of fuel' (N.div n 10) acc'
  end.

(** [repr] of the scalars whose text is fixed by their value; any other
    value is left to the host and rendered as its type name here. *)
Definition repr (v : pyval) : string :=
  match v with
  | PNone => "None"
  | PBool true => "True"
  | PBool false => "False"
  | PInt z =>
      let d := digits_of (S (N.to_nat (N.log2 (Z.abs_N z)))) (Z.abs_N z) EmptyString in
      if (z <? 0)%Z then String "-" d else d
  | PFloat _ => "float"
  | PStr s => s
  | PList _ => "list"
  | PDict _ => "dict"
  end.

End Json.

#[export] Instance ref_runtime : PyRuntime :=
  {| json_loads := Json.loads; py_repr := Json.repr |}.

(* ===================================================================== *)
(** ** Geo-distance estimator ([app/utils/distance.py]) *)
(* ===================================================================== *)

Module Geo.

(** Truth value of an optional coordinate: [None] and [0.0] are falsy. *)
Definition coord_truthy (c : option Q) : bool :=
  match c with
  | Some q => negb (Qeq_bool q 0)
  | None => false
  end.

(** [math.radians] *)
Definition radians (x : R) : R := (x * PI / 180)%R.

(** The quantity [a] of [calculate_distance_haversine]. *)
Definition haversine_a (lat1 lon1 lat2 lon2 : R) : R :=
  let dlat := radians (lat2 - lat1) in
  let dlon := radians (lon2 - lon1) in
  ((sin (dlat / 2)) ^ 2
   + cos (radians lat1) * cos (radians lat2) * (sin (dlon / 2)) ^ 2)%R.

(** The body of [calculate_distance_haversine] once the guard has passed. *)
Definition haversine (lat1 lon1 lat2 lon2 : R) : R :=
  let R_earth := 6371%R in
  let a := haversine_a lat1 lon1 lat2 lon2 in
  let c := (2 * asin (sqrt a))%R in
  (R_earth * c)%R.

(** A coordinate the guard rejects: absent, or zero. *)
Definition missing_or_zero (c : option Q) : Prop :=
  match c with
  | Some q => q == 0
  | None => True
  end.

(** A coordinate that is supplied and equal to zero. *)
Definition is_zero (c : option Q) : Prop :=
  match c with
  | Some q => q == 0
  | None => False
  end.

(** [if not all([lat1, lon1, lat2, lon2]): return None] *)
Definition calculate_distance_haversine (lat1 lon1 lat2 lon2 : option Q) : option R :=
  if coord_truthy lat1 && coord_truthy lon1 && coord_truthy lat2 && coord_truthy lon2
  then
    match lat1, lon1, lat2, lon2 with
    | Some a, Some b, Some c, Some d => Some (haversine (Q2R a) (Q2R b) (Q2R c) (Q2R d))
    | _, _, _, _ => None
    end
  else None.

(** [calculate_distance] with its defaults [use_google=False, api_key=None],
    the way the engine calls it. *)
Definition calculate_distance (lat1 lon1 lat2 lon2 : option Q) : option R :=
  calculate_distance_haversine lat1 lon1 lat2 lon2.

(** [distance and distance <= km] *)
Definition within_km (km : R) (distance : option R) : bool :=
  match distance with
  | Some d =>
      if Req_dec_T d 0 then false
      else if Rle_dec d km then true else false
  | None => false
  end.

End Geo.

(* ===================================================================== *)
(** ** Data model ([app/models]) *)
(* ===================================================================== *)

Definition Qltb (a b : Q) : bool :=
  match Qcompare a b with Lt => true | _ => false end.

(** Truth value of a nullable text column. *)
Definition text_truthy (c : option string) : bool :=
  match c with
  | Some s => PyStr.nonempty s
  | None => false
  end.

(** SQL equality of a nullable text column with a value. *)
Definition column_is (c : option string) (v : string) : bool :=
  match c with
  | Some s => String.eqb s v
  | None => false
  end.

Module User.

Record t : Type := {
  id : Z;
  dietary_preferences : option string;
  dietary_restrictions : option string;
  allergens : option string;
  spice_level : option string;
  preferred_cuisines : option string;
  budget_preference : option string;
  meal_preferences : option string
}.

Section Accessors.
Context {rt : PyRuntime}.

(** [get_preferred_cuisines_list]: always a list of strings. *)
Definition get_preferred_cuisines_list (u : t) : list string :=
  match preferred_cuisines u with
  | Some s =>
      if PyStr.nonempty s then
        match json_loads s with
        | Some (PList parsed) =>
            map (fun c => PyStr.strip (py_str c))
                (filter (fun c => truthy c && PyStr.nonempty (PyStr.strip (py_str c))) parsed)
        | Some _ =>
            if PyStr.nonempty (PyStr.strip s) then [PyStr.strip s] else []
        | None =>
            if PyStr.contains "," s
            then map PyStr.strip
                   (filter (fun c => PyStr.nonempty (PyStr.strip c)) (PyStr.split_on "," s))
            else if PyStr.nonempty (PyStr.strip s) then [PyStr.strip s] else []
        end
      else []
  | None => []
  end.

Definition get_meal_preferences_list (u : t) : pyval :=
  parse_list_column (meal_preferences u).

Definition get_allergens_list (u : t) : pyval :=
  parse_list_column (allergens u).

Definition get_dietary_restrictions_list (u : t) : pyval :=
  parse_list_column (dietary_restrictions u).

End Accessors.
End User.

Module Dish.

Record t : Type := {
  id : Z;
  producer_id : Z;
  name : string;
  description : option string;
  price : Q;
  currency : option string;
  category : option string;
  dietary_type : option string;
  spice_level : option string;
  allergens : option string;
  ingredients : option string;
  is_available : bool;
  average_rating : option Q;
  view_count : option Z;
  order_count : option Z
}.

Definition get_allergens_list {rt : PyRuntime} (d : t) : pyval :=
  parse_list_column (allergens d).

End Dish.

Module Producer.

Record t : Type := {
  id : Z;
  cuisine_specialty : option string;
  latitude : option Q;
  longitude : option Q;
  status : option string;
  is_active : bool
}.

End Producer.

Module Order.

(** An order with the dish ids of its items. *)
Record t : Type := {
  customer_id : Z;
  producer_id : Z;
  payment_status : option string;
  items : list Z
}.

End Order.

Module Review.

Record t : Type := {
  user_id : Z;
  dish_id : option Z;
  rating : Z;
  is_visible : bool
}.

End Review.

(** The tables the engine reads. *)
Record Database : Type := {
  dishes : list Dish.t;
  producers : list Producer.t;
  orders : list Order.t;
  reviews : list Review.t
}.

(* ===================================================================== *)
(** ** Queries and Python list operations *)
(* ===================================================================== *)

(** A stable sort: [before y x] says that [y] goes strictly before [x]. *)
Fixpoint insert_by {A : Type} (before : A -> A -> bool) (x : A) (l : list A) : list A :=
  match l with
  | [] => [x]
  | y :: l' => if before y x then y :: insert_by before x l' else x :: y :: l'
  end.

Fixpoint sort_by {A : Type} (before : A -> A -> bool) (l : list A) : list A :=
  match l with
  | [] => []
  | x :: l' => insert_by before x (sort_by before l')
  end.

(** Descending comparison of nullable columns, NULL below every value. *)
Definition desc_cmp {A : Type} (cmp : A -> A -> comparison) (a b : option A) : comparison :=
  match a, b with
  | Some x, Some y => cmp y x
  | Some _, None => Lt
  | None, Some _ => Gt
  | None, None => Eq
  end.

Definition lex (c1 c2 : comparison) : comparison :=
  match c1 with Eq => c2 | _ => c1 end.

(** [ORDER BY average_rating DESC, order_count DESC, view_count DESC] *)
Definition popularity_before (y x : Dish.t) : bool :=
  match lex (desc_cmp Qcompare (Dish.average_rating y) (Dish.average_rating x))
        (lex (desc_cmp Z.compare (Dish.order_count y) (Dish.order_count x))
             (desc_cmp Z.compare (Dish.view_count y) (Dish.view_count x))) with
  | Lt => true
  | _ => false
  end.

(** [ORDER BY average_rating DESC, order_count DESC] *)
Definition rating_before (y x : Dish.t) : bool :=
  match lex (desc_cmp Qcompare (Dish.average_rating y) (Dish.average_rating x))
            (desc_cmp Z.compare (Dish.order_count y) (Dish.order_count x)) with
  | Lt => true
  | _ => false
  end.

(** [.limit(n)]: a negative count does not bound the result. *)
Definition sql_limit {A : Type} (n : Z) (rows : list A) : list A :=
  if (n <? 0)%Z then rows else firstn (Z.to_nat n) rows.

(** [l[:n]] *)
Definition py_take {A : Type} (n : Z) (l : list A) : list A :=
  if (n <? 0)%Z then firstn (length l - Z.to_nat (- n)) l
  else firstn (Z.to_nat n) l.

(** [x in ids] *)
Definition id_in (x : Z) (ids : list Z) : bool := existsb (Z.eqb x) ids.

(** [Dish.query.filter_by(is_available=True)] *)
Definition available_dishes (db : Database) : list Dish.t :=
  filter Dish.is_available (dishes db).

(** [Producer.query.filter_by(status='approved', is_active=True).all()] *)
Definition approved_producers (db : Database) : list Producer.t :=
  filter (fun p => column_is (Producer.status p) "approved" && Producer.is_active p)
         (producers db).

(** [Producer.query.get(pid)] *)
Definition get_producer (db : Database) (pid : Z) : option Producer.t :=
  find (fun p => (Producer.id p =? pid)%Z) (producers db).

(** [.filter(Dish.producer_id.in_(ids))] *)
Definition from_producers (ids : list Z) (q : list Dish.t) : list Dish.t :=
  filter (fun d => id_in (Dish.producer_id d) ids) q.

(** [.filter_by(dietary_type=v)] and [.filter_by(spice_level=v)] *)
Definition with_dietary_type (v : string) (q : list Dish.t) : list Dish.t :=
  filter (fun d => column_is (Dish.dietary_type d) v) q.

Definition with_spice_level (v : string) (q : list Dish.t) : list Dish.t :=
  filter (fun d => column_is (Dish.spice_level d) v) q.

(** [query.order_by(rating, orders, views).limit(n).all()] *)
Definition fetch (n : Z) (q : list Dish.t) : list Dish.t :=
  sql_limit n (sort_by popularity_before q).

(* ===================================================================== *)
(** ** The recommendation engine ([app/routes/ai.py]) *)
(* ===================================================================== *)

Section Engine.
Context {rt : PyRuntime}.

Local Open Scope Q_scope.

(** *** Behaviour signals *)

(** [Order.query.filter_by(customer_id=user.id, payment_status='paid')] *)
Definition paid_orders (db : Database) (user : User.t) : list Order.t :=
  filter (fun o => (Order.customer_id o =? User.id user)%Z
                   && column_is (Order.payment_status o) "paid")
         (orders db).

Definition ordered_dish_ids (db : Database) (user : User.t) : list Z :=
  flat_map Order.items (paid_orders db user).

(** The producer of an order is recorded once per item of the order. *)
Definition ordered_producer_ids (db : Database) (user : User.t) : list Z :=
  flat_map (fun o => map (fun _ => Order.producer_id o) (Order.items o))
           (paid_orders db user).

(** Dishes of the user's visible reviews with [rating >= 4]. *)
Definition liked_dish_ids (db : Database) (user : User.t) : list Z :=
  flat_map (fun r => match Review.dish_id r with Some d => [d] | None => [] end)
           (filter (fun r => (Review.user_id r =? User.id user)%Z
                             && Review.is_visible r
                             && (4 <=? Review.rating r)%Z)
                   (reviews db)).

(** *** Candidate filter cascade *)

(** STEP 1: producers within [km] of the caller. *)
Definition nearby_producer_ids (db : Database) (lat lon : option Q) (km : R) : list Z :=
  map Producer.id
      (filter (fun p =>
                 Geo.coord_truthy (Producer.latitude p)
                 && Geo.coord_truthy (Producer.longitude p)
                 && Geo.within_km km
                      (Geo.calculate_distance lat lon
                         (Producer.latitude p) (Producer.longitude p)))
              (approved_producers db)).

Definition location_stage (db : Database) (lat lon : option Q) (km : R)
           (query : list Dish.t) : list Dish.t :=
  if Geo.coord_truthy lat && Geo.coord_truthy lon then
    match nearby_producer_ids db lat lon km with
    | [] => query
    | ids => from_producers ids query
    end
  else query.

(** STEP 2: approved producers whose specialty matches a preferred cuisine. *)
Definition matching_cuisine_producer_ids (db : Database) (prefs : list string) : list Z :=
  map Producer.id
      (filter (fun p =>
                 match Producer.cuisine_specialty p with
                 | Some spec =>
                     PyStr.nonempty spec
                     && existsb (fun user_cuisine =>
                                   cuisine_matches (PyStr.strip user_cuisine) spec) prefs
                 | None => false
                 end)
              (approved_producers db)).

(** The flags the cascade keeps while it narrows the query. *)
Record Filters : Type := {
  cuisine_filter_applied : bool;
  dietary_filter_applied : bool;
  spice_filter_applied : bool
}.

(** Dietary type, then spice level, as hard filters. *)
Definition dietary_spice_stage (user : User.t) (query : list Dish.t)
  : list Dish.t * bool * bool :=
  let '(query, dietary) :=
    match User.dietary_preferences user with
    | Some pref =>
        if PyStr.nonempty pref
        then (with_dietary_type (PyStr.lower pref) query, true)
        else (query, false)
    | None => (query, false)
    end in
  let '(query, spice) :=
    match User.spice_level user with
    | Some pref =>
        if PyStr.nonempty pref
        then (with_spice_level (PyStr.lower pref) query, true)
        else (query, false)
    | None => (query, false)
    end in
  (query, dietary, spice).

(** STEPS 1 to 4: the strict query and the flags. *)
Definition strict_query (db : Database) (user : User.t) (lat lon : option Q)
  : list Dish.t * Filters :=
  let prefs := User.get_preferred_cuisines_list user in
  let query := location_stage db lat lon 20%R (available_dishes db) in
  match prefs with
  | _ :: _ =>
      match matching_cuisine_producer_ids db prefs with
      | (_ :: _) as ids =>
          (from_producers ids query,
           {| cuisine_filter_applied := true;
              dietary_filter_applied := false;
              spice_filter_applied := false |})
      | [] =>
          let '(query, dietary, spice) := dietary_spice_stage user query in
          (query,
           {| cuisine_filter_applied := false;
              dietary_filter_applied := dietary;
              spice_filter_applied := spice |})
      end
  | [] =>
      let '(query, dietary, spice) := dietary_spice_stage user query in
      (query,
       {| cuisine_filter_applied := false;
          dietary_filter_applied := dietary;
          spice_filter_applied := spice |})
  end.

Definition is_empty {A : Type} (l : list A) : bool :=
  match l with [] => true | _ => false end.

(** Fallback level 1: drop the cuisine filter, try dietary and spice. *)
Definition fallback_level1 (db : Database) (user : User.t) (limit : Z)
           (st : list Dish.t * Filters) : list Dish.t * Filters :=
  let '(found, f) := st in
  if cuisine_filter_applied f then
    let '(query, dietary, spice) := dietary_spice_stage user (available_dishes db) in
    (fetch (limit * 5) query,
     {| cuisine_filter_applied := false;
        dietary_filter_applied := dietary || dietary_filter_applied f;
        spice_filter_applied := spice || spice_filter_applied f |})
  else st.

(** Fallback level 2: drop the spice filter. *)
Definition fallback_level2 (db : Database) (user : User.t) (limit : Z)
           (st : list Dish.t * Filters) : list Dish.t * Filters :=
  let '(found, f) := st in
  if is_empty found && spice_filter_applied f then
    let query :=
      match User.dietary_preferences user with
      | Some pref =>
          if dietary_filter_applied f && PyStr.nonempty pref
          then with_dietary_type (PyStr.lower pref) (available_dishes db)
          else available_dishes db
      | None => available_dishes db
      end in
    (fetch (limit * 5) query,
     {| cuisine_filter_applied := cuisine_filter_applied f;
        dietary_filter_applied := dietary_filter_applied f;
        spice_filter_applied := false |})
  else st.

(** Fallback level 3: drop the dietary filter. *)
Definition fallback_level3 (db : Database) (limit : Z)
           (st : list Dish.t * Filters) : list Dish.t * Filters :=
  let '(found, f) := st in
  if is_empty found && dietary_filter_applied f then
    (fetch (limit * 5) (available_dishes db),
     {| cuisine_filter_applied := cuisine_filter_applied f;
        dietary_filter_applied := false;
        spice_filter_applied := spice_filter_applied f |})
  else st.

(** Fallback level 4: any available dish. *)
Definition fallback_level4 (db : Database) (limit : Z)
           (st : list Dish.t * Filters) : list Dish.t * Filters :=
  let '(found, f) := st in
  if is_empty found then (fetch (limit * 5) (available_dishes db), f) else st.

(** The candidate pool handed to the scorer, with the final flags. *)
Definition candidate_pool (db : Database) (user : User.t) (lat lon : option Q)
           (limit : Z) : list Dish.t * Filters :=
  let '(query, f) := strict_query db user lat lon in
  let found := fetch (limit * 5) query in
  if is_empty found then
    fallback_level4 db limit
      (fallback_level3 db limit
         (fallback_level2 db user limit
            (fallback_level1 db user limit (found, f))))
  else (found, f).

(** *** Relevance scorer *)

(** The loop over the preferred cuisines: it stops at the first match and
    returns [match_count] and [cuisine_match]. *)
Fixpoint cuisine_loop (prefs : list string) (spec : string) (match_count : Z) : Z * bool :=
  match prefs with
  | [] => (match_count, false)
  | user_cuisine :: rest =>
      if cuisine_matches user_cuisine spec
      then ((match_count + 1)%Z, true)
      else cuisine_loop rest spec match_count
  end.

(** Cuisine step: the new score and [dish_cuisine_matches]. *)
Definition cuisine_step (db : Database) (prefs : list string) (dish : Dish.t) (score : Q)
  : Q * bool :=
  match prefs with
  | [] => (score, false)
  | _ :: _ =>
      match get_producer db (Dish.producer_id dish) with
      | Some producer =>
          match Producer.cuisine_specialty producer with
          | Some spec =>
              if PyStr.nonempty spec then
                let '(match_count, cuisine_match) := cuisine_loop prefs spec 0%Z in
                if cuisine_match then
                  let score := score + 40 in
                  if (1 <? match_count)%Z
                  then (score + inject_Z (5 * (match_count - 1)), true)
                  else (score, true)
                else (score - 20, false)
              else (score, false)
          | None => (score, false)
          end
      | None => (score, false)
      end
  end.

Definition rating_step (dish : Dish.t) (score : Q) : Q :=
  score + match Dish.average_rating dish with Some r => r | None => 0 end * 10.

Definition count_or_zero (c : option Z) : Q :=
  match c with Some n => inject_Z n | None => 0 end.

Definition popularity_step (dish : Dish.t) (score : Q) : Q :=
  let score := score + Qmin (count_or_zero (Dish.order_count dish) * (1 # 10)) 20 in
  score + Qmin (count_or_zero (Dish.view_count dish) * (1 # 100)) 10.

Definition behaviour_step (db : Database) (user : User.t) (dish : Dish.t) (score : Q) : Q :=
  let score :=
    if id_in (Dish.producer_id dish) (ordered_producer_ids db user)
    then score + 25 else score in
  let score :=
    if id_in (Dish.id dish) (liked_dish_ids db user) then score + 50 else score in
  if negb (id_in (Dish.id dish) (ordered_dish_ids db user)) then score + 5 else score.

(** [col and col.lower() == pref.lower()] *)
Definition same_lower (col : option string) (pref : string) : bool :=
  match col with
  | Some v => PyStr.nonempty v && String.eqb (PyStr.lower v) (PyStr.lower pref)
  | None => false
  end.

Definition dietary_step (user : User.t) (cuisine_applied dish_cuisine_matches : bool)
           (dish : Dish.t) (score : Q) : Q :=
  match User.dietary_preferences user with
  | Some pref =>
      if PyStr.nonempty pref then
        if same_lower (Dish.dietary_type dish) pref then
          if cuisine_applied || dish_cuisine_matches then score + 20 else score + 15
        else if text_truthy (Dish.dietary_type dish) then
          if dish_cuisine_matches then score - 5
          else if cuisine_applied then score - 10
          else score - 15
        else score
      else score
  | None => score
  end.

Definition spice_step (user : User.t) (cuisine_applied dish_cuisine_matches : bool)
           (dish : Dish.t) (score : Q) : Q :=
  match User.spice_level user with
  | Some pref =>
      if PyStr.nonempty pref then
        if same_lower (Dish.spice_level dish) pref then
          if cuisine_applied || dish_cuisine_matches then score + 15 else score + 12
        else if text_truthy (Dish.spice_level dish) then
          if dish_cuisine_matches then score - 2 else score - 5
        else score
      else score
  | None => score
  end.

(** One meal preference against the lower-cased category. *)
Definition meal_pref_matches (dish_category_lower : string) (meal_pref : pyval) : bool :=
  match as_str meal_pref with
  | Some m =>
      let meal_pref_lower := PyStr.lower m in
      PyStr.contains meal_pref_lower dish_category_lower
      || PyStr.contains dish_category_lower meal_pref_lower
  | None => false
  end.

Definition meal_step (meal_preferences_list : pyval) (dish : Dish.t) (score : Q) : res Q :=
  if truthy meal_preferences_list && text_truthy (Dish.category dish) then
    let dish_category_lower :=
      PyStr.lower (match Dish.category dish with Some c => c | None => "" end) in
    (prefs <- py_iter meal_preferences_list ;;
     Ok (if existsb (meal_pref_matches dish_category_lower) prefs
         then score + 15 else score - 5))%res
  else Ok score.

(** The price in pounds: rupees are divided by 100. *)
Definition dish_price_gbp (dish : Dish.t) : Q :=
  if column_is (Dish.currency dish) "INR"
     || (match Dish.currency dish with None => true | Some _ => false end
         && Qltb 50 (Dish.price dish))
  then Dish.price dish / 100
  else Dish.price dish.

Definition budget_step (user : User.t) (dish : Dish.t) (score : Q) : Q :=
  let price := dish_price_gbp dish in
  match User.budget_preference user with
  | Some b =>
      if PyStr.nonempty b then
        let budget_pref := PyStr.lower b in
        if String.eqb budget_pref "low" && Qle_bool price 10 then score + 25
        else if String.eqb budget_pref "medium" && Qltb 10 price && Qle_bool price 20
        then score + 25
        else if String.eqb budget_pref "high" && Qltb 20 price then score + 25
        else if String.eqb budget_pref "low" && Qltb 20 price then score - 40
        else if String.eqb budget_pref "high" && Qltb price 10 then score - 15
        else score
      else score
  | None => score
  end.

Definition dairy_keywords : list string :=
  ["dairy"; "milk"; "cream"; "butter"; "cheese"; "yogurt"; "curd"].

Definition jain_avoid : list string :=
  ["onion"; "garlic"; "root"; "potato"; "ginger"].

Definition text_or_empty (c : option string) : string :=
  match c with
  | Some s => s
  | None => ""
  end.

Definition restrictions_step (dietary_restrictions_list : pyval) (dish : Dish.t)
           (score : Q) : res Q :=
  if truthy dietary_restrictions_list then
    let dish_desc :=
      PyStr.lower (text_or_empty (Dish.description dish) ++ " "
                   ++ text_or_empty (Dish.ingredients dish)) in
    (gluten <- py_in "gluten-free" dietary_restrictions_list ;;
     let score :=
       if gluten && PyStr.contains "gluten" dish_desc then score - 50 else score in
     lactose <- py_in "lactose-free" dietary_restrictions_list ;;
     let score :=
       if lactose && existsb (fun keyword => PyStr.contains keyword dish_desc) dairy_keywords
       then score - 50 else score in
     jain <- py_in "jain" dietary_restrictions_list ;;
     Ok (if jain && existsb (fun avoid => PyStr.contains avoid dish_desc) jain_avoid
         then score - 50 else score))%res
  else Ok score.

(** A user allergen against one allergen of the dish, either direction. *)
Definition allergen_hits (allergen_lower : string) (dish_allergen : pyval) : bool :=
  let d := PyStr.lower (py_str dish_allergen) in
  PyStr.contains allergen_lower d || PyStr.contains d allergen_lower.

(** The loop over the user's allergens: 60 off for each one found among the
    allergens of the dish. *)
Fixpoint allergen_loop (allergens : list pyval) (dish_allergens : pyval) (score : Q)
  : res Q :=
  match allergens with
  | [] => Ok score
  | allergen :: rest =>
      match as_str allergen with
      | Some a =>
          (declared <- py_iter dish_allergens ;;
           allergen_loop rest dish_allergens
             (if existsb (allergen_hits (PyStr.lower a)) declared
              then score - 60 else score))%res
      | None => allergen_loop rest dish_allergens score
      end
  end.

Definition allergen_step (allergens_list : pyval) (dish : Dish.t) (score : Q) : res Q :=
  let dish_allergens := Dish.get_allergens_list dish in
  if truthy allergens_list && truthy dish_allergens then
    (allergens <- py_iter allergens_list ;;
     allergen_loop allergens dish_allergens score)%res
  else Ok score.

(** The score before the allergen penalty, with [dish_cuisine_matches]. *)
Definition score_before_allergens (db : Database) (user : User.t) (cuisine_applied : bool)
           (dish : Dish.t) : res (Q * bool) :=
  let '(score, dish_cuisine_matches) :=
    cuisine_step db (User.get_preferred_cuisines_list user) dish 0 in
  let score := rating_step dish score in
  let score := popularity_step dish score in
  let score := behaviour_step db user dish score in
  let score := dietary_step user cuisine_applied dish_cuisine_matches dish score in
  let score := spice_step user cuisine_applied dish_cuisine_matches dish score in
  (score <- meal_step (User.get_meal_preferences_list user) dish score ;;
   let score := budget_step user dish score in
   score <- restrictions_step (User.get_dietary_restrictions_list user) dish score ;;
   Ok (score, dish_cuisine_matches))%res.

(** The computed score of a dish, with [dish_cuisine_matches]. *)
Definition computed_score (db : Database) (user : User.t) (cuisine_applied : bool)
           (dish : Dish.t) : res (Q * bool) :=
  (p <- score_before_allergens db user cuisine_applied dish ;;
   score <- allergen_step (User.get_allergens_list user) dish (fst p) ;;
   Ok (score, snd p))%res.

(** The inclusion rule: the entry appended to [scored_dishes], if any. *)
Definition scored_entry (dish : Dish.t) (score : Q) (dish_cuisine_matches : bool)
  : option (Dish.t * Q) :=
  if dish_cuisine_matches then
    Some (dish, if Qltb score 20 then 20 else score)
  else if Qltb (-30) score then Some (dish, score)
  else None.

(** The scoring loop over the pool. *)
Fixpoint score_dishes (db : Database) (user : User.t) (cuisine_applied : bool)
         (pool : list Dish.t) : res (list (Dish.t * Q)) :=
  match pool with
  | [] => Ok []
  | dish :: rest =>
      (p <- computed_score db user cuisine_applied dish ;;
       scored <- score_dishes db user cuisine_applied rest ;;
       Ok (match scored_entry dish (fst p) (snd p) with
           | Some e => e :: scored
           | None => scored
           end))%res
  end.

(** *** Result composer *)

(** [sort(key=score, reverse=True)]: higher scores first, ties in place. *)
Definition score_before (y x : Dish.t * Q) : bool := Qltb (snd x) (snd y).

(** The cuisine test of the partition step. *)
Definition is_cuisine_match (db : Database) (prefs : list string) (dish : Dish.t) : bool :=
  match get_producer db (Dish.producer_id dish) with
  | Some producer =>
      match Producer.cuisine_specialty producer with
      | Some spec =>
          PyStr.nonempty spec
          && existsb (fun user_cuisine =>
                        cuisine_matches (PyStr.strip user_cuisine) spec) prefs
      | None => false
      end
  | None => false
  end.

Definition cuisine_matched_list (db : Database) (prefs : list string)
           (scored_dishes : list (Dish.t * Q)) : list (Dish.t * Q) :=
  sort_by score_before
    (filter (fun e => is_cuisine_match db prefs (fst e)) scored_dishes).

Definition other_dishes_list (db : Database) (prefs : list string)
           (scored_dishes : list (Dish.t * Q)) : list (Dish.t * Q) :=
  sort_by score_before
    (filter (fun e => negb (is_cuisine_match db prefs (fst e))) scored_dishes).

(** [top_dishes] before the filling step, each dish with its score. *)
Definition top_dishes (db : Database) (prefs : list string) (limit : Z)
           (scored_dishes : list (Dish.t * Q)) : list (Dish.t * Q) :=
  match prefs with
  | _ :: _ =>
      let matched := cuisine_matched_list db prefs scored_dishes in
      let others := other_dishes_list db prefs scored_dishes in
      let top := py_take limit matched in
      if (Z.of_nat (length top) <? limit)%Z && negb (is_empty others)
      then top ++ py_take (limit - Z.of_nat (length top)) others
      else top
  | [] => py_take limit scored_dishes
  end.

(** [{d.id: d for d, s in scored_dishes}]: keys in order of first insertion,
    the last dish of a key wins. *)
Fixpoint dish_dict_set (d : Dish.t) (dict : list (Z * Dish.t)) : list (Z * Dish.t) :=
  match dict with
  | [] => [(Dish.id d, d)]
  | (k, v) :: rest =>
      if (k =? Dish.id d)%Z then (k, d) :: rest else (k, v) :: dish_dict_set d rest
  end.

Definition all_dishes_dict (scored_dishes : list (Dish.t * Q)) : list (Z * Dish.t) :=
  fold_left (fun dict e => dish_dict_set (fst e) dict) scored_dishes [].

(** [next((s for dish, s in scored_dishes if dish.id == d.id), -100)] *)
Definition score_of (scored_dishes : list (Dish.t * Q)) (d : Dish.t) : Q :=
  match find (fun e => (Dish.id (fst e) =? Dish.id d)%Z) scored_dishes with
  | Some e => snd e
  | None => -100
  end.

(** The filling step.  Rows are identified by their primary key. *)
Definition fill (limit : Z) (scored_dishes top : list (Dish.t * Q)) : list (Dish.t * Q) :=
  if (Z.of_nat (length top) <? limit)%Z then
    let remaining_dishes :=
      filter (fun d => negb (id_in (Dish.id d) (map (fun e => Dish.id (fst e)) top)))
             (map snd (all_dishes_dict scored_dishes)) in
    let remaining_with_scores :=
      sort_by score_before (map (fun d => (d, score_of scored_dishes d)) remaining_dishes) in
    let remaining := filter (fun e => Qltb (-20) (snd e)) remaining_with_scores in
    top ++ py_take (limit - Z.of_nat (length top)) remaining
  else top.

(** The ranked dishes with their scores, from the scored candidates. *)
Definition compose (db : Database) (prefs : list string) (limit : Z)
           (scored : list (Dish.t * Q)) : list (Dish.t * Q) :=
  let scored_dishes := sort_by score_before scored in
  fill limit scored_dishes (top_dishes db prefs limit scored_dishes).

(** The scored candidates of a call. *)
Definition scored_candidates (db : Database) (user : User.t) (lat lon : option Q)
           (limit : Z) : res (list (Dish.t * Q)) :=
  let '(pool, f) := candidate_pool db user lat lon limit in
  score_dishes db user (cuisine_filter_applied f) pool.

(** The ranked result of a call whose pool is not empty. *)
Definition ranked (db : Database) (user : User.t) (lat lon : option Q) (limit : Z)
  : res (list (Dish.t * Q)) :=
  (scored <- scored_candidates db user lat lon limit ;;
   Ok (compose db (User.get_preferred_cuisines_list user) limit scored))%res.

(** [get_rule_based_recommendations(user, lat, lon, limit)]: the dishes whose
    dictionaries the function returns, in order. *)
Definition get_rule_based_recommendations (db : Database) (user : User.t)
           (lat lon : option Q) (limit : Z) : res (list Dish.t) :=
  if is_empty (fst (candidate_pool db user lat lon limit)) then
    Ok (sql_limit limit (sort_by rating_before (available_dishes db)))
  else
    (top <- ranked db user lat lon limit ;;
     Ok (map fst top))%res.

(** [get_popular_dishes] with the query arguments [lat], [lon], [limit]. *)
Definition get_popular_dishes (db : Database) (lat lon : option Q) (limit : Z)
  : list Dish.t :=
  fetch limit (location_stage db lat lon 10%R (available_dishes db)).

End Engine.

(* ===================================================================== *)
(** ** Notions used by the statements *)
(* ===================================================================== *)

(** The vendor of the dish has a specialty that matches a preferred cuisine. *)
Definition vendor_matches (db : Database) (prefs : list string) (dish : Dish.t) : Prop :=
  exists producer spec user_cuisine,
    get_producer db (Dish.producer_id dish) = Some producer
    /\ Producer.cuisine_specialty producer = Some spec
    /\ In user_cuisine prefs
    /\ cuisine_matches user_cuisine spec = true.

(** The specialty of the vendor of a dish, when there is one. *)
Definition vendor_specialty (db : Database) (dish : Dish.t) : option string :=
  match get_producer db (Dish.producer_id dish) with
  | Some producer =>
      match Producer.cuisine_specialty producer with
      | Some spec => if PyStr.nonempty spec then Some spec else None
      | None => None
      end
  | None => None
  end.

(** How many preferred cuisines match a specialty. *)
Definition count_matching (prefs : list string) (spec : string) : nat :=
  length (filter (fun user_cuisine => cuisine_matches user_cuisine spec) prefs).


(** [x] occurs inside [y]. *)
Definition is_substring (x y : string) : Prop :=
  exists pre post, y = (pre ++ x ++ post)%string.

(** An avoided allergen and a declared one contain one another once both
    are in lower case. *)
Definition allergens_meet {rt : PyRuntime} (avoided : string) (declared : pyval) : Prop :=
  is_substring (PyStr.lower avoided) (PyStr.lower (py_str declared))
  \/ is_substring (PyStr.lower (py_str declared)) (PyStr.lower avoided).


(** [overlap_count declared avoided n]: [n] of the avoided allergens are
    texts that meet a declared allergen. *)
Inductive overlap_count {rt : PyRuntime} (declared : list pyval)
  : list pyval -> nat -> Prop :=
| overlap_none : overlap_count declared [] O
| overlap_hit (a : string) (avoided : list pyval) (n : nat) :
    (exists da, In da declared /\ allergens_meet a da) ->
    overlap_count declared avoided n ->
    overlap_count declared (PStr a :: avoided) (S n)
| overlap_miss (a : string) (avoided : list pyval) (n : nat) :
    ~ (exists da, In da declared /\ allergens_meet a da) ->
    overlap_count declared avoided n ->
    overlap_count declared (PStr a :: avoided) n
| overlap_skip (x : pyval) (avoided : list pyval) (n : nat) :
    as_str x = None ->
    overlap_count declared avoided n ->
    overlap_count declared (x :: avoided) n.

(** A value the engine can loop over whenever it is truthy. *)
Definition iterable_if_truthy (v : pyval) : Prop :=
  truthy v = true -> exists items, py_iter v = Ok items.

(** The list columns of the user and of the dishes hold nothing that would
    raise a [TypeError]: each is empty, a list, a text or a dictionary. *)
Definition lists_well_typed {rt : PyRuntime} (db : Database) (user : User.t) : Prop :=
  iterable_if_truthy (User.get_meal_preferences_list user)
  /\ iterable_if_truthy (User.get_dietary_restrictions_list user)
  /\ iterable_if_truthy (User.get_allergens_list user)
  /\ forall d, In d (dishes db) -> iterable_if_truthy (Dish.get_allergens_list d).

(** A row count the database driver accepts: a signed 64-bit integer.
    Beyond it the driver raises [OverflowError] when the query runs. *)
Definition fits_int64 (n : Z) : Prop := (- 2 ^ 63 <= n < 2 ^ 63)%Z.

(** A call that evaluates no distance: it passes no usable position, or no
    approved producer has one.  ([calculate_distance] computes in floating
    point, where [math.sqrt] and [math.asin] can raise [ValueError].) *)
Definition no_distance_evaluated (db : Database) (lat lon : option Q) : Prop :=
  Geo.coord_truthy lat && Geo.coord_truthy lon = false
  \/ forall p, In p (approved_producers db) ->
                Geo.coord_truthy (Producer.latitude p)
                && Geo.coord_truthy (Producer.longitude p) = false.

(** A three-way comparison that orders its arguments by a key. *)
Definition key_order {A : Type} (cmp : A -> A -> comparison) : Prop :=
  (forall x y, cmp y x = CompOpp (cmp x y))
  /\ (forall x y z, cmp x y = Eq -> cmp x z = cmp y z)
  /\ (forall x y z, cmp x y = Lt -> cmp y z = Lt -> cmp x z = Lt).

(** The comparison behind [popularity_before]. *)
Definition popularity_cmp (y x : Dish.t) : comparison :=
  lex (desc_cmp Qcompare (Dish.average_rating y) (Dish.average_rating x))
      (lex (desc_cmp Z.compare (Dish.order_count y) (Dish.order_count x))
           (desc_cmp Z.compare (Dish.view_count y) (Dish.view_count x))).

(** [x] may be listed before [y] when rows are ordered by rating, then by
    order count, then by view count, each descending: a rated dish before an
    unrated one and the higher rating first; at equal ratings, or when
    neither dish is rated, the higher order count first; at equal order
    counts the higher view count first.  Where a count is NULL the order is
    left to the database. *)
Definition views_in_order (x y : Dish.t) : Prop :=
  match Dish.view_count x, Dish.view_count y with
  | Some v, Some w => (w <= v)%Z
  | _, _ => True
  end.

Definition counts_in_order (x y : Dish.t) : Prop :=
  match Dish.order_count x, Dish.order_count y with
  | Some m, Some n => (n < m)%Z \/ (m = n /\ views_in_order x y)
  | _, _ => True
  end.

Definition listed_in_order (x y : Dish.t) : Prop :=
  match Dish.average_rating x, Dish.average_rating y with
  | Some a, Some b => (b < a)%Q \/ ((a == b)%Q /\ counts_in_order x y)
  | Some _, None => True
  | None, Some _ => False
  | None, None => counts_in_order x y
  end.

(** A text that is empty or starts with a character that is not white
    space, as [lstrip] returns it. *)
Definition clean_head (s : string) : Prop :=
  match s with
  | EmptyString => True
  | String c _ => PyStr.is_space c = false
  end.

(** Scores in descending order. *)
Definition by_score_desc (l : list (Dish.t * Q)) : Prop :=
  StronglySorted (fun x y => snd y <= snd x) l.

(** Every character of the text is in the ASCII range, where [strip] and
    [lower] treat a text as Python does. *)
Definition ascii_text (s : string) : bool :=
  forallb (fun c => (nat_of_ascii c <? 128)%nat) (list_ascii_of_string s).

(** The character [c] occurs in the text. *)
Fixpoint has_char (c : ascii) (s : string) : Prop :=
  match s with
  | EmptyString => False
  | String d s' => c = d \/ has_char c s'
  end.

Definition comma_free (f : string) : Prop := ~ has_char ","%char f.

(** The fields of a text, written back with commas between them. *)
Fixpoint join_commas (fields : list string) : string :=
  match fields with
  | [] => ""
  | f :: rest =>
      match rest with
      | [] => f
      | _ :: _ => (f ++ "," ++ join_commas rest)%string
      end
  end.

(** A text of white space only. *)
Definition blank (f : string) : Prop :=
  forall c, has_char c f -> PyStr.is_space c = true.

(** A text that does not end with white space. *)
Definition clean_tail (t : string) : Prop :=
  forall p c, t = (p ++ String c "")%string -> PyStr.is_space c = false.

(** [t] is the field [f] without the white space around it. *)
Definition trimmed_to (f t : string) : Prop :=
  exists l r,
    f = (l ++ t ++ r)%string
    /\ blank l /\ blank r /\ clean_head t /\ clean_tail t.

(** [kept_fields fields names]: [names] are the fields that are not blank,
    each without the white space around it, in order. *)
Inductive kept_fields : list string -> list string -> Prop :=
| kept_nil : kept_fields [] []
| kept_blank (f : string) (fields names : list string) :
    blank f -> kept_fields fields names -> kept_fields (f :: fields) names
| kept_field (f t : string) (fields names : list string) :
    ~ blank f -> trimmed_to f t -> kept_fields fields names ->
    kept_fields (f :: fields) (t :: names).

(* ===================================================================== *)
(** ** Sample data *)
(* ===================================================================== *)

Module Sample.

(** A customer with the given allergens and preferred cuisines. *)
Definition customer (allergens cuisines : option string) : User.t :=
  {| User.id := 1;
     User.dietary_preferences := None;
     User.dietary_restrictions := None;
     User.allergens := allergens;
     User.spice_level := None;
     User.preferred_cuisines := cuisines;
     User.budget_preference := None;
     User.meal_preferences := None |}.

(** An available dish priced 5 pounds, never rated, ordered or viewed. *)
Definition dish (id producer : Z) (allergens : option string) : Dish.t :=
  {| Dish.id := id;
     Dish.producer_id := producer;
     Dish.name := "Dish";
     Dish.description := None;
     Dish.price := 5;
     Dish.currency := Some "GBP";
     Dish.category := None;
     Dish.dietary_type := None;
     Dish.spice_level := None;
     Dish.allergens := allergens;
     Dish.ingredients := None;
     Dish.is_available := true;
     Dish.average_rating := None;
     Dish.view_count := Some 0%Z;
     Dish.order_count := Some 0%Z |}.

Definition kitchen (id : Z) (specialty : option string) : Producer.t :=
  {| Producer.id := id;
     Producer.cuisine_specialty := specialty;
     Producer.latitude := None;
     Producer.longitude := None;
     Producer.status := Some "approved";
     Producer.is_active := true |}.

(** Ravi's Kitchen (North Indian), Priya's Kitchen (South Indian) and a
    kitchen that has not stated a specialty. *)
Definition kitchens : list Producer.t :=
  [kitchen 1 (Some "North Indian"); kitchen 2 (Some "South Indian"); kitchen 3 None].

(** One dish that declares nuts. *)
Definition nut_catalog : Database :=
  {| dishes := [dish 1 1 (Some "nuts")];
     producers := kitchens;
     orders := [];
     reviews := [] |}.

(** One dish of each kitchen. *)
Definition catalog : Database :=
  {| dishes := [dish 1 1 None; dish 2 2 None; dish 3 3 None];
     producers := kitchens;
     orders := [];
     reviews := [] |}.

(** The JSON text of the list of the two names Tamil and Kerala, as
    [json.dumps] writes it. *)
Definition quote : string := String (ascii_of_nat 34) EmptyString.

Definition two_cuisines_json : string :=
  ("[" ++ quote ++ "Tamil" ++ quote ++ ", " ++ quote ++ "Kerala" ++ quote ++ "]")%string.

(** A customer who eats vegetarian food and likes it hot. *)
Definition vegetarian : User.t :=
  {| User.id := 2;
     User.dietary_preferences := Some "Veg";
     User.dietary_restrictions := None;
     User.allergens := None;
     User.spice_level := Some "hot";
     User.preferred_cuisines := None;
     User.budget_preference := None;
     User.meal_preferences := None |}.

(** A mild vegetarian dish. *)
Definition veg_dish (id producer : Z) : Dish.t :=
  {| Dish.id := id;
     Dish.producer_id := producer;
     Dish.name := "Dal";
     Dish.description := None;
     Dish.price := 5;
     Dish.currency := Some "GBP";
     Dish.category := None;
     Dish.dietary_type := Some "veg";
     Dish.spice_level := Some "mild";
     Dish.allergens := None;
     Dish.ingredients := None;
     Dish.is_available := true;
     Dish.average_rating := None;
     Dish.view_count := Some 0%Z;
     Dish.order_count := Some 0%Z |}.

(** A vegetarian dish among dishes of no stated kind. *)
Definition veg_catalog : Database :=
  {| dishes := [dish 1 1 None; veg_dish 2 2; dish 3 3 None];
     producers := kitchens;
     orders := [];
     reviews := [] |}.

(** The same catalog while Priya's Kitchen still awaits approval. *)
Definition catalog_pending : Database :=
  {| dishes := [dish 1 1 None; dish 2 2 None; dish 3 3 None];
     producers :=
       [kitchen 1 (Some "North Indian");
        {| Producer.id := 2;
           Producer.cuisine_specialty := Some "South Indian";
           Producer.latitude := None;
           Producer.longitude := None;
           Producer.status := Some "pending";
           Producer.is_active := false |};
        kitchen 3 None];
     orders := [];
     reviews := [] |}.

End Sample.

(* ===================================================================== *)
(** * Properties *)
(* ===================================================================== *)

(** ** Strings *)

Lemma rev_string_twice (s a b : string) :
  PyStr.rev_string a (PyStr.rev_string b s) = PyStr.rev_string (s ++ a)%string b.
Proof.
  revert a b.
  induction s as [| c s IH]; intros a b; simpl.
  - reflexivity.
  - rewrite IH. reflexivity.
Qed.

Lemma append_empty_r (s : string) : (s ++ "")%string = s.
Proof.
  induction s as [| c s IH]; simpl; [reflexivity | now rewrite IH].
Qed.

Lemma rev_string_involutive (s : string) :
  PyStr.rev_string "" (PyStr.rev_string "" s) = s.
Proof.
  rewrite rev_string_twice. simpl. apply append_empty_r.
Qed.

(** A text without the separator is a single field. *)
Lemma split_on_aux_no_sep (sep : ascii) (s : string) :
  PyStr.contains (String sep "") s = false ->
  forall cur,
    PyStr.split_on_aux sep cur s = [PyStr.rev_string "" (PyStr.rev_string cur s)].
Proof.
  induction s as [| c s IH]; intros H cur; simpl.
  - reflexivity.
  - simpl in H. apply orb_false_iff in H. destruct H as [Hhead Htail].
    rewrite andb_true_r in Hhead.
    rewrite Ascii.eqb_sym in Hhead. rewrite Hhead.
    apply IH. exact Htail.
Qed.

Lemma split_on_no_sep (sep : ascii) (s : string) :
  PyStr.contains (String sep "") s = false -> PyStr.split_on sep s = [s].
Proof.
  intros H. unfold PyStr.split_on.
  rewrite (split_on_aux_no_sep sep s H). now rewrite rev_string_involutive.
Qed.

Lemma nonempty_true_iff (s : string) : PyStr.nonempty s = true <-> s <> "".
Proof.
  destruct s; simpl; split; intros H; try discriminate; try reflexivity.
  now elim H.
Qed.

(** ** Cuisine taxonomy matcher *)

Lemma conflict_blocks_match (u v : string) :
  north_south_conflict (normalize_cuisine_name u) (normalize_cuisine_name v) = true ->
  cuisine_matches u v = false.
Proof.
  intros H. unfold cuisine_matches.
  destruct (negb (PyStr.nonempty u) || negb (PyStr.nonempty v)); [reflexivity |].
  cbv zeta. now rewrite H.
Qed.

(** C4.  When, after lower-casing and trimming, one of the two cuisine names
    contains "north" and the other contains "south", [cuisine_matches]
    answers [false], whatever the group table, equality, containment or word
    overlap would say; so "South Indian" never matches "North Indian", nor
    "North Indian Punjabi" "South Indian Kerala". *)
Theorem north_south_never_match :
  (forall u v : string,
      (PyStr.contains "north" (normalize_cuisine_name u) = true
       /\ PyStr.contains "south" (normalize_cuisine_name v) = true)
      \/ (PyStr.contains "south" (normalize_cuisine_name u) = true
          /\ PyStr.contains "north" (normalize_cuisine_name v) = true) ->
      cuisine_matches u v = false)
  /\ cuisine_matches "South Indian" "North Indian" = false
  /\ cuisine_matches "North Indian Punjabi" "South Indian Kerala" = false.
Proof.
  split; [| split; reflexivity].
  intros u v H. apply conflict_blocks_match.
  unfold north_south_conflict.
  destruct H as [[Hn Hs] | [Hs Hn]].
  - rewrite Hn, Hs. reflexivity.
  - rewrite Hn, Hs. simpl. apply orb_true_r.
Qed.

(** The conflict is found inside longer names, after trimming and
    lower-casing. *)
Lemma north_south_never_match_witness :
  cuisine_matches "Great North Kitchen" "south indian" = false
  /\ cuisine_matches "SOUTH " " North Indian" = false.
Proof.
  split.
  - apply (proj1 north_south_never_match). left. split; reflexivity.
  - apply (proj1 north_south_never_match). right. split; reflexivity.
Defined.

(** ** Preference accessors *)

(** C6 as stated fails: "South Indian" is not JSON, and the engine reads it
    as the one-element preference list ["South Indian"], which then drives
    the cuisine filter. *)
Lemma unparseable_cuisine_is_kept :
  json_loads "South Indian" = None
  /\ User.get_preferred_cuisines_list (Sample.customer None (Some "South Indian"))
     = ["South Indian"]
  /\ User.get_preferred_cuisines_list (Sample.customer None (Some "South Indian")) <> []
  /\ cuisine_filter_applied
       (snd (candidate_pool Sample.catalog
               (Sample.customer None (Some "South Indian")) None None 10)) = true.
Proof.
  repeat split; try reflexivity.
  vm_compute. discriminate.
Qed.

(** ** Geo-distance estimator *)

Lemma coord_truthy_false_iff (c : option Q) :
  Geo.coord_truthy c = false <-> Geo.missing_or_zero c.
Proof.
  destruct c as [q |]; simpl.
  - rewrite negb_false_iff. apply Qeq_bool_iff.
  - split; trivial.
Qed.

Lemma is_zero_not_truthy (c : option Q) : Geo.is_zero c -> Geo.coord_truthy c = false.
Proof.
  intros H. apply coord_truthy_false_iff. destruct c; simpl in *; [exact H | exact I].
Qed.

(** The guard of [calculate_distance_haversine]. *)
Lemma haversine_none_iff (lat1 lon1 lat2 lon2 : option Q) :
  Geo.calculate_distance_haversine lat1 lon1 lat2 lon2 = None
  <-> Geo.missing_or_zero lat1 \/ Geo.missing_or_zero lon1
      \/ Geo.missing_or_zero lat2 \/ Geo.missing_or_zero lon2.
Proof.
  rewrite <- !coord_truthy_false_iff.
  unfold Geo.calculate_distance_haversine.
  destruct (Geo.coord_truthy lat1) eqn:E1, (Geo.coord_truthy lon1) eqn:E2,
           (Geo.coord_truthy lat2) eqn:E3, (Geo.coord_truthy lon2) eqn:E4;
    simpl; try (split; [intros _; tauto | reflexivity]).
  destruct lat1, lon1, lat2, lon2; try discriminate.
  split; [discriminate | intros [H | [H | [H | H]]]; discriminate].
Qed.

(** C7, as the code has it.  [calculate_distance_haversine] returns [None]
    exactly when one of the four coordinates is missing or equal to zero;
    and whenever it returns a distance, the four coordinates are supplied
    and not zero and the distance is 6371 * 2 * asin (sqrt a) with
    a = sin^2(dlat/2) + cos(lat1) * cos(lat2) * sin^2(dlon/2), angles in
    radians.  Whether the evaluation of the formula in binary floating point
    completes ([math.sqrt] and [math.asin] raise outside their domains) is
    not part of the statement. *)
Theorem haversine_contract :
  (forall lat1 lon1 lat2 lon2 : option Q,
      Geo.calculate_distance_haversine lat1 lon1 lat2 lon2 = None
      <-> Geo.missing_or_zero lat1 \/ Geo.missing_or_zero lon1
          \/ Geo.missing_or_zero lat2 \/ Geo.missing_or_zero lon2)
  /\ (forall (lat1 lon1 lat2 lon2 : option Q) (d : R),
         Geo.calculate_distance_haversine lat1 lon1 lat2 lon2 = Some d ->
         exists a b c e : Q,
           lat1 = Some a /\ lon1 = Some b /\ lat2 = Some c /\ lon2 = Some e
           /\ ~ a == 0 /\ ~ b == 0 /\ ~ c == 0 /\ ~ e == 0
           /\ d = (6371 * (2 * asin (sqrt
                   ((sin (Geo.radians (Q2R c - Q2R a) / 2)) ^ 2
                    + cos (Geo.radians (Q2R a)) * cos (Geo.radians (Q2R c))
                      * (sin (Geo.radians (Q2R e - Q2R b) / 2)) ^ 2))))%R).
Proof.
  split; [exact haversine_none_iff |].
  intros lat1 lon1 lat2 lon2 d H.
  assert (Hnone : Geo.calculate_distance_haversine lat1 lon1 lat2 lon2 <> None)
    by (rewrite H; discriminate).
  rewrite haversine_none_iff in Hnone.
  unfold Geo.calculate_distance_haversine in H.
  destruct (Geo.coord_truthy lat1 && Geo.coord_truthy lon1
            && Geo.coord_truthy lat2 && Geo.coord_truthy lon2); [| discriminate].
  destruct lat1 as [a |], lon1 as [b |], lat2 as [c |], lon2 as [e |];
    try discriminate.
  injection H as <-. exists a, b, c, e.
  repeat split; try reflexivity; intros E; apply Hnone; simpl; tauto.
Qed.

(** Two points in the south of England. *)
Lemma haversine_contract_witness :
  Geo.calculate_distance_haversine (Some 51) (Some (1 # 2)) (Some 52) (Some (-1)) <> None
  /\ exists a b c e : Q,
       Some 51 = Some a /\ Some (1 # 2) = Some b /\ Some 52 = Some c
       /\ Some (-1) = Some e
       /\ ~ a == 0 /\ ~ b == 0 /\ ~ c == 0 /\ ~ e == 0
       /\ Geo.haversine (Q2R 51) (Q2R (1 # 2)) (Q2R 52) (Q2R (-1))
          = (6371 * (2 * asin (sqrt
               ((sin (Geo.radians (Q2R c - Q2R a) / 2)) ^ 2
                + cos (Geo.radians (Q2R a)) * cos (Geo.radians (Q2R c))
                  * (sin (Geo.radians (Q2R e - Q2R b) / 2)) ^ 2))))%R.
Proof.
  split.
  - intros H.
    apply (proj1 (proj1 haversine_contract (Some 51) (Some (1 # 2)) (Some 52)
                    (Some (-1)))) in H.
    destruct H as [H | [H | [H | H]]]; simpl in H; unfold Qeq in H; simpl in H; lia.
  - apply (proj2 haversine_contract (Some 51) (Some (1 # 2)) (Some 52) (Some (-1))).
    reflexivity.
Defined.

(** C7 as stated fails: with all four coordinates supplied, a latitude of 0
    (the equator) makes the result [None]. *)
Lemma equator_distance_is_none :
  ~ (Geo.calculate_distance_haversine (Some 0) (Some (1 # 2)) (Some 52) (Some (-1)) = None
     <-> (Some 0 = @None Q \/ Some (1 # 2) = @None Q
          \/ Some 52 = @None Q \/ Some (-1) = @None Q)).
Proof.
  intros [H _].
  destruct (H eq_refl) as [E | [E | [E | E]]]; discriminate E.
Qed.

(** ** Location stage *)

Section LocationFacts.
Context {rt : PyRuntime}.

(** The stage is skipped as soon as one of the two coordinates is falsy. *)
Lemma location_stage_skipped (db : Database) (lat lon : option Q) (km : R)
      (query : list Dish.t) :
  Geo.coord_truthy lat && Geo.coord_truthy lon = false ->
  location_stage db lat lon km query = query.
Proof.
  intros H. unfold location_stage. now rewrite H.
Qed.

Lemma zero_makes_guard_fail (lat lon : option Q) :
  Geo.is_zero lat \/ Geo.is_zero lon ->
  Geo.coord_truthy lat && Geo.coord_truthy lon = false.
Proof.
  intros [H | H]; apply is_zero_not_truthy in H; rewrite H.
  - reflexivity.
  - apply andb_false_r.
Qed.

Lemma strict_query_without_location (db : Database) (user : User.t)
      (lat lon : option Q) :
  Geo.coord_truthy lat && Geo.coord_truthy lon = false ->
  strict_query db user lat lon = strict_query db user None None.
Proof.
  intros H. unfold strict_query.
  rewrite (location_stage_skipped db lat lon _ _ H).
  rewrite (location_stage_skipped db None None _ _ eq_refl).
  reflexivity.
Qed.

Lemma candidate_pool_without_location (db : Database) (user : User.t)
      (lat lon : option Q) (limit : Z) :
  Geo.coord_truthy lat && Geo.coord_truthy lon = false ->
  candidate_pool db user lat lon limit = candidate_pool db user None None limit.
Proof.
  intros H. unfold candidate_pool.
  now rewrite (strict_query_without_location db user lat lon H).
Qed.

(** C10.  A call whose latitude or longitude is 0 skips the location stage
    and returns what the same call returns without coordinates, for the
    recommendations and for the popular dishes alike; and
    [calculate_distance_haversine] returns [None] as soon as one of its four
    arguments is 0. *)
Theorem zero_coordinate_is_no_coordinate (db : Database) (user : User.t)
        (lat lon : option Q) (limit : Z) :
  Geo.is_zero lat \/ Geo.is_zero lon ->
  (forall km query, location_stage db lat lon km query = query)
  /\ get_rule_based_recommendations db user lat lon limit
     = get_rule_based_recommendations db user None None limit
  /\ get_popular_dishes db lat lon limit = get_popular_dishes db None None limit
  /\ (forall lat1 lon1 lat2 lon2 : option Q,
         Geo.is_zero lat1 \/ Geo.is_zero lon1 \/ Geo.is_zero lat2 \/ Geo.is_zero lon2 ->
         Geo.calculate_distance_haversine lat1 lon1 lat2 lon2 = None).
Proof.
  intros H. apply zero_makes_guard_fail in H.
  split; [| split; [| split]].
  - intros km query. now apply location_stage_skipped.
  - unfold get_rule_based_recommendations, ranked, scored_candidates.
    now rewrite (candidate_pool_without_location db user lat lon limit H).
  - unfold get_popular_dishes.
    rewrite (location_stage_skipped db lat lon _ _ H).
    now rewrite (location_stage_skipped db None None _ _ eq_refl).
  - intros lat1 lon1 lat2 lon2 Hz. apply haversine_none_iff.
    destruct Hz as [Hz | [Hz | [Hz | Hz]]];
      apply is_zero_not_truthy, coord_truthy_false_iff in Hz; tauto.
Qed.

End LocationFacts.

(** A caller on the prime meridian. *)
Lemma zero_coordinate_is_no_coordinate_witness :
  get_rule_based_recommendations Sample.catalog (Sample.customer None None)
    (Some (103 # 2)) (Some 0) 10
  = get_rule_based_recommendations Sample.catalog (Sample.customer None None)
      None None 10
  /\ Geo.calculate_distance_haversine (Some (103 # 2)) (Some 0) (Some 52) (Some 1) = None.
Proof.
  assert (H : Geo.is_zero (Some (103 # 2)) \/ Geo.is_zero (Some 0))
    by (right; reflexivity).
  split.
  - exact (proj1 (proj2 (zero_coordinate_is_no_coordinate
                           Sample.catalog (Sample.customer None None)
                           (Some (103 # 2)) (Some 0) 10 H))).
  - apply (proj2 (proj2 (proj2 (zero_coordinate_is_no_coordinate
                                  Sample.catalog (Sample.customer None None)
                                  (Some (103 # 2)) (Some 0) 10 H)))).
    right. left. reflexivity.
Defined.

(** ** Relevance scorer *)

Local Open Scope Q_scope.

Lemma Qltb_lt (a b : Q) : Qltb a b = true <-> a < b.
Proof.
  unfold Qltb. rewrite Qlt_alt.
  destruct (a ?= b); split; intros H; try discriminate; reflexivity.
Qed.

Lemma Qltb_ge (a b : Q) : Qltb a b = false <-> b <= a.
Proof.
  split; intros H.
  - apply Qnot_lt_le. intros Hlt. apply Qltb_lt in Hlt. congruence.
  - destruct (Qltb a b) eqn:E; [| reflexivity].
    apply Qltb_lt in E. exfalso. exact (Qlt_not_le _ _ E H).
Qed.

Lemma floor_is_Qmax (score : Q) :
  (if Qltb score 20 then 20 else score) = Qmax score 20.
Proof.
  unfold Qltb, Qmax, GenericMinMax.gmax. destruct (score ?= 20); reflexivity.
Qed.

Lemma bind_ok {A B : Type} (m : res A) (k : A -> res B) (b : B) :
  bind m k = Ok b -> exists a, m = Ok a /\ k a = Ok b.
Proof.
  destruct m as [a | e]; simpl; intros H; [exists a; auto | discriminate].
Qed.

(** The loop stops at the first match: [match_count] never exceeds one. *)
Lemma cuisine_loop_spec (prefs : list string) (spec : string) (n : Z) :
  cuisine_loop prefs spec n =
  if existsb (fun user_cuisine => cuisine_matches user_cuisine spec) prefs
  then ((n + 1)%Z, true) else (n, false).
Proof.
  induction prefs as [| c prefs IH]; simpl.
  - reflexivity.
  - destruct (cuisine_matches c spec); simpl; [reflexivity | exact IH].
Qed.

Lemma cuisine_matches_empty_r (u : string) : cuisine_matches u "" = false.
Proof.
  unfold cuisine_matches. simpl. now rewrite orb_true_r.
Qed.

Lemma count_matching_zero (prefs : list string) (spec : string) :
  count_matching prefs spec = 0%nat <->
  existsb (fun user_cuisine => cuisine_matches user_cuisine spec) prefs = false.
Proof.
  unfold count_matching.
  induction prefs as [| c prefs IH]; simpl.
  - split; reflexivity.
  - destruct (cuisine_matches c spec); simpl.
    + split; discriminate.
    + exact IH.
Qed.

(** The cuisine step for a vendor with a specialty. *)
Lemma cuisine_step_with_specialty (db : Database) (prefs : list string)
      (dish : Dish.t) (score : Q) (spec : string) :
  prefs <> [] ->
  vendor_specialty db dish = Some spec ->
  cuisine_step db prefs dish score =
  if existsb (fun user_cuisine => cuisine_matches user_cuisine spec) prefs
  then (score + 40, true) else (score - 20, false).
Proof.
  intros Hne Hspec. unfold cuisine_step, vendor_specialty in *.
  destruct prefs as [| c prefs]; [now elim Hne |].
  destruct (get_producer db (Dish.producer_id dish)) as [p |]; [| discriminate].
  destruct (Producer.cuisine_specialty p) as [sp |]; [| discriminate].
  destruct (PyStr.nonempty sp); [| discriminate].
  injection Hspec as ->.
  rewrite cuisine_loop_spec.
  destruct (existsb _ (c :: prefs)); reflexivity.
Qed.

(** The cuisine step for a dish whose vendor is unknown or has no specialty. *)
Lemma cuisine_step_without_specialty (db : Database) (prefs : list string)
      (dish : Dish.t) (score : Q) :
  vendor_specialty db dish = None ->
  cuisine_step db prefs dish score = (score, false).
Proof.
  intros Hspec. unfold cuisine_step, vendor_specialty in *.
  destruct prefs as [| c prefs]; [reflexivity |].
  destruct (get_producer db (Dish.producer_id dish)) as [p |]; [| reflexivity].
  destruct (Producer.cuisine_specialty p) as [sp |]; [| reflexivity].
  destruct (PyStr.nonempty sp); [discriminate | reflexivity].
Qed.

(** [dish_cuisine_matches] says that the vendor matches a preferred cuisine. *)
Lemma cuisine_flag_iff (db : Database) (prefs : list string) (dish : Dish.t) (score : Q) :
  snd (cuisine_step db prefs dish score) = true <-> vendor_matches db prefs dish.
Proof.
  destruct (vendor_specialty db dish) as [spec |] eqn:Hspec.
  - destruct prefs as [| c prefs].
    + simpl. split; [discriminate |].
      intros (p & sp & uc & _ & _ & Hin & _). destruct Hin.
    + rewrite (cuisine_step_with_specialty db (c :: prefs) dish score spec)
        by (discriminate || assumption).
      unfold vendor_specialty in Hspec. unfold vendor_matches.
      destruct (get_producer db (Dish.producer_id dish)) as [p |]; [| discriminate].
      destruct (Producer.cuisine_specialty p) as [sp |] eqn:Hsp; [| discriminate].
      destruct (PyStr.nonempty sp); [| discriminate].
      injection Hspec as ->.
      destruct (existsb _ (c :: prefs)) eqn:E; simpl.
      * split; [intros _ | reflexivity].
        apply existsb_exists in E. destruct E as (uc & Hin & Hm).
        exists p, spec, uc. auto.
      * split; [discriminate |].
        intros (p' & sp' & uc & Hp & Hs & Hin & Hm).
        injection Hp as <-. rewrite Hsp in Hs. injection Hs as <-.
        assert (existsb (fun u => cuisine_matches u spec) (c :: prefs) = true)
          by (apply existsb_exists; exists uc; auto).
        congruence.
  - rewrite cuisine_step_without_specialty by assumption. simpl.
    split; [discriminate |].
    intros (p & sp & uc & Hp & Hs & Hin & Hm).
    unfold vendor_specialty in Hspec. rewrite Hp, Hs in Hspec.
    destruct sp; [| discriminate].
    rewrite cuisine_matches_empty_r in Hm. discriminate.
Qed.

(** C2, as the code has it.  With a non-empty preference list: a dish whose
    vendor has a specialty matched by exactly one preferred cuisine gains 40;
    a dish whose vendor has a specialty that no preferred cuisine matches
    loses 20; a dish whose vendor is unknown or has stated no specialty gets
    no cuisine contribution. *)
Theorem cuisine_contribution (db : Database) (prefs : list string) (dish : Dish.t)
        (score : Q) :
  prefs <> [] ->
  (forall spec,
      vendor_specialty db dish = Some spec ->
      count_matching prefs spec = 1%nat ->
      cuisine_step db prefs dish score = (score + 40, true))
  /\ (forall spec,
         vendor_specialty db dish = Some spec ->
         count_matching prefs spec = 0%nat ->
         cuisine_step db prefs dish score = (score - 20, false))
  /\ (vendor_specialty db dish = None ->
      cuisine_step db prefs dish score = (score, false)).
Proof.
  intros Hne. split; [| split].
  - intros spec Hspec Hcount.
    rewrite (cuisine_step_with_specialty db prefs dish score spec Hne Hspec).
    destruct (existsb _ prefs) eqn:E; [reflexivity |].
    apply count_matching_zero in E. rewrite E in Hcount. discriminate.
  - intros spec Hspec Hcount.
    rewrite (cuisine_step_with_specialty db prefs dish score spec Hne Hspec).
    apply count_matching_zero in Hcount. now rewrite Hcount.
  - apply cuisine_step_without_specialty.
Qed.

Lemma cuisine_contribution_witness :
  cuisine_step Sample.catalog ["South Indian"] (Sample.dish 2 2 None) 0 = (0 + 40, true)
  /\ cuisine_step Sample.catalog ["South Indian"] (Sample.dish 1 1 None) 0 = (0 - 20, false).
Proof.
  assert (Hne : ["South Indian"] <> []) by discriminate.
  split.
  - apply (proj1 (cuisine_contribution Sample.catalog ["South Indian"]
                    (Sample.dish 2 2 None) 0 Hne) "South Indian"); reflexivity.
  - apply (proj1 (proj2 (cuisine_contribution Sample.catalog ["South Indian"]
                           (Sample.dish 1 1 None) 0 Hne)) "North Indian"); reflexivity.
Defined.

(** C2 as stated fails: the third sample kitchen has stated no specialty, so
    it matches no preferred cuisine, and its dish is not charged the 20. *)
Lemma no_specialty_no_penalty :
  ["South Indian"] <> []
  /\ is_cuisine_match Sample.catalog ["South Indian"] (Sample.dish 3 3 None) = false
  /\ ~ vendor_matches Sample.catalog ["South Indian"] (Sample.dish 3 3 None)
  /\ ~ fst (cuisine_step Sample.catalog ["South Indian"] (Sample.dish 3 3 None) 0) == 0 - 20.
Proof.
  split; [discriminate |]. split; [reflexivity |]. split.
  - intros (p & sp & uc & Hp & Hs & _). vm_compute in Hp.
    injection Hp as <-. discriminate Hs.
  - vm_compute. discriminate.
Qed.

(** Two preferred cuisines that both match the specialty: the loop has left
    at the first one, and the bonus for further matches is not added. *)
Lemma second_match_not_counted :
  cuisine_matches "Tamil" "South Indian" = true
  /\ cuisine_matches "Kerala" "South Indian" = true
  /\ cuisine_step Sample.catalog ["Tamil"; "Kerala"] (Sample.dish 2 2 None) 0 = (0 + 40, true).
Proof.
  repeat split; reflexivity.
Qed.

Section ScorerFacts.
Context {rt : PyRuntime}.

(** The flag returned with the computed score is the one of the cuisine step. *)
Lemma computed_score_flag (db : Database) (user : User.t) (cuisine_applied : bool)
      (dish : Dish.t) (score : Q) (m : bool) :
  computed_score db user cuisine_applied dish = Ok (score, m) ->
  m = snd (cuisine_step db (User.get_preferred_cuisines_list user) dish 0).
Proof.
  unfold computed_score, score_before_allergens.
  destruct (cuisine_step db (User.get_preferred_cuisines_list user) dish 0) as [s0 m0].
  intros H.
  apply bind_ok in H. destruct H as ([s1 m1] & H1 & H2).
  apply bind_ok in H1. destruct H1 as (s2 & _ & H1).
  apply bind_ok in H1. destruct H1 as (s3 & _ & H1).
  injection H1 as _ <-.
  apply bind_ok in H2. destruct H2 as (s4 & _ & H2).
  simpl in H2. injection H2 as _ <-. reflexivity.
Qed.

(** What the scoring loop appends, dish by dish. *)
Lemma score_dishes_in (db : Database) (user : User.t) (cuisine_applied : bool)
      (pool : list Dish.t) :
  forall scored,
    score_dishes db user cuisine_applied pool = Ok scored ->
    forall e,
      In e scored <->
      exists d s m,
        In d pool
        /\ computed_score db user cuisine_applied d = Ok (s, m)
        /\ scored_entry d s m = Some e.
Proof.
  induction pool as [| dish pool IH]; intros scored H e; simpl in H.
  - injection H as <-. split; [intros [] | intros (d & s & m & [] & _)].
  - apply bind_ok in H. destruct H as ([s0 m0] & Hc & H).
    apply bind_ok in H. destruct H as (rest & Hrest & H).
    simpl in H. injection H as <-.
    specialize (IH rest Hrest e).
    split.
    + intros Hin.
      destruct (scored_entry dish s0 m0) as [e0 |] eqn:He.
      * destruct Hin as [<- | Hin].
        -- exists dish, s0, m0. simpl. auto.
        -- apply IH in Hin. destruct Hin as (d & s & m & Hd & Hs & Hent).
           exists d, s, m. simpl. auto.
      * apply IH in Hin. destruct Hin as (d & s & m & Hd & Hs & Hent).
        exists d, s, m. simpl. auto.
    + intros (d & s & m & [<- | Hd] & Hs & Hent).
      * rewrite Hc in Hs. injection Hs as <- <-. rewrite Hent. now left.
      * assert (Hin : In e rest) by (apply IH; exists d, s, m; auto).
        destruct (scored_entry dish s0 m0); [now right | exact Hin].
Qed.

(** An entry keeps the dish it was made for. *)
Lemma scored_entry_dish (d : Dish.t) (s : Q) (m : bool) (e : Dish.t * Q) :
  scored_entry d s m = Some e -> fst e = d.
Proof.
  unfold scored_entry.
  destruct m; [| destruct (Qltb (-30) s)]; intros H; try discriminate;
    injection H as <-; reflexivity.
Qed.

(** C3.  For a dish of the pool with computed score [score]: when its vendor
    matches a preferred cuisine it enters the scored candidates with the
    score max(score, 20); when its vendor matches none it enters them if and
    only if [score] is strictly greater than -30 (and then with [score]). *)
Theorem inclusion_rule (db : Database) (user : User.t) (cuisine_applied : bool)
        (pool : list Dish.t) (scored : list (Dish.t * Q))
        (dish : Dish.t) (score : Q) (m : bool) :
  score_dishes db user cuisine_applied pool = Ok scored ->
  In dish pool ->
  computed_score db user cuisine_applied dish = Ok (score, m) ->
  (m = true <-> vendor_matches db (User.get_preferred_cuisines_list user) dish)
  /\ (m = true ->
      In (dish, Qmax score 20) scored
      /\ forall final, In (dish, final) scored -> final = Qmax score 20)
  /\ (m = false ->
      ((exists final, In (dish, final) scored) <-> -30 < score)
      /\ forall final, In (dish, final) scored -> final = score).
Proof.
  intros Hscored Hin Hc.
  pose proof (score_dishes_in db user cuisine_applied pool scored Hscored) as Hmem.
  assert (Hback : forall final, In (dish, final) scored ->
                                scored_entry dish score m = Some (dish, final)).
  { intros final Hf. apply Hmem in Hf. destruct Hf as (d & s & m' & _ & Hs & Hent).
    pose proof (scored_entry_dish _ _ _ _ Hent) as Hd. simpl in Hd. subst d.
    rewrite Hc in Hs. injection Hs as <- <-. exact Hent. }
  split; [| split].
  - rewrite (computed_score_flag _ _ _ _ _ _ Hc). apply cuisine_flag_iff.
  - intros ->. split.
    + apply Hmem. exists dish, score, true. repeat split; try assumption.
      unfold scored_entry. now rewrite floor_is_Qmax.
    + intros final Hf. apply Hback in Hf. unfold scored_entry in Hf.
      rewrite floor_is_Qmax in Hf. now injection Hf as <-.
  - intros ->. split; [split |].
    + intros (final & Hf). apply Hback in Hf. unfold scored_entry in Hf.
      destruct (Qltb (-30) score) eqn:E; [now apply Qltb_lt | discriminate].
    + intros Hlt. exists score. apply Hmem. exists dish, score, false.
      repeat split; try assumption.
      unfold scored_entry. apply Qltb_lt in Hlt. now rewrite Hlt.
    + intros final Hf. apply Hback in Hf. unfold scored_entry in Hf.
      destruct (Qltb (-30) score); [now injection Hf as <- | discriminate].
Qed.

End ScorerFacts.

(** The South Indian dish of the sample catalog, for a customer who prefers
    South Indian food: computed score 45, above the floor, kept as it is. *)
Lemma inclusion_rule_witness :
  vendor_matches Sample.catalog ["South Indian"] (Sample.dish 2 2 None)
  /\ In (Sample.dish 2 2 None, Qmax (45000 # 1000) 20)
        [(Sample.dish 2 2 None, 45000 # 1000)].
Proof.
  assert (H1 : score_dishes Sample.catalog (Sample.customer None (Some "South Indian"))
                 true [Sample.dish 2 2 None]
               = Ok [(Sample.dish 2 2 None, 45000 # 1000)])
    by (vm_compute; reflexivity).
  assert (H2 : computed_score Sample.catalog (Sample.customer None (Some "South Indian"))
                 true (Sample.dish 2 2 None)
               = Ok (45000 # 1000, true))
    by (vm_compute; reflexivity).
  destruct (inclusion_rule Sample.catalog (Sample.customer None (Some "South Indian"))
              true [Sample.dish 2 2 None] [(Sample.dish 2 2 None, 45000 # 1000)]
              (Sample.dish 2 2 None) (45000 # 1000) true
              H1 (or_introl eq_refl) H2) as (Hflag & Htrue & _).
  split.
  - apply Hflag. reflexivity.
  - apply Htrue. reflexivity.
Defined.

(** ** Allergen penalty *)

Lemma startswith_spec (p s : string) :
  PyStr.startswith p s = true <-> exists post, s = (p ++ post)%string.
Proof.
  revert s. induction p as [| a p IH]; intros s; simpl.
  - split; [intros _; now exists s | reflexivity].
  - destruct s as [| b s].
    + split; [discriminate | intros (post & H); discriminate].
    + rewrite andb_true_iff, Ascii.eqb_eq, IH. split.
      * intros [-> (post & ->)]. now exists post.
      * intros (post & H). injection H as -> ->. split; [reflexivity | now exists post].
Qed.

(** [sub in s] finds [sub] wherever it occurs. *)
Lemma contains_spec (x y : string) :
  PyStr.contains x y = true <-> is_substring x y.
Proof.
  unfold is_substring. induction y as [| c y IH].
  - simpl. rewrite orb_false_r, startswith_spec. split.
    + intros (post & H). now exists "", post.
    + intros (pre & post & H). destruct pre; [| discriminate]. now exists post.
  - simpl. rewrite orb_true_iff, startswith_spec, IH. split.
    + intros [(post & H) | (pre & post & H)].
      * now exists "", post.
      * exists (String c pre), post. simpl. now rewrite H.
    + intros (pre & post & H). destruct pre as [| c' pre].
      * left. now exists post.
      * right. simpl in H. injection H as _ H. now exists pre, post.
Qed.

Section AllergenFacts.
Context {rt : PyRuntime}.

(** The test of the loop is the overlap of the two allergens. *)
Lemma allergen_hits_iff (a : string) (da : pyval) :
  allergen_hits (PyStr.lower a) da = true <-> allergens_meet a da.
Proof.
  unfold allergen_hits, allergens_meet.
  now rewrite orb_true_iff, !contains_spec.
Qed.

Lemma any_hit_iff (a : string) (declared : list pyval) :
  existsb (allergen_hits (PyStr.lower a)) declared = true
  <-> exists da, In da declared /\ allergens_meet a da.
Proof.
  rewrite existsb_exists. split; intros (da & Hin & H); exists da;
    (split; [exact Hin | now apply allergen_hits_iff]).
Qed.


(** A value that is false and can be looped over has no item. *)
Lemma falsy_iter_nil (v : pyval) (items : list pyval) :
  py_iter v = Ok items -> truthy v = false -> items = [].
Proof.
  destruct v as [| b | z | f | s | l | kv]; simpl; intros H Ht; try discriminate;
    injection H as <-.
  - now destruct s.
  - now destruct l.
  - now destruct kv.
Qed.

(** The loop takes 60 off once for every avoided allergen that meets a
    declared one. *)
Lemma allergen_loop_counts (declared : list pyval) (dish_allergens : pyval)
      (avoided : list pyval) :
  py_iter dish_allergens = Ok declared ->
  forall score,
  exists n,
    overlap_count declared avoided n
    /\ allergen_loop avoided dish_allergens score
       = Ok (Nat.iter n (fun s => s - 60) score).
Proof.
  intros Hiter. induction avoided as [| x avoided IH]; intros score.
  - exists O. split; [constructor | reflexivity].
  - simpl. destruct (as_str x) as [a |] eqn:Ea.
    + assert (Hx : x = PStr a) by (destruct x; try discriminate; now injection Ea as ->).
      subst x. rewrite Hiter. simpl.
      destruct (existsb (allergen_hits (PyStr.lower a)) declared) eqn:Eh.
      * destruct (IH (score - 60)) as (n & Hn & Hloop).
        exists (S n). split.
        -- apply overlap_hit; [now apply any_hit_iff | exact Hn].
        -- rewrite Hloop. now rewrite Nat.iter_succ_r.
      * destruct (IH score) as (n & Hn & Hloop).
        exists n. split; [| exact Hloop].
        apply overlap_miss; [| exact Hn].
        intros H. apply any_hit_iff in H. congruence.
    + destruct (IH score) as (n & Hn & Hloop).
      exists n. split; [| exact Hloop]. now apply overlap_skip.
Qed.

Lemma overlap_count_none_declared (avoided : list pyval) :
  overlap_count [] avoided O.
Proof.
  induction avoided as [| x avoided IH]; [constructor |].
  destruct (as_str x) as [a |] eqn:Ea.
  - assert (Hx : x = PStr a) by (destruct x; try discriminate; now injection Ea as ->).
    subst x. apply overlap_miss; [| exact IH].
    intros (da & [] & _).
  - now apply overlap_skip.
Qed.

(** The allergen step as a whole. *)
Lemma allergen_step_counts (user : User.t) (dish : Dish.t) (score : Q)
      (avoided declared : list pyval) :
  py_iter (User.get_allergens_list user) = Ok avoided ->
  py_iter (Dish.get_allergens_list dish) = Ok declared ->
  exists n,
    overlap_count declared avoided n
    /\ allergen_step (User.get_allergens_list user) dish score
       = Ok (Nat.iter n (fun s => s - 60) score).
Proof.
  intros Ha Hd. unfold allergen_step.
  destruct (truthy (User.get_allergens_list user)) eqn:Eu; simpl.
  - destruct (truthy (Dish.get_allergens_list dish)) eqn:Ed.
    + rewrite Ha. simpl. now apply allergen_loop_counts.
    + rewrite (falsy_iter_nil _ _ Hd Ed).
      exists O. split; [apply overlap_count_none_declared | reflexivity].
  - rewrite (falsy_iter_nil _ _ Ha Eu).
    exists O. split; [constructor | reflexivity].
Qed.






(** X18.  The allergen penalty adds up: when both allergen lists can be
    looped over, the step subtracts 60 once for every avoided allergen that
    is a text and that contains, or is contained in, a declared allergen
    (both in lower case), and does nothing else. *)
Theorem allergen_penalty_adds_up (user : User.t) (dish : Dish.t) (score : Q)
        (avoided declared : list pyval) :
  py_iter (User.get_allergens_list user) = Ok avoided ->
  py_iter (Dish.get_allergens_list dish) = Ok declared ->
  exists n,
    overlap_count declared avoided n
    /\ allergen_step (User.get_allergens_list user) dish score
       = Ok (Nat.iter n (fun s => s - 60) score).
Proof. apply allergen_step_counts. Qed.

End AllergenFacts.


(** A customer who avoids nuts and milk, and a dish that declares peanuts
    and milk: 60 is taken off twice. *)
Lemma allergen_penalty_adds_up_witness :
  exists n,
    overlap_count [PStr "Peanuts"; PStr "milk"] [PStr "nuts"; PStr "milk"] n
    /\ allergen_step (User.get_allergens_list (Sample.customer (Some "nuts,milk") None))
         (Sample.dish 1 1 (Some "Peanuts,milk")) 0
       = Ok (Nat.iter n (fun s => s - 60) 0).
Proof.
  apply (allergen_penalty_adds_up (Sample.customer (Some "nuts,milk") None)
           (Sample.dish 1 1 (Some "Peanuts,milk")) 0
           [PStr "nuts"; PStr "milk"] [PStr "Peanuts"; PStr "milk"]);
    vm_compute; reflexivity.
Defined.

(** ** Lists, sorting and limits *)

Section ListFacts.
Context {A : Type}.

Lemma insert_by_in (before : A -> A -> bool) (x y : A) (l : list A) :
  In y (insert_by before x l) <-> y = x \/ In y l.
Proof.
  induction l as [| z l IH]; simpl.
  - intuition.
  - destruct (before z x); simpl; rewrite ?IH; intuition.
Qed.

Lemma sort_by_in (before : A -> A -> bool) (y : A) (l : list A) :
  In y (sort_by before l) <-> In y l.
Proof.
  induction l as [| z l IH]; simpl.
  - reflexivity.
  - rewrite insert_by_in, IH. intuition.
Qed.

Lemma insert_by_length (before : A -> A -> bool) (x : A) (l : list A) :
  length (insert_by before x l) = S (length l).
Proof.
  induction l as [| z l IH]; simpl; [reflexivity |].
  destruct (before z x); simpl; [now rewrite IH | reflexivity].
Qed.

Lemma sort_by_length (before : A -> A -> bool) (l : list A) :
  length (sort_by before l) = length l.
Proof.
  induction l as [| z l IH]; simpl; [reflexivity |].
  now rewrite insert_by_length, IH.
Qed.

Lemma sort_by_nil (before : A -> A -> bool) (l : list A) :
  sort_by before l = [] <-> l = [].
Proof.
  split; intros H.
  - apply length_zero_iff_nil. rewrite <- (sort_by_length before), H. reflexivity.
  - now subst.
Qed.

(** Sorting by a strict "goes before" test whose negation is a preorder
    [le] yields a list sorted for [le]. *)
Lemma insert_by_sorted (before : A -> A -> bool) (le : A -> A -> Prop) :
  (forall x y, before y x = true -> le y x) ->
  (forall x y, before y x = false -> le x y) ->
  (forall x y z, le x y -> le y z -> le x z) ->
  forall x l, StronglySorted le l -> StronglySorted le (insert_by before x l).
Proof.
  intros Hyes Hno Htrans x l Hs.
  induction Hs as [| z l Hs IH Hall]; simpl.
  - constructor; constructor.
  - destruct (before z x) eqn:E.
    + constructor; [exact IH |].
      apply Forall_forall. intros y Hy. apply insert_by_in in Hy.
      destruct Hy as [-> | Hy]; [now apply Hyes |].
      rewrite Forall_forall in Hall. now apply Hall.
    + constructor; [constructor; assumption |].
      constructor; [now apply Hno |].
      rewrite Forall_forall in *. intros y Hy.
      eapply Htrans; [apply Hno; exact E | now apply Hall].
Qed.

Lemma sort_by_sorted (before : A -> A -> bool) (le : A -> A -> Prop) :
  (forall x y, before y x = true -> le y x) ->
  (forall x y, before y x = false -> le x y) ->
  (forall x y z, le x y -> le y z -> le x z) ->
  forall l, StronglySorted le (sort_by before l).
Proof.
  intros Hyes Hno Htrans l.
  induction l as [| x l IH]; simpl; [constructor |].
  now apply (insert_by_sorted before le).
Qed.

Lemma firstn_in (n : nat) (l : list A) (x : A) : In x (firstn n l) -> In x l.
Proof.
  revert n. induction l as [| y l IH]; intros n H.
  - rewrite firstn_nil in H. destruct H.
  - destruct n; simpl in H; [destruct H |].
    destruct H as [-> | H]; [now left | right; now apply (IH n)].
Qed.

Lemma firstn_sorted (le : A -> A -> Prop) (n : nat) (l : list A) :
  StronglySorted le l -> StronglySorted le (firstn n l).
Proof.
  revert n. induction l as [| x l IH]; intros n Hs.
  - rewrite firstn_nil. constructor.
  - destruct n; simpl; [constructor |].
    inversion Hs as [| ? ? Hs' Hall]; subst.
    constructor; [now apply IH |].
    rewrite Forall_forall in *. intros y Hy. apply Hall.
    eapply firstn_in. exact Hy.
Qed.

Lemma firstn_short (n : nat) (l : list A) :
  (length (firstn n l) < n)%nat -> firstn n l = l.
Proof.
  intros H. rewrite length_firstn in H. apply firstn_all2. lia.
Qed.

(** A slice [l[:n]] and a limited query are prefixes. *)
Lemma py_take_prefix (n : Z) (l : list A) : exists k, py_take n l = firstn k l.
Proof.
  unfold py_take. destruct (n <? 0)%Z; eexists; reflexivity.
Qed.

Lemma sql_limit_prefix (n : Z) (l : list A) : exists k, sql_limit n l = firstn k l.
Proof.
  unfold sql_limit. destruct (n <? 0)%Z.
  - exists (length l). now rewrite firstn_all.
  - eexists; reflexivity.
Qed.

Lemma py_take_in (n : Z) (l : list A) (x : A) : In x (py_take n l) -> In x l.
Proof.
  destruct (py_take_prefix n l) as (k & ->). apply firstn_in.
Qed.

Lemma sql_limit_in (n : Z) (l : list A) (x : A) : In x (sql_limit n l) -> In x l.
Proof.
  destruct (sql_limit_prefix n l) as (k & ->). apply firstn_in.
Qed.

Lemma py_take_length (n : Z) (l : list A) :
  (0 <= n)%Z -> (Z.of_nat (length (py_take n l)) <= n)%Z.
Proof.
  intros H. unfold py_take.
  destruct (n <? 0)%Z eqn:E; [apply Z.ltb_lt in E; lia |].
  rewrite length_firstn. lia.
Qed.

Lemma sql_limit_length (n : Z) (l : list A) :
  (0 <= n)%Z -> (Z.of_nat (length (sql_limit n l)) <= n)%Z.
Proof.
  intros H. unfold sql_limit.
  destruct (n <? 0)%Z eqn:E; [apply Z.ltb_lt in E; lia |].
  rewrite length_firstn. lia.
Qed.

Lemma py_take_short (n : Z) (l : list A) :
  (Z.of_nat (length (py_take n l)) < n)%Z -> py_take n l = l.
Proof.
  unfold py_take. destruct (n <? 0)%Z eqn:E.
  - apply Z.ltb_lt in E. lia.
  - intros H. apply firstn_short. lia.
Qed.

Lemma py_take_nil (n : Z) (l : list A) :
  (1 <= n)%Z -> py_take n l = [] -> l = [].
Proof.
  intros Hn H. unfold py_take in H.
  destruct (n <? 0)%Z eqn:E; [apply Z.ltb_lt in E; lia |].
  destruct l as [| x l]; [reflexivity |].
  destruct (Z.to_nat n) eqn:En; [lia | discriminate].
Qed.

End ListFacts.

(** ** Candidate filter cascade *)

Section CascadeFacts.
Context {rt : PyRuntime}.

Lemma fetch_incl (n : Z) (q : list Dish.t) : incl (fetch n q) q.
Proof.
  intros d H. unfold fetch in H. apply sql_limit_in in H. now apply sort_by_in in H.
Qed.

Lemma fetch_nil (n : Z) (q : list Dish.t) : (1 <= n)%Z -> fetch n q = [] -> q = [].
Proof.
  intros Hn H. unfold fetch, sql_limit in H.
  destruct (n <? 0)%Z eqn:E; [apply Z.ltb_lt in E; lia |].
  apply (sort_by_nil popularity_before).
  destruct (sort_by popularity_before q) as [| x l]; [reflexivity |].
  destruct (Z.to_nat n) eqn:En; [lia | discriminate].
Qed.

Lemma location_stage_incl (db : Database) (lat lon : option Q) (km : R)
      (q : list Dish.t) :
  incl (location_stage db lat lon km q) q.
Proof.
  unfold location_stage.
  destruct (Geo.coord_truthy lat && Geo.coord_truthy lon); [| apply incl_refl].
  destruct (nearby_producer_ids db lat lon km); [apply incl_refl |].
  apply incl_filter.
Qed.

Lemma dietary_spice_stage_incl (user : User.t) (q : list Dish.t) :
  incl (fst (fst (dietary_spice_stage user q))) q.
Proof.
  unfold dietary_spice_stage, with_dietary_type, with_spice_level.
  destruct (User.dietary_preferences user) as [p |];
    [destruct (PyStr.nonempty p) |];
    (destruct (User.spice_level user) as [p' |];
     [destruct (PyStr.nonempty p') |]);
    simpl; intros d H;
    repeat (apply filter_In in H; destruct H as [H _]); exact H.
Qed.

Lemma strict_query_incl (db : Database) (user : User.t) (lat lon : option Q) :
  incl (fst (strict_query db user lat lon)) (available_dishes db).
Proof.
  unfold strict_query.
  pose proof (location_stage_incl db lat lon 20%R (available_dishes db)) as Hloc.
  pose proof (dietary_spice_stage_incl user
                (location_stage db lat lon 20%R (available_dishes db))) as Hds.
  destruct (dietary_spice_stage user
              (location_stage db lat lon 20%R (available_dishes db)))
    as [[q dietary] spice].
  simpl in Hds.
  destruct (User.get_preferred_cuisines_list user) as [| c prefs]; simpl.
  - eapply incl_tran; eassumption.
  - destruct (matching_cuisine_producer_ids db (c :: prefs)); simpl.
    + eapply incl_tran; eassumption.
    + eapply incl_tran; [apply incl_filter | exact Hloc].
Qed.

Lemma fallback_level1_incl (db : Database) (user : User.t) (limit : Z)
      (st : list Dish.t * Filters) :
  incl (fst st) (available_dishes db) ->
  incl (fst (fallback_level1 db user limit st)) (available_dishes db).
Proof.
  destruct st as [found f]. unfold fallback_level1.
  destruct (cuisine_filter_applied f); [| trivial].
  intros _.
  pose proof (dietary_spice_stage_incl user (available_dishes db)) as Hds.
  destruct (dietary_spice_stage user (available_dishes db)) as [[q dietary] spice].
  simpl in *. eapply incl_tran; [apply fetch_incl | exact Hds].
Qed.

Lemma fallback_level2_incl (db : Database) (user : User.t) (limit : Z)
      (st : list Dish.t * Filters) :
  incl (fst st) (available_dishes db) ->
  incl (fst (fallback_level2 db user limit st)) (available_dishes db).
Proof.
  destruct st as [found f]. unfold fallback_level2.
  destruct (is_empty found && spice_filter_applied f); [| trivial].
  intros _. simpl.
  eapply incl_tran; [apply fetch_incl |].
  destruct (User.dietary_preferences user) as [p |]; [| apply incl_refl].
  destruct (dietary_filter_applied f && PyStr.nonempty p); [| apply incl_refl].
  apply incl_filter.
Qed.

Lemma fallback_level3_incl (db : Database) (limit : Z) (st : list Dish.t * Filters) :
  incl (fst st) (available_dishes db) ->
  incl (fst (fallback_level3 db limit st)) (available_dishes db).
Proof.
  destruct st as [found f]. unfold fallback_level3.
  destruct (is_empty found && dietary_filter_applied f); [| trivial].
  intros _. simpl. apply fetch_incl.
Qed.

Lemma fallback_level4_incl (db : Database) (limit : Z) (st : list Dish.t * Filters) :
  incl (fst st) (available_dishes db) ->
  incl (fst (fallback_level4 db limit st)) (available_dishes db).
Proof.
  destruct st as [found f]. unfold fallback_level4.
  destruct (is_empty found); [| trivial].
  intros _. simpl. apply fetch_incl.
Qed.

(** Every dish of the pool is an available dish of the catalog. *)
Lemma candidate_pool_incl (db : Database) (user : User.t) (lat lon : option Q)
      (limit : Z) :
  incl (fst (candidate_pool db user lat lon limit)) (available_dishes db).
Proof.
  unfold candidate_pool.
  pose proof (strict_query_incl db user lat lon) as Hq.
  destruct (strict_query db user lat lon) as [q f]. simpl in Hq.
  assert (Hf : incl (fetch (limit * 5) q) (available_dishes db))
    by (eapply incl_tran; [apply fetch_incl | exact Hq]).
  destruct (is_empty (fetch (limit * 5) q)); [| exact Hf].
  apply fallback_level4_incl, fallback_level3_incl,
        fallback_level2_incl, fallback_level1_incl.
  exact Hf.
Qed.

Lemma available_dishes_spec (db : Database) (d : Dish.t) :
  In d (available_dishes db) <-> In d (dishes db) /\ Dish.is_available d = true.
Proof. apply filter_In. Qed.

(** The last level of the fallback has looked at every available dish. *)
Lemma fallback_level4_nil (db : Database) (limit : Z) (st : list Dish.t * Filters) :
  fst (fallback_level4 db limit st) = [] ->
  fetch (limit * 5) (available_dishes db) = [].
Proof.
  destruct st as [found f]. unfold fallback_level4.
  destruct found; simpl; [trivial | discriminate].
Qed.

Lemma candidate_pool_nil (db : Database) (user : User.t) (lat lon : option Q)
      (limit : Z) :
  fst (candidate_pool db user lat lon limit) = [] ->
  fetch (limit * 5) (available_dishes db) = [].
Proof.
  unfold candidate_pool.
  destruct (strict_query db user lat lon) as [q f].
  destruct (fetch (limit * 5) q) eqn:E; simpl.
  - apply fallback_level4_nil.
  - discriminate.
Qed.


(** The branch taken on an empty pool returns nothing, whatever the limit. *)
Lemma empty_pool_returns_nothing (db : Database) (user : User.t) (lat lon : option Q)
      (limit : Z) :
  fst (candidate_pool db user lat lon limit) = [] ->
  sql_limit limit (sort_by rating_before (available_dishes db)) = [].
Proof.
  intros H. apply candidate_pool_nil in H.
  unfold fetch, sql_limit in *.
  destruct (available_dishes db) as [| d av] eqn:Eav.
  - simpl. destruct (limit <? 0)%Z; [reflexivity | apply firstn_nil].
  - assert (Hlen : forall before, sort_by before (d :: av) <> [])
      by (intros before Hs; apply sort_by_nil in Hs; discriminate).
    destruct (limit * 5 <? 0)%Z eqn:E5.
    + now apply Hlen in H.
    + apply Z.ltb_ge in E5.
      destruct (sort_by popularity_before (d :: av)) as [| x l] eqn:Es;
        [now apply Hlen in Es |].
      destruct (Z.to_nat (limit * 5)) eqn:En; [| discriminate].
      assert (limit = 0)%Z by lia. subst limit. reflexivity.
Qed.

End CascadeFacts.

(** ** Result composer *)

Section ComposerFacts.
Variable db : Database.
Variable prefs : list string.

Lemma score_sort_sorted (l : list (Dish.t * Q)) :
  by_score_desc (sort_by score_before l).
Proof.
  apply sort_by_sorted; unfold score_before.
  - intros x y H. apply Qltb_lt in H. now apply Qlt_le_weak.
  - intros x y H. now apply Qltb_ge in H.
  - intros x y z Hxy Hyz. eapply Qle_trans; eassumption.
Qed.

Lemma cuisine_matched_list_in (scored : list (Dish.t * Q)) (e : Dish.t * Q) :
  In e (cuisine_matched_list db prefs scored)
  <-> In e scored /\ is_cuisine_match db prefs (fst e) = true.
Proof.
  unfold cuisine_matched_list. rewrite sort_by_in. apply filter_In.
Qed.

Lemma other_dishes_list_in (scored : list (Dish.t * Q)) (e : Dish.t * Q) :
  In e (other_dishes_list db prefs scored)
  <-> In e scored /\ is_cuisine_match db prefs (fst e) = false.
Proof.
  unfold other_dishes_list. rewrite sort_by_in, filter_In.
  now rewrite negb_true_iff.
Qed.

(** With a preference list, [top_dishes] is a prefix of the matched dishes
    followed by dishes of the other partition, which are taken only when
    the matched dishes have all been taken. *)
Lemma top_dishes_split (limit : Z) (scored : list (Dish.t * Q)) :
  prefs <> [] ->
  exists others,
    top_dishes db prefs limit scored
    = py_take limit (cuisine_matched_list db prefs scored) ++ others
    /\ (others = []
        \/ (others = py_take (limit - Z.of_nat (length (py_take limit
                                 (cuisine_matched_list db prefs scored))))
                       (other_dishes_list db prefs scored)
            /\ (Z.of_nat (length (py_take limit (cuisine_matched_list db prefs scored)))
                < limit)%Z)).
Proof.
  intros Hne. unfold top_dishes.
  destruct prefs as [| c cs]; [now elim Hne |].
  set (t := py_take limit (cuisine_matched_list db (c :: cs) scored)).
  destruct ((Z.of_nat (length t) <? limit)%Z
            && negb (is_empty (other_dishes_list db (c :: cs) scored))) eqn:E.
  - eexists. split; [reflexivity |]. right. split; [reflexivity |].
    apply andb_true_iff in E. now apply Z.ltb_lt.
  - exists []. split; [now rewrite app_nil_r | now left].
Qed.

(** When fewer than [limit] dishes were taken, every candidate was taken. *)
Lemma top_dishes_short (limit : Z) (scored : list (Dish.t * Q)) :
  (Z.of_nat (length (top_dishes db prefs limit scored)) < limit)%Z ->
  forall e, In e scored -> In e (top_dishes db prefs limit scored).
Proof.
  intros Hlen e He. unfold top_dishes in *.
  destruct prefs as [| c cs] eqn:Ep.
  - now rewrite (py_take_short _ _ Hlen).
  - rewrite <- Ep in *.
    set (t := py_take limit (cuisine_matched_list db prefs scored)) in *.
    destruct (is_cuisine_match db prefs (fst e)) eqn:Em.
    + assert (Hin : In e (cuisine_matched_list db prefs scored))
        by (apply cuisine_matched_list_in; auto).
      assert (Ht : (Z.of_nat (length t) < limit)%Z).
      { destruct ((Z.of_nat (length t) <? limit)%Z
                  && negb (is_empty (other_dishes_list db prefs scored)));
          [rewrite length_app in Hlen |]; lia. }
      unfold t in Ht. apply py_take_short in Ht.
      destruct ((Z.of_nat (length t) <? limit)%Z
                && negb (is_empty (other_dishes_list db prefs scored)));
        [apply in_or_app; left |]; unfold t; now rewrite Ht.
    + assert (Hin : In e (other_dishes_list db prefs scored))
        by (apply other_dishes_list_in; auto).
      destruct ((Z.of_nat (length t) <? limit)%Z
                && negb (is_empty (other_dishes_list db prefs scored))) eqn:E.
      * rewrite length_app in Hlen.
        assert (Ho : (Z.of_nat (length (py_take (limit - Z.of_nat (length t))
                                          (other_dishes_list db prefs scored)))
                      < limit - Z.of_nat (length t))%Z) by lia.
        apply py_take_short in Ho. apply in_or_app. right. now rewrite Ho.
      * apply andb_false_iff in E. destruct E as [E | E].
        -- apply Z.ltb_ge in E. lia.
        -- apply negb_false_iff in E.
           destruct (other_dishes_list db prefs scored); [destruct Hin | discriminate].
Qed.

Lemma dish_dict_set_in (d : Dish.t) (dict : list (Z * Dish.t)) (kv : Z * Dish.t) :
  In kv (dish_dict_set d dict) -> snd kv = d \/ In kv dict.
Proof.
  induction dict as [| [k v] dict IH]; simpl.
  - intros [<- | []]. now left.
  - destruct (k =? Dish.id d)%Z; simpl.
    + intros [<- | H]; [now left | right; now right].
    + intros [<- | H]; [right; now left |].
      destruct (IH H) as [Hd | Hd]; [now left | right; now right].
Qed.

Lemma dict_values_from (scored : list (Dish.t * Q)) :
  forall dict kv,
    In kv (fold_left (fun dict e => dish_dict_set (fst e) dict) scored dict) ->
    In kv dict \/ exists e, In e scored /\ fst e = snd kv.
Proof.
  induction scored as [| e scored IH]; intros dict kv H; simpl in H.
  - now left.
  - destruct (IH _ _ H) as [Hd | (e' & He' & Hfst)].
    + destruct (dish_dict_set_in _ _ _ Hd) as [Hs | Hs].
      * right. exists e. split; [now left | now symmetry].
      * now left.
    + right. exists e'. split; [now right | assumption].
Qed.

Lemma id_in_ids (top : list (Dish.t * Q)) (e : Dish.t * Q) :
  In e top -> id_in (Dish.id (fst e)) (map (fun e => Dish.id (fst e)) top) = true.
Proof.
  intros H. unfold id_in. apply existsb_exists.
  exists (Dish.id (fst e)). split; [| apply Z.eqb_refl].
  apply in_map_iff. exists e. auto.
Qed.

Lemma filter_none {A : Type} (f : A -> bool) (l : list A) :
  (forall x, In x l -> f x = false) -> filter f l = [].
Proof.
  induction l as [| x l IH]; intros H; simpl; [reflexivity |].
  rewrite (H x (or_introl eq_refl)). apply IH. intros y Hy. apply H. now right.
Qed.

(** The filling step never finds a dish to add. *)
Lemma fill_adds_nothing (limit : Z) (scored : list (Dish.t * Q)) :
  fill limit scored (top_dishes db prefs limit scored)
  = top_dishes db prefs limit scored.
Proof.
  unfold fill.
  destruct (Z.of_nat (length (top_dishes db prefs limit scored)) <? limit)%Z eqn:E;
    [| reflexivity].
  apply Z.ltb_lt in E.
  assert (Hrem :
    filter (fun d => negb (id_in (Dish.id d)
                             (map (fun e => Dish.id (fst e))
                                  (top_dishes db prefs limit scored))))
           (map snd (all_dishes_dict scored)) = []).
  { apply filter_none. intros d Hd. apply negb_false_iff.
    apply in_map_iff in Hd. destruct Hd as (kv & <- & Hkv).
    destruct (dict_values_from scored [] kv Hkv) as [[] | (e & He & Hfst)].
    rewrite <- Hfst. apply id_in_ids. now apply top_dishes_short. }
  rewrite Hrem. simpl. unfold py_take.
  destruct (limit - Z.of_nat (length (top_dishes db prefs limit scored)) <? 0)%Z;
    rewrite firstn_nil; apply app_nil_r.
Qed.

Lemma compose_is_top_dishes (limit : Z) (scored : list (Dish.t * Q)) :
  compose db prefs limit scored
  = top_dishes db prefs limit (sort_by score_before scored).
Proof. unfold compose. apply fill_adds_nothing. Qed.

Lemma top_dishes_in (limit : Z) (scored : list (Dish.t * Q)) (e : Dish.t * Q) :
  In e (top_dishes db prefs limit scored) -> In e scored.
Proof.
  unfold top_dishes. destruct prefs as [| c cs] eqn:Ep.
  - apply py_take_in.
  - rewrite <- Ep.
    assert (Hm : In e (py_take limit (cuisine_matched_list db prefs scored)) -> In e scored).
    { intros H. apply py_take_in in H. now apply cuisine_matched_list_in in H. }
    destruct ((Z.of_nat (length (py_take limit (cuisine_matched_list db prefs scored)))
               <? limit)%Z
              && negb (is_empty (other_dishes_list db prefs scored))); [| exact Hm].
    intros H. apply in_app_or in H. destruct H as [H | H]; [now apply Hm |].
    apply py_take_in in H. now apply other_dishes_list_in in H.
Qed.

Lemma top_dishes_length (limit : Z) (scored : list (Dish.t * Q)) :
  (0 <= limit)%Z ->
  (Z.of_nat (length (top_dishes db prefs limit scored)) <= limit)%Z.
Proof.
  intros Hl. unfold top_dishes. destruct prefs as [| c cs] eqn:Ep.
  - now apply py_take_length.
  - rewrite <- Ep.
    set (t := py_take limit (cuisine_matched_list db prefs scored)).
    pose proof (py_take_length limit (cuisine_matched_list db prefs scored) Hl) as Ht.
    fold t in Ht.
    destruct ((Z.of_nat (length t) <? limit)%Z
              && negb (is_empty (other_dishes_list db prefs scored))) eqn:E;
      [| exact Ht].
    apply andb_true_iff in E. destruct E as [E _]. apply Z.ltb_lt in E.
    rewrite length_app.
    pose proof (py_take_length (limit - Z.of_nat (length t))
                  (other_dishes_list db prefs scored)).
    lia.
Qed.

Lemma top_dishes_nil_of_nil (limit : Z) : top_dishes db prefs limit [] = [].
Proof.
  destruct (top_dishes db prefs limit []) as [| e l] eqn:E; [reflexivity |].
  exfalso. apply (top_dishes_in limit [] e). rewrite E. now left.
Qed.


End ComposerFacts.

(** ** The recommendation pipeline *)

Section PipelineFacts.
Context {rt : PyRuntime}.

Lemma py_take_of_nil {A : Type} (n : Z) : py_take n (@nil A) = [].
Proof. unfold py_take. destruct (n <? 0)%Z; apply firstn_nil. Qed.

(** The scoring loop computes a score for every dish of the pool. *)
Lemma score_dishes_each (db : Database) (user : User.t) (cuisine_applied : bool)
      (pool : list Dish.t) :
  forall scored,
    score_dishes db user cuisine_applied pool = Ok scored ->
    forall d, In d pool ->
              exists s m, computed_score db user cuisine_applied d = Ok (s, m).
Proof.
  induction pool as [| dish pool IH]; intros scored H d Hd; [destruct Hd |].
  simpl in H. apply bind_ok in H. destruct H as ([s0 m0] & Hc & H).
  apply bind_ok in H. destruct H as (rest & Hrest & _).
  destruct Hd as [<- | Hd]; [now exists s0, m0 | now apply (IH rest)].
Qed.

(** The two ways a call returns: nothing on an empty pool, or the first
    dishes of the composer. *)
Lemma recommendations_cases (db : Database) (user : User.t) (lat lon : option Q)
      (limit : Z) (result : list Dish.t) :
  get_rule_based_recommendations db user lat lon limit = Ok result ->
  exists scored,
    scored_candidates db user lat lon limit = Ok scored
    /\ result = map fst (top_dishes db (User.get_preferred_cuisines_list user) limit
                           (sort_by score_before scored))
    /\ (fst (candidate_pool db user lat lon limit) = [] -> scored = []).
Proof.
  unfold get_rule_based_recommendations, ranked, scored_candidates.
  destruct (candidate_pool db user lat lon limit) as [pool f] eqn:Epool.
  destruct pool as [| d pool]; simpl fst; simpl is_empty; cbv iota.
  - intros H. injection H as <-.
    exists []. split; [reflexivity |]. split; [| reflexivity].
    rewrite (empty_pool_returns_nothing db user lat lon limit)
      by (now rewrite Epool).
    simpl. now rewrite top_dishes_nil_of_nil.
  - intros H. apply bind_ok in H. destruct H as (top & Htop & H).
    injection H as <-.
    apply bind_ok in Htop. destruct Htop as (scored & Hscored & Htop).
    injection Htop as <-.
    exists scored. split; [exact Hscored |]. split; [| discriminate].
    now rewrite compose_is_top_dishes.
Qed.

(** *** The call returns on well-typed data *)

Lemma py_in_of_iterable (needle : string) (v : pyval) (items : list pyval) :
  py_iter v = Ok items -> exists b, py_in needle v = Ok b.
Proof.
  destruct v; simpl; intros H; try discriminate; eexists; reflexivity.
Qed.

Lemma meal_step_returns (v : pyval) (dish : Dish.t) (score : Q) :
  iterable_if_truthy v -> exists s, meal_step v dish score = Ok s.
Proof.
  intros Hv. unfold meal_step.
  destruct (truthy v) eqn:Et; simpl; [| eexists; reflexivity].
  destruct (text_truthy (Dish.category dish)); [| eexists; reflexivity].
  destruct (Hv Et) as (items & ->). simpl. eexists; reflexivity.
Qed.

Lemma restrictions_step_returns (v : pyval) (dish : Dish.t) (score : Q) :
  iterable_if_truthy v -> exists s, restrictions_step v dish score = Ok s.
Proof.
  intros Hv. unfold restrictions_step.
  destruct (truthy v) eqn:Et; [| eexists; reflexivity].
  destruct (Hv Et) as (items & Hitems).
  destruct (py_in_of_iterable "gluten-free" v items Hitems) as (b1 & ->).
  destruct (py_in_of_iterable "lactose-free" v items Hitems) as (b2 & ->).
  destruct (py_in_of_iterable "jain" v items Hitems) as (b3 & ->).
  simpl. eexists; reflexivity.
Qed.

Lemma allergen_loop_returns (avoided declared : list pyval) (dish_allergens : pyval) :
  py_iter dish_allergens = Ok declared ->
  forall score, exists s, allergen_loop avoided dish_allergens score = Ok s.
Proof.
  intros Hd. induction avoided as [| x avoided IH]; intros score; simpl.
  - eexists; reflexivity.
  - destruct (as_str x); [rewrite Hd; simpl |]; apply IH.
Qed.

Lemma allergen_step_returns (v : pyval) (dish : Dish.t) (score : Q) :
  iterable_if_truthy v ->
  iterable_if_truthy (Dish.get_allergens_list dish) ->
  exists s, allergen_step v dish score = Ok s.
Proof.
  intros Hv Hd. unfold allergen_step.
  destruct (truthy v) eqn:Ev; simpl; [| eexists; reflexivity].
  destruct (truthy (Dish.get_allergens_list dish)) eqn:Ed; [| eexists; reflexivity].
  destruct (Hv Ev) as (avoided & ->).
  destruct (Hd Ed) as (declared & Hdecl). simpl.
  now apply (allergen_loop_returns avoided declared).
Qed.

Lemma computed_score_returns (db : Database) (user : User.t) (cuisine_applied : bool)
      (dish : Dish.t) :
  lists_well_typed db user ->
  In dish (dishes db) ->
  exists p, computed_score db user cuisine_applied dish = Ok p.
Proof.
  intros (Hmeal & Hrestr & Hall & Hdishes) Hin.
  unfold computed_score, score_before_allergens.
  destruct (cuisine_step db (User.get_preferred_cuisines_list user) dish 0) as [s0 m0].
  match goal with
  | |- context [meal_step ?v ?d ?s] =>
      destruct (meal_step_returns v d s Hmeal) as (s1 & ->)
  end.
  simpl.
  match goal with
  | |- context [restrictions_step ?v ?d ?s] =>
      destruct (restrictions_step_returns v d s Hrestr) as (s2 & ->)
  end.
  simpl.
  destruct (allergen_step_returns (User.get_allergens_list user) dish s2 Hall
              (Hdishes dish Hin)) as (s3 & ->).
  simpl. eexists; reflexivity.
Qed.

Lemma score_dishes_returns (db : Database) (user : User.t) (cuisine_applied : bool)
      (pool : list Dish.t) :
  lists_well_typed db user ->
  incl pool (dishes db) ->
  exists scored, score_dishes db user cuisine_applied pool = Ok scored.
Proof.
  intros Hwt. induction pool as [| d pool IH]; intros Hincl; simpl.
  - eexists; reflexivity.
  - destruct (computed_score_returns db user cuisine_applied d Hwt
                (Hincl d (or_introl eq_refl))) as (p & ->).
    destruct IH as (scored & ->); [intros x Hx; apply Hincl; now right |].
    simpl. eexists; reflexivity.
Qed.

(** On well-typed data no step of the engine raises a [TypeError]. *)
Lemma recommendations_return (db : Database) (user : User.t) (lat lon : option Q)
      (limit : Z) :
  lists_well_typed db user ->
  exists result, get_rule_based_recommendations db user lat lon limit = Ok result.
Proof.
  intros Hwt. unfold get_rule_based_recommendations, ranked, scored_candidates.
  pose proof (candidate_pool_incl db user lat lon limit) as Hincl.
  destruct (candidate_pool db user lat lon limit) as [pool f]. simpl in Hincl.
  destruct pool as [| d pool]; simpl is_empty; cbv iota; [eexists; reflexivity |].
  destruct (score_dishes_returns db user (cuisine_filter_applied f) (d :: pool) Hwt)
    as (scored & ->).
  - intros x Hx. apply Hincl in Hx. now apply available_dishes_spec in Hx.
  - simpl. eexists; reflexivity.
Qed.

Lemma scored_candidates_in_pool (db : Database) (user : User.t) (lat lon : option Q)
      (limit : Z) (scored : list (Dish.t * Q)) :
  scored_candidates db user lat lon limit = Ok scored ->
  forall e, In e scored -> In (fst e) (fst (candidate_pool db user lat lon limit)).
Proof.
  unfold scored_candidates.
  destruct (candidate_pool db user lat lon limit) as [pool f].
  intros H e He.
  apply (score_dishes_in db user _ pool scored H) in He.
  destruct He as (d & s & m & Hd & _ & Hent).
  apply scored_entry_dish in Hent. simpl. now rewrite Hent.
Qed.

(** C8, as the code has it.  Every dish a call returns is available, and for
    a limit that is not negative the call returns at most [limit] dishes. *)
Theorem at_most_limit_all_available (db : Database) (user : User.t)
        (lat lon : option Q) (limit : Z) (result : list Dish.t) :
  get_rule_based_recommendations db user lat lon limit = Ok result ->
  Forall (fun d => Dish.is_available d = true) result
  /\ ((0 <= limit)%Z -> (Z.of_nat (length result) <= limit)%Z).
Proof.
  intros H.
  destruct (recommendations_cases db user lat lon limit result H)
    as (scored & Hscored & -> & _).
  split.
  - apply Forall_forall. intros d Hd.
    apply in_map_iff in Hd. destruct Hd as (e & <- & He).
    apply top_dishes_in in He. apply sort_by_in in He.
    apply (scored_candidates_in_pool db user lat lon limit scored Hscored) in He.
    apply candidate_pool_incl in He.
    now apply available_dishes_spec in He.
  - intros Hl. rewrite length_map. now apply top_dishes_length.
Qed.


End PipelineFacts.

(** *** Runs on the sample data *)

Lemma at_most_limit_all_available_witness :
  Forall (fun d => Dish.is_available d = true)
         [Sample.dish 1 1 None; Sample.dish 2 2 None]
  /\ (Z.of_nat (length [Sample.dish 1 1 None; Sample.dish 2 2 None]) <= 2)%Z.
Proof.
  assert (H : get_rule_based_recommendations Sample.catalog (Sample.customer None None)
                None None 2
              = Ok [Sample.dish 1 1 None; Sample.dish 2 2 None])
    by (vm_compute; reflexivity).
  destruct (at_most_limit_all_available Sample.catalog (Sample.customer None None)
              None None 2 [Sample.dish 1 1 None; Sample.dish 2 2 None] H) as [Ha Hb].
  split; [exact Ha | apply Hb; lia].
Defined.

(** C8 as stated fails for a negative limit: [limit=-1] leaves the query
    unbounded and the slice drops the last dish only, so two dishes of the
    three come back. *)
Lemma negative_limit_exceeded :
  get_rule_based_recommendations Sample.catalog (Sample.customer None None)
    None None (-1)
  = Ok [Sample.dish 1 1 None; Sample.dish 2 2 None]
  /\ ~ (Z.of_nat (length [Sample.dish 1 1 None; Sample.dish 2 2 None]) <= -1)%Z.
Proof.
  split; [vm_compute; reflexivity | simpl; lia].
Qed.



(* ===================================================================== *)
(** * Further properties of the engine *)
(* ===================================================================== *)

(** ** Trimming and lower-casing *)

Lemma lower_char_idempotent (c : ascii) :
  PyStr.lower_char (PyStr.lower_char c) = PyStr.lower_char c.
Proof.
  destruct c as [[] [] [] [] [] [] [] []]; reflexivity.
Qed.

Lemma is_space_lower_char (c : ascii) :
  PyStr.is_space (PyStr.lower_char c) = PyStr.is_space c.
Proof.
  destruct c as [[] [] [] [] [] [] [] []]; reflexivity.
Qed.

Lemma lower_idempotent (s : string) : PyStr.lower (PyStr.lower s) = PyStr.lower s.
Proof.
  induction s as [| c s IH]; simpl; [reflexivity |].
  now rewrite lower_char_idempotent, IH.
Qed.

Lemma lower_lstrip (s : string) :
  PyStr.lower (PyStr.lstrip s) = PyStr.lstrip (PyStr.lower s).
Proof.
  induction s as [| c s IH]; simpl; [reflexivity |].
  rewrite is_space_lower_char. destruct (PyStr.is_space c); [exact IH | reflexivity].
Qed.

Lemma lower_rstrip (s : string) :
  PyStr.lower (PyStr.rstrip s) = PyStr.rstrip (PyStr.lower s).
Proof.
  induction s as [| c s IH]; simpl; [reflexivity |].
  rewrite <- IH, is_space_lower_char.
  destruct (PyStr.rstrip s); simpl; [destruct (PyStr.is_space c) |]; reflexivity.
Qed.

Lemma lower_strip (s : string) :
  PyStr.lower (PyStr.strip s) = PyStr.strip (PyStr.lower s).
Proof.
  unfold PyStr.strip. now rewrite lower_rstrip, lower_lstrip.
Qed.

Lemma nonempty_lower (s : string) : PyStr.nonempty (PyStr.lower s) = PyStr.nonempty s.
Proof. destruct s; reflexivity. Qed.

Lemma rstrip_idempotent (s : string) : PyStr.rstrip (PyStr.rstrip s) = PyStr.rstrip s.
Proof.
  induction s as [| c s IH]; simpl; [reflexivity |].
  destruct (PyStr.rstrip s) as [| d r] eqn:E.
  - destruct (PyStr.is_space c) eqn:Ec; simpl; [reflexivity | now rewrite Ec].
  - simpl in *. now rewrite IH.
Qed.

Lemma lstrip_clean_head (s : string) : clean_head (PyStr.lstrip s).
Proof.
  induction s as [| c s IH]; simpl; [exact I |].
  destruct (PyStr.is_space c) eqn:E; [exact IH | exact E].
Qed.

Lemma rstrip_clean_head (s : string) : clean_head s -> clean_head (PyStr.rstrip s).
Proof.
  destruct s as [| c s]; simpl; [trivial |].
  intros H. destruct (PyStr.rstrip s); simpl; [now rewrite H | exact H].
Qed.

Lemma lstrip_of_clean_head (s : string) : clean_head s -> PyStr.lstrip s = s.
Proof.
  destruct s as [| c s]; simpl; [reflexivity | now intros ->].
Qed.

Lemma strip_idempotent (s : string) : PyStr.strip (PyStr.strip s) = PyStr.strip s.
Proof.
  unfold PyStr.strip.
  rewrite (lstrip_of_clean_head (PyStr.rstrip (PyStr.lstrip s)))
    by (apply rstrip_clean_head, lstrip_clean_head).
  apply rstrip_idempotent.
Qed.

Lemma strip_nonempty_source (s : string) :
  PyStr.nonempty (PyStr.strip s) = true -> PyStr.nonempty s = true.
Proof. destruct s; [discriminate | reflexivity]. Qed.

(** ** The matcher as a relation *)

Lemma mem_true_iff (x : string) (l : list string) : PyStr.mem x l = true <-> In x l.
Proof.
  unfold PyStr.mem. rewrite existsb_exists. split.
  - intros (y & Hy & E). apply String.eqb_eq in E. now subst.
  - intros H. exists x. split; [exact H | apply String.eqb_refl].
Qed.

Lemma to_set_in (x : string) (l : list string) : In x (PyStr.to_set l) <-> In x l.
Proof.
  induction l as [| y l IH]; simpl; [reflexivity |].
  destruct (PyStr.mem y l) eqn:E.
  - rewrite IH. apply mem_true_iff in E. split; [auto | intros [<- | H]; auto].
  - simpl. now rewrite IH.
Qed.

Lemma to_set_nodup (l : list string) : NoDup (PyStr.to_set l).
Proof.
  induction l as [| y l IH]; simpl; [constructor |].
  destruct (PyStr.mem y l) eqn:E; [exact IH |].
  constructor; [| exact IH].
  intros H. apply (proj1 (to_set_in y l)) in H.
  apply (proj2 (mem_true_iff y l)) in H. congruence.
Qed.

(** The intersection of two sets has the same size from either side. *)
Lemma set_inter_length_sym (a b : list string) :
  NoDup a -> NoDup b ->
  length (PyStr.set_inter a b) = length (PyStr.set_inter b a).
Proof.
  intros Ha Hb. apply Permutation_length. unfold PyStr.set_inter.
  apply NoDup_Permutation; try (now apply NoDup_filter).
  intros x. rewrite !filter_In, !mem_true_iff. tauto.
Qed.

Lemma word_overlap_sym (a b : string) : word_overlap a b = word_overlap b a.
Proof.
  unfold word_overlap. cbv zeta.
  rewrite (set_inter_length_sym
             (PyStr.set_diff (PyStr.to_set (PyStr.split_ws a)) common_noise_words)
             (PyStr.set_diff (PyStr.to_set (PyStr.split_ws b)) common_noise_words))
    by (apply NoDup_filter, to_set_nodup).
  now rewrite Nat.min_comm.
Qed.

Lemma north_south_conflict_sym (a b : string) :
  north_south_conflict a b = north_south_conflict b a.
Proof.
  unfold north_south_conflict. cbv zeta.
  destruct (PyStr.contains "north" a), (PyStr.contains "south" a),
           (PyStr.contains "north" b), (PyStr.contains "south" b); reflexivity.
Qed.

Lemma same_group_sym (g h : option string) : same_group g h = same_group h g.
Proof.
  destruct g as [u |], h as [p |]; simpl; try reflexivity.
  rewrite (String.eqb_sym u p).
  destruct (PyStr.nonempty u), (PyStr.nonempty p); reflexivity.
Qed.

Lemma cuisine_matches_swap (u v : string) : cuisine_matches u v = cuisine_matches v u.
Proof.
  unfold cuisine_matches.
  rewrite (orb_comm (negb (PyStr.nonempty v))).
  destruct (negb (PyStr.nonempty u) || negb (PyStr.nonempty v)); [reflexivity |].
  cbv zeta.
  rewrite (north_south_conflict_sym (normalize_cuisine_name v)),
          (same_group_sym (find_group (normalize_cuisine_name v))),
          (String.eqb_sym (normalize_cuisine_name v)),
          (word_overlap_sym (normalize_cuisine_name v)).
  destruct (north_south_conflict (normalize_cuisine_name u) (normalize_cuisine_name v));
    [reflexivity |].
  destruct (same_group _ _); [reflexivity |].
  destruct (String.eqb _ _); [reflexivity |].
  destruct (PyStr.contains (normalize_cuisine_name u) (normalize_cuisine_name v)),
           (PyStr.contains (normalize_cuisine_name v) (normalize_cuisine_name u));
    reflexivity.
Qed.

(** X1.  Matching is symmetric: a user cuisine matches a vendor specialty
    exactly when the specialty, taken as a user cuisine, matches it. *)
Theorem cuisine_matches_sym (u v : string) : cuisine_matches u v = cuisine_matches v u.
Proof. apply cuisine_matches_swap. Qed.



Lemma cuisine_matches_by_norm (u u' v : string) :
  PyStr.nonempty u = PyStr.nonempty u' ->
  normalize_cuisine_name u = normalize_cuisine_name u' ->
  cuisine_matches u v = cuisine_matches u' v.
Proof.
  intros Hn Hnorm. unfold cuisine_matches. now rewrite Hn, Hnorm.
Qed.

Lemma normalize_strip (u : string) :
  PyStr.strip u <> "" ->
  normalize_cuisine_name (PyStr.strip u) = normalize_cuisine_name u.
Proof.
  intros H. apply nonempty_true_iff in H.
  unfold normalize_cuisine_name.
  rewrite H, (strip_nonempty_source u H).
  now rewrite lower_strip, strip_idempotent.
Qed.

Lemma normalize_lower (u : string) :
  normalize_cuisine_name (PyStr.lower u) = normalize_cuisine_name u.
Proof.
  unfold normalize_cuisine_name. now rewrite nonempty_lower, lower_idempotent.
Qed.

(** X3.  Matching ignores letter case and, for a name that is not blank,
    the white space around it, on either side of the comparison. *)
Theorem cuisine_matches_ignores_case_and_margins (u v : string) :
  cuisine_matches (PyStr.lower u) v = cuisine_matches u v
  /\ cuisine_matches u (PyStr.lower v) = cuisine_matches u v
  /\ (PyStr.strip u <> "" -> cuisine_matches (PyStr.strip u) v = cuisine_matches u v)
  /\ (PyStr.strip v <> "" -> cuisine_matches u (PyStr.strip v) = cuisine_matches u v).
Proof.
  assert (Hl : forall a b, cuisine_matches (PyStr.lower a) b = cuisine_matches a b).
  { intros a b. apply cuisine_matches_by_norm;
      [apply nonempty_lower | apply normalize_lower]. }
  assert (Hs : forall a b, PyStr.strip a <> "" ->
                           cuisine_matches (PyStr.strip a) b = cuisine_matches a b).
  { intros a b H. apply cuisine_matches_by_norm; [| now apply normalize_strip].
    apply nonempty_true_iff in H. now rewrite H, (strip_nonempty_source a H). }
  repeat split.
  - apply Hl.
  - now rewrite cuisine_matches_swap, Hl, cuisine_matches_swap.
  - apply Hs.
  - intros H. now rewrite cuisine_matches_swap, (Hs v u H), cuisine_matches_swap.
Qed.

Lemma cuisine_matches_ignores_case_and_margins_witness :
  cuisine_matches (PyStr.strip "  South Indian ") "KERALA"
  = cuisine_matches "  South Indian " "KERALA".
Proof.
  apply (proj1 (proj2 (proj2 (cuisine_matches_ignores_case_and_margins
                                "  South Indian " "KERALA")))).
  discriminate.
Defined.

(** ** The preference list and the two cuisine tests *)

Section PreferenceFacts.
Context {rt : PyRuntime}.

Lemma preferred_cuisine_clean (u : User.t) (c : string) :
  In c (User.get_preferred_cuisines_list u) -> c <> "" /\ PyStr.strip c = c.
Proof.
  assert (Hone : forall s, PyStr.nonempty (PyStr.strip s) = true ->
                           PyStr.strip s <> "" /\ PyStr.strip (PyStr.strip s) = PyStr.strip s).
  { intros s H. split; [now apply nonempty_true_iff | apply strip_idempotent]. }
  unfold User.get_preferred_cuisines_list.
  destruct (User.preferred_cuisines u) as [s |]; [| intros []].
  destruct (PyStr.nonempty s); [| intros []].
  destruct (json_loads s) as [v |].
  - destruct v as [| b | z | f | t | parsed | kv];
      try (destruct (PyStr.nonempty (PyStr.strip s)) eqn:E;
           [intros [<- | []]; now apply Hone | intros []]).
    intros H. apply in_map_iff in H. destruct H as (x & <- & Hx).
    apply filter_In in Hx. destruct Hx as [_ Hx].
    apply andb_true_iff in Hx. now apply Hone.
  - destruct (PyStr.contains "," s).
    + intros H. apply in_map_iff in H. destruct H as (x & <- & Hx).
      apply filter_In in Hx. now apply Hone.
    + destruct (PyStr.nonempty (PyStr.strip s)) eqn:E;
        [intros [<- | []]; now apply Hone | intros []].
Qed.

(** X4.  Whatever the stored text and whatever [json.loads] makes of it,
    every name of the preference list is non-empty and carries no white
    space around it. *)
Theorem preferred_cuisines_are_clean (u : User.t) (c : string) :
  In c (User.get_preferred_cuisines_list u) -> c <> "" /\ PyStr.strip c = c.
Proof. apply preferred_cuisine_clean. Qed.

Lemma clean_names_kept (names : list string) :
  Forall (fun n => n <> "" /\ PyStr.strip n = n) names ->
  map (fun c => PyStr.strip (py_str c))
      (filter (fun c => truthy c && PyStr.nonempty (PyStr.strip (py_str c)))
              (map PStr names))
  = names.
Proof.
  induction 1 as [| n names [Hn Hstrip] _ IH]; simpl; [reflexivity |].
  rewrite Hstrip. apply nonempty_true_iff in Hn. rewrite Hn. simpl.
  now rewrite Hstrip, IH.
Qed.

(** X5.  A list of clean names written as a JSON array is read back as it
    was written. *)
Theorem preferred_cuisines_round_trip (u : User.t) (s : string) (names : list string) :
  User.preferred_cuisines u = Some s ->
  s <> "" ->
  json_loads s = Some (PList (map PStr names)) ->
  Forall (fun n => n <> "" /\ PyStr.strip n = n) names ->
  User.get_preferred_cuisines_list u = names.
Proof.
  intros Hcol Hne Hjson Hclean.
  unfold User.get_preferred_cuisines_list.
  apply nonempty_true_iff in Hne. rewrite Hcol, Hne, Hjson.
  now apply clean_names_kept.
Qed.

Lemma existsb_same {A : Type} (f g : A -> bool) (l : list A) :
  (forall x, In x l -> f x = g x) -> existsb f l = existsb g l.
Proof.
  induction l as [| x l IH]; intros H; simpl; [reflexivity |].
  rewrite (H x (or_introl eq_refl)), IH; [reflexivity |].
  intros y Hy. apply H. now right.
Qed.

Lemma cuisine_flag_is_partition_test (db : Database) (user : User.t) (dish : Dish.t)
      (score : Q) :
  snd (cuisine_step db (User.get_preferred_cuisines_list user) dish score)
  = is_cuisine_match db (User.get_preferred_cuisines_list user) dish.
Proof.
  assert (Hsame : forall spec,
             existsb (fun c => cuisine_matches (PyStr.strip c) spec)
                     (User.get_preferred_cuisines_list user)
             = existsb (fun c => cuisine_matches c spec)
                       (User.get_preferred_cuisines_list user)).
  { intros spec. apply existsb_same. intros c Hc.
    now rewrite (proj2 (preferred_cuisine_clean user c Hc)). }
  unfold is_cuisine_match.
  destruct (vendor_specialty db dish) as [spec |] eqn:Hspec.
  - destruct (User.get_preferred_cuisines_list user) as [| c prefs] eqn:Ep.
    + simpl. unfold vendor_specialty in Hspec.
      destruct (get_producer db (Dish.producer_id dish)) as [p |]; [| reflexivity].
      destruct (Producer.cuisine_specialty p); [| reflexivity].
      now rewrite andb_false_r.
    + rewrite (cuisine_step_with_specialty db (c :: prefs) dish score spec)
        by (discriminate || assumption).
      unfold vendor_specialty in Hspec.
      destruct (get_producer db (Dish.producer_id dish)) as [p |]; [| discriminate].
      destruct (Producer.cuisine_specialty p) as [sp |]; [| discriminate].
      destruct (PyStr.nonempty sp) eqn:En; [| discriminate].
      injection Hspec as ->. rewrite Hsame.
      destruct (existsb (fun c0 => cuisine_matches c0 spec) (c :: prefs)); reflexivity.
  - rewrite cuisine_step_without_specialty by assumption. simpl.
    unfold vendor_specialty in Hspec.
    destruct (get_producer db (Dish.producer_id dish)) as [p |]; [| reflexivity].
    destruct (Producer.cuisine_specialty p) as [sp |]; [| reflexivity].
    destruct (PyStr.nonempty sp); [discriminate | reflexivity].
Qed.

(** X6.  The scorer and the composer test the cuisine of a dish separately,
    the composer on trimmed names: for every dish they give the same answer,
    so the dishes scored as matches are the dishes ranked as matches. *)
Theorem scorer_and_composer_agree (db : Database) (user : User.t)
        (cuisine_applied : bool) (dish : Dish.t) (score : Q) (m : bool) :
  computed_score db user cuisine_applied dish = Ok (score, m) ->
  m = is_cuisine_match db (User.get_preferred_cuisines_list user) dish.
Proof.
  intros H. rewrite (computed_score_flag _ _ _ _ _ _ H).
  apply cuisine_flag_is_partition_test.
Qed.

(** X7.  Every dish the composer ranks has a final score above -30, and a
    final score of 20 at least when it matches a preferred cuisine. *)
Theorem ranked_scores_floor (db : Database) (user : User.t) (lat lon : option Q)
        (limit : Z) (top : list (Dish.t * Q)) (e : Dish.t * Q) :
  ranked db user lat lon limit = Ok top ->
  In e top ->
  -30 < snd e
  /\ (is_cuisine_match db (User.get_preferred_cuisines_list user) (fst e) = true ->
      20 <= snd e).
Proof.
  unfold ranked, scored_candidates. intros H He.
  apply bind_ok in H. destruct H as (scored & Hscored & H). injection H as <-.
  rewrite compose_is_top_dishes in He. apply top_dishes_in in He.
  apply sort_by_in in He.
  destruct (candidate_pool db user lat lon limit) as [pool f].
  apply (score_dishes_in db user _ pool scored Hscored) in He.
  destruct He as (d & s & m & _ & Hc & Hent).
  assert (Hm : m = is_cuisine_match db (User.get_preferred_cuisines_list user) d).
  { rewrite (computed_score_flag _ _ _ _ _ _ Hc).
    apply cuisine_flag_is_partition_test. }
  pose proof (scored_entry_dish _ _ _ _ Hent) as Hd.
  unfold scored_entry in Hent. destruct m.
  - injection Hent as <-. simpl.
    assert (H20 : 20 <= (if Qltb s 20 then 20 else s)).
    { destruct (Qltb s 20) eqn:E; [apply Qle_refl | now apply Qltb_ge]. }
    split; [| intros _; exact H20].
    eapply Qlt_le_trans; [| exact H20]. reflexivity.
  - destruct (Qltb (-30) s) eqn:E; [| discriminate].
    injection Hent as <-. simpl. split; [now apply Qltb_lt |].
    intros Hyes. simpl in Hm. congruence.
Qed.

End PreferenceFacts.

Lemma preferred_cuisines_are_clean_witness :
  "Kerala" <> "" /\ PyStr.strip "Kerala" = "Kerala".
Proof.
  apply (preferred_cuisines_are_clean (Sample.customer None (Some " Tamil, ,Kerala "))).
  vm_compute. right. left. reflexivity.
Defined.

Lemma preferred_cuisines_round_trip_witness :
  User.get_preferred_cuisines_list (Sample.customer None (Some Sample.two_cuisines_json))
  = ["Tamil"; "Kerala"].
Proof.
  apply (preferred_cuisines_round_trip
           (Sample.customer None (Some Sample.two_cuisines_json))
           Sample.two_cuisines_json ["Tamil"; "Kerala"]).
  - reflexivity.
  - discriminate.
  - vm_compute. reflexivity.
  - repeat constructor; discriminate.
Defined.

Lemma scorer_and_composer_agree_witness :
  true = is_cuisine_match Sample.catalog
           (User.get_preferred_cuisines_list (Sample.customer None (Some "South Indian")))
           (Sample.dish 2 2 None).
Proof.
  apply (scorer_and_composer_agree Sample.catalog
           (Sample.customer None (Some "South Indian")) true
           (Sample.dish 2 2 None) (45000 # 1000) true).
  vm_compute. reflexivity.
Defined.

Lemma ranked_scores_floor_witness :
  -30 < 5000 # 1000
  /\ (is_cuisine_match Sample.catalog_pending
        (User.get_preferred_cuisines_list (Sample.customer None (Some "South Indian")))
        (Sample.dish 3 3 None) = true -> 20 <= 5000 # 1000).
Proof.
  apply (ranked_scores_floor Sample.catalog_pending
           (Sample.customer None (Some "South Indian")) None None 10
           [(Sample.dish 2 2 None, 45000 # 1000); (Sample.dish 3 3 None, 5000 # 1000);
            (Sample.dish 1 1 None, -15000 # 1000)]
           (Sample.dish 3 3 None, 5000 # 1000)).
  - vm_compute. reflexivity.
  - right. left. reflexivity.
Defined.

(** ** Distances *)

Lemma haversine_a_sym (lat1 lon1 lat2 lon2 : R) :
  Geo.haversine_a lat1 lon1 lat2 lon2 = Geo.haversine_a lat2 lon2 lat1 lon1.
Proof.
  unfold Geo.haversine_a. cbv zeta.
  assert (Hsq : forall x y : R,
             ((sin (Geo.radians (x - y) / 2)) ^ 2
              = (sin (Geo.radians (y - x) / 2)) ^ 2)%R).
  { intros x y.
    replace (Geo.radians (x - y) / 2)%R with (- (Geo.radians (y - x) / 2))%R
      by (unfold Geo.radians; field).
    rewrite sin_neg. ring. }
  rewrite (Hsq lat2 lat1), (Hsq lon2 lon1). ring.
Qed.

(** X8.  The distance does not depend on the order of the two points. *)
Theorem haversine_symmetric (lat1 lon1 lat2 lon2 : option Q) :
  Geo.calculate_distance_haversine lat1 lon1 lat2 lon2
  = Geo.calculate_distance_haversine lat2 lon2 lat1 lon1.
Proof.
  unfold Geo.calculate_distance_haversine.
  destruct lat1 as [a |], lon1 as [b |], lat2 as [c |], lon2 as [d |]; simpl;
    rewrite ?andb_false_r; try reflexivity.
  destruct (Qeq_bool a 0), (Qeq_bool b 0), (Qeq_bool c 0), (Qeq_bool d 0); simpl;
    try reflexivity.
  unfold Geo.haversine. cbv zeta. now rewrite haversine_a_sym.
Qed.

Lemma haversine_same_point (lat lon : R) : Geo.haversine lat lon lat lon = 0%R.
Proof.
  unfold Geo.haversine, Geo.haversine_a. cbv zeta.
  replace (Geo.radians (lat - lat) / 2)%R with 0%R by (unfold Geo.radians; field).
  replace (Geo.radians (lon - lon) / 2)%R with 0%R by (unfold Geo.radians; field).
  rewrite sin_0.
  replace (0 ^ 2 + cos (Geo.radians lat) * cos (Geo.radians lat) * 0 ^ 2)%R
    with 0%R by ring.
  rewrite sqrt_0, asin_0. ring.
Qed.

Lemma same_point_not_within (lat lon : option Q) (km : R) :
  Geo.within_km km (Geo.calculate_distance lat lon lat lon) = false.
Proof.
  unfold Geo.calculate_distance, Geo.calculate_distance_haversine.
  destruct (Geo.coord_truthy lat && Geo.coord_truthy lon
            && Geo.coord_truthy lat && Geo.coord_truthy lon); [| reflexivity].
  destruct lat as [a |], lon as [b |]; try reflexivity.
  simpl. rewrite haversine_same_point.
  destruct (Req_dec_T 0 0) as [_ | H]; [reflexivity | now elim H].
Qed.

(** X10.  The test [distance and distance <= km] fails at distance zero: a
    producer whose coordinates are those of the caller is never counted as
    nearby, whatever the radius, and when every approved producer is at the
    caller's position the location stage filters nothing. *)
Theorem own_position_is_not_nearby (db : Database) (lat lon : option Q) (km : R) :
  Geo.within_km km (Geo.calculate_distance lat lon lat lon) = false
  /\ ((forall p, In p (approved_producers db) ->
                 Producer.latitude p = lat /\ Producer.longitude p = lon) ->
      nearby_producer_ids db lat lon km = []
      /\ forall query, location_stage db lat lon km query = query).
Proof.
  split; [apply same_point_not_within |].
  intros Hall.
  assert (Hnone : nearby_producer_ids db lat lon km = []).
  { unfold nearby_producer_ids. rewrite filter_none; [reflexivity |].
    intros p Hp. destruct (Hall p Hp) as [-> ->].
    rewrite same_point_not_within. apply andb_false_r. }
  split; [exact Hnone |].
  intros query. unfold location_stage. rewrite Hnone.
  destruct (Geo.coord_truthy lat && Geo.coord_truthy lon); reflexivity.
Qed.

(** ** The shape of the candidate pool *)

Section PoolShape.
Context {rt : PyRuntime}.
Variable db : Database.

(** A property of queries that holds of the available dishes and that every
    filter keeps. *)
Variable P : list Dish.t -> Prop.
Hypothesis P_all : P (available_dishes db).
Hypothesis P_filter : forall f l, P l -> P (filter f l).

Lemma location_stage_keeps (lat lon : option Q) (km : R) (q : list Dish.t) :
  P q -> P (location_stage db lat lon km q).
Proof.
  intros Hq. unfold location_stage.
  destruct (Geo.coord_truthy lat && Geo.coord_truthy lon); [| exact Hq].
  destruct (nearby_producer_ids db lat lon km); [exact Hq |].
  now apply P_filter.
Qed.

Lemma dietary_spice_stage_keeps (user : User.t) (q : list Dish.t) :
  P q -> P (fst (fst (dietary_spice_stage user q))).
Proof.
  intros Hq. unfold dietary_spice_stage, with_dietary_type, with_spice_level.
  destruct (User.dietary_preferences user) as [p |];
    [destruct (PyStr.nonempty p) |];
    (destruct (User.spice_level user) as [p' |];
     [destruct (PyStr.nonempty p') |]);
    simpl; repeat apply P_filter; exact Hq.
Qed.

Lemma strict_query_keeps (user : User.t) (lat lon : option Q) :
  P (fst (strict_query db user lat lon)).
Proof.
  unfold strict_query.
  pose proof (location_stage_keeps lat lon 20%R (available_dishes db) P_all) as Hloc.
  pose proof (dietary_spice_stage_keeps user _ Hloc) as Hds.
  destruct (dietary_spice_stage user
              (location_stage db lat lon 20%R (available_dishes db)))
    as [[q dietary] spice].
  simpl in Hds.
  destruct (User.get_preferred_cuisines_list user) as [| c prefs]; simpl; [exact Hds |].
  destruct (matching_cuisine_producer_ids db (c :: prefs)); simpl; [exact Hds |].
  now apply P_filter.
Qed.

(** Whatever the branch, the pool is one limited query over a filtered
    selection of the available dishes. *)
Lemma candidate_pool_shape (user : User.t) (lat lon : option Q) (limit : Z) :
  exists q, fst (candidate_pool db user lat lon limit) = fetch (limit * 5) q /\ P q.
Proof.
  unfold candidate_pool.
  pose proof (strict_query_keeps user lat lon) as Hq.
  destruct (strict_query db user lat lon) as [q f]. simpl in Hq.
  destruct (is_empty (fetch (limit * 5) q)); [| now exists q].
  assert (H1 : exists q1,
             fst (fallback_level1 db user limit (fetch (limit * 5) q, f))
             = fetch (limit * 5) q1 /\ P q1).
  { unfold fallback_level1.
    destruct (cuisine_filter_applied f); [| now exists q].
    pose proof (dietary_spice_stage_keeps user _ P_all) as Hds.
    destruct (dietary_spice_stage user (available_dishes db)) as [[q1 dietary] spice].
    now exists q1. }
  destruct (fallback_level1 db user limit (fetch (limit * 5) q, f)) as [found1 f1].
  assert (H2 : exists q2,
             fst (fallback_level2 db user limit (found1, f1))
             = fetch (limit * 5) q2 /\ P q2).
  { unfold fallback_level2.
    destruct (is_empty found1 && spice_filter_applied f1); [| exact H1].
    eexists. split; [reflexivity |].
    destruct (User.dietary_preferences user) as [p |]; [| exact P_all].
    destruct (dietary_filter_applied f1 && PyStr.nonempty p); [| exact P_all].
    now apply P_filter. }
  destruct (fallback_level2 db user limit (found1, f1)) as [found2 f2].
  assert (H3 : exists q3,
             fst (fallback_level3 db limit (found2, f2))
             = fetch (limit * 5) q3 /\ P q3).
  { unfold fallback_level3.
    destruct (is_empty found2 && dietary_filter_applied f2); [| exact H2].
    now exists (available_dishes db). }
  destruct (fallback_level3 db limit (found2, f2)) as [found3 f3].
  unfold fallback_level4.
  destruct (is_empty found3); [| exact H3].
  now exists (available_dishes db).
Qed.

End PoolShape.

Section PoolFacts.
Context {rt : PyRuntime}.

Lemma fetch_length (n : Z) (q : list Dish.t) :
  (0 <= n)%Z -> (Z.of_nat (length (fetch n q)) <= n)%Z.
Proof. intros H. unfold fetch. now apply sql_limit_length. Qed.

(** X12.  For a limit that is not negative the scorer is handed at most
    five times [limit] dishes, whichever level of the cascade produced
    them. *)
Theorem pool_is_capped (db : Database) (user : User.t) (lat lon : option Q)
        (limit : Z) :
  (0 <= limit)%Z ->
  (Z.of_nat (length (fst (candidate_pool db user lat lon limit))) <= 5 * limit)%Z.
Proof.
  intros Hl.
  destruct (candidate_pool_shape db (fun _ => True) I (fun _ _ _ => I)
              user lat lon limit) as (q & -> & _).
  pose proof (fetch_length (limit * 5) q). lia.
Qed.

(** The fallback levels never report the cuisine filter as applied. *)
Lemma fallbacks_clear_cuisine_flag (db : Database) (user : User.t) (limit : Z)
      (st : list Dish.t * Filters) :
  cuisine_filter_applied
    (snd (fallback_level4 db limit
            (fallback_level3 db limit
               (fallback_level2 db user limit
                  (fallback_level1 db user limit st))))) = false.
Proof.
  assert (H1 : cuisine_filter_applied (snd (fallback_level1 db user limit st)) = false).
  { destruct st as [found f]. unfold fallback_level1.
    destruct (cuisine_filter_applied f) eqn:E; [| exact E].
    now destruct (dietary_spice_stage user (available_dishes db)) as [[q d] s]. }
  destruct (fallback_level1 db user limit st) as [found1 f1]. simpl in H1.
  assert (H2 : cuisine_filter_applied
                 (snd (fallback_level2 db user limit (found1, f1))) = false).
  { unfold fallback_level2.
    now destruct (is_empty found1 && spice_filter_applied f1). }
  destruct (fallback_level2 db user limit (found1, f1)) as [found2 f2]. simpl in H2.
  assert (H3 : cuisine_filter_applied
                 (snd (fallback_level3 db limit (found2, f2))) = false).
  { unfold fallback_level3.
    now destruct (is_empty found2 && dietary_filter_applied f2). }
  destruct (fallback_level3 db limit (found2, f2)) as [found3 f3]. simpl in H3.
  unfold fallback_level4. now destruct (is_empty found3).
Qed.

Lemma matching_cuisine_producer (db : Database) (prefs : list string) (pid : Z) :
  In pid (matching_cuisine_producer_ids db prefs) ->
  exists p spec c,
    In p (approved_producers db) /\ Producer.id p = pid
    /\ Producer.cuisine_specialty p = Some spec
    /\ In c prefs
    /\ cuisine_matches (PyStr.strip c) spec = true.
Proof.
  unfold matching_cuisine_producer_ids. intros H.
  apply in_map_iff in H. destruct H as (p & Hid & Hp).
  apply filter_In in Hp. destruct Hp as [Hp Hm].
  destruct (Producer.cuisine_specialty p) as [spec |] eqn:Es; [| discriminate].
  apply andb_true_iff in Hm. destruct Hm as [_ Hm].
  apply existsb_exists in Hm. destruct Hm as (c & Hc & Hm).
  exists p, spec, c. auto.
Qed.

Lemma id_in_true (x : Z) (ids : list Z) : id_in x ids = true <-> In x ids.
Proof.
  unfold id_in. rewrite existsb_exists. split.
  - intros (y & Hy & E). apply Z.eqb_eq in E. now subst.
  - intros H. exists x. split; [exact H | apply Z.eqb_refl].
Qed.

(** X13.  When a call reports the cuisine filter as applied, the pool is
    not empty, neither the dietary nor the spice filter was applied, and
    every dish of the pool is sold by an approved, active producer whose
    specialty matches one of the preferred cuisines. *)
Theorem cuisine_filter_origin (db : Database) (user : User.t) (lat lon : option Q)
        (limit : Z) :
  cuisine_filter_applied (snd (candidate_pool db user lat lon limit)) = true ->
  fst (candidate_pool db user lat lon limit) <> []
  /\ dietary_filter_applied (snd (candidate_pool db user lat lon limit)) = false
  /\ spice_filter_applied (snd (candidate_pool db user lat lon limit)) = false
  /\ forall d,
       In d (fst (candidate_pool db user lat lon limit)) ->
       exists p spec c,
         In p (approved_producers db)
         /\ Producer.id p = Dish.producer_id d
         /\ Producer.cuisine_specialty p = Some spec
         /\ In c (User.get_preferred_cuisines_list user)
         /\ cuisine_matches c spec = true.
Proof.
  intros Hflag.
  assert (Hclean : forall c, In c (User.get_preferred_cuisines_list user) ->
                             PyStr.strip c = c)
    by (intros c Hc; now apply (preferred_cuisine_clean user c)).
  unfold candidate_pool in *.
  destruct (strict_query db user lat lon) as [q f] eqn:Es.
  destruct (is_empty (fetch (limit * 5) q)) eqn:Ee.
  { rewrite fallbacks_clear_cuisine_flag in Hflag. discriminate. }
  simpl in Hflag. simpl fst. simpl snd.
  assert (Hne : fetch (limit * 5) q <> []).
  { intros E. rewrite E in Ee. discriminate. }
  split; [exact Hne |].
  unfold strict_query in Es.
  destruct (dietary_spice_stage user
              (location_stage db lat lon 20%R (available_dishes db)))
    as [[q' dietary] spice].
  destruct (User.get_preferred_cuisines_list user) as [| c0 cs] eqn:Ep.
  { injection Es as <- <-. discriminate. }
  destruct (matching_cuisine_producer_ids db (c0 :: cs)) as [| i ids] eqn:Eids.
  { injection Es as <- <-. discriminate. }
  injection Es as <- <-.
  split; [reflexivity |]. split; [reflexivity |].
  intros d Hd.
  apply fetch_incl in Hd. unfold from_producers in Hd.
  apply filter_In in Hd. destruct Hd as [_ Hd].
  apply id_in_true in Hd. rewrite <- Eids in Hd.
  destruct (matching_cuisine_producer db (c0 :: cs) _ Hd)
    as (p & spec & c & Hp & Hid & Hs & Hc & Hm).
  exists p, spec, c. rewrite (Hclean c Hc) in Hm. auto.
Qed.

(** X14.  [get_popular_dishes]: every returned dish is an available dish of
    the catalog; a limit that is not negative bounds their number; when the
    location filter applies, every returned dish is sold by a producer found
    nearby; and a call without usable coordinates, with a limit of at least
    1 that fits the database driver, returns a dish whenever one is
    available. *)
Theorem popular_dishes_contract (db : Database) (lat lon : option Q) (limit : Z) :
  Forall (fun d => In d (dishes db) /\ Dish.is_available d = true)
         (get_popular_dishes db lat lon limit)
  /\ ((0 <= limit)%Z ->
      (Z.of_nat (length (get_popular_dishes db lat lon limit)) <= limit)%Z)
  /\ (Geo.coord_truthy lat && Geo.coord_truthy lon = true ->
      nearby_producer_ids db lat lon 10%R <> [] ->
      Forall (fun d => In (Dish.producer_id d) (nearby_producer_ids db lat lon 10%R))
             (get_popular_dishes db lat lon limit))
  /\ (Geo.coord_truthy lat && Geo.coord_truthy lon = false ->
      (1 <= limit)%Z -> fits_int64 limit ->
      available_dishes db <> [] ->
      get_popular_dishes db lat lon limit <> []).
Proof.
  unfold get_popular_dishes.
  split; [| split; [| split]].
  - apply Forall_forall. intros d Hd.
    apply fetch_incl, location_stage_incl in Hd.
    now apply available_dishes_spec.
  - apply fetch_length.
  - intros Hc Hne. apply Forall_forall. intros d Hd.
    apply fetch_incl in Hd. unfold location_stage in Hd. rewrite Hc in Hd.
    destruct (nearby_producer_ids db lat lon 10%R) as [| i ids]; [now elim Hne |].
    unfold from_producers in Hd. apply filter_In in Hd.
    now apply id_in_true.
  - intros Hoff Hl _ Hav H.
    unfold location_stage in H. rewrite Hoff in H.
    apply fetch_nil in H; [contradiction | exact Hl].
Qed.

End PoolFacts.

(** X15.  The filling step of the composer never adds a dish: whenever
    fewer than [limit] dishes were selected, every scored candidate is
    selected already. *)
Theorem filling_step_adds_nothing (db : Database) (prefs : list string) (limit : Z)
        (scored : list (Dish.t * Q)) :
  fill limit scored (top_dishes db prefs limit scored)
  = top_dishes db prefs limit scored
  /\ ((Z.of_nat (length (top_dishes db prefs limit scored)) < limit)%Z ->
      forall e, In e scored -> In e (top_dishes db prefs limit scored)).
Proof.
  split; [apply fill_adds_nothing | apply top_dishes_short].
Qed.

Lemma pool_is_capped_witness :
  (Z.of_nat (length (fst (candidate_pool Sample.catalog (Sample.customer None None)
                            None None 2)))
   <= 5 * 2)%Z.
Proof.
  apply (pool_is_capped Sample.catalog (Sample.customer None None) None None 2). lia.
Defined.

(** A customer who prefers South Indian food: the pool holds the dish of
    Priya's Kitchen only. *)
Lemma cuisine_filter_origin_witness :
  fst (candidate_pool Sample.catalog (Sample.customer None (Some "South Indian"))
         None None 2) <> [].
Proof.
  assert (H : cuisine_filter_applied
                (snd (candidate_pool Sample.catalog
                        (Sample.customer None (Some "South Indian")) None None 2))
              = true) by (vm_compute; reflexivity).
  exact (proj1 (cuisine_filter_origin Sample.catalog
                  (Sample.customer None (Some "South Indian")) None None 2 H)).
Defined.

(** ** Ill-formed and ill-typed list columns *)

Section ColumnFacts.
Context {rt : PyRuntime}.



Lemma only_type_error (e : pyerr) : e = TypeError.
Proof. now destruct e. Qed.

Lemma raise_is_type_error {A : Type} (m : res A) :
  (forall a, m <> Ok a) -> m = Raise TypeError.
Proof.
  intros H. destruct m as [a | e]; [now elim (H a) |].
  now rewrite (only_type_error e).
Qed.

(** The scoring loop fails as soon as the score of one dish does. *)
Lemma score_dishes_raises (db : Database) (user : User.t) (cuisine_applied : bool)
      (pool : list Dish.t) (d : Dish.t) :
  In d pool ->
  computed_score db user cuisine_applied d = Raise TypeError ->
  score_dishes db user cuisine_applied pool = Raise TypeError.
Proof.
  intros Hin Hd. apply raise_is_type_error. intros scored H.
  destruct (score_dishes_each db user cuisine_applied pool scored H d Hin)
    as (s & m & Hs).
  rewrite Hs in Hd. discriminate.
Qed.

Lemma allergen_step_raises (v : pyval) (dish : Dish.t) (score : Q) :
  truthy v = true ->
  truthy (Dish.get_allergens_list dish) = true ->
  (forall items, py_iter v <> Ok items) ->
  allergen_step v dish score = Raise TypeError.
Proof.
  intros Hv Hd Hno. unfold allergen_step. rewrite Hv, Hd. simpl.
  rewrite (raise_is_type_error (py_iter v) Hno). reflexivity.
Qed.

(** X17.  A JSON value that is true but cannot be looped over (a number
    other than zero, the constant true) in the allergens of the user makes
    the call fail with a [TypeError] as soon as the pool holds a dish that
    declares allergens. *)
Theorem scalar_allergens_raise (db : Database) (user : User.t)
        (lat lon : option Q) (limit : Z) (d : Dish.t) :
  truthy (User.get_allergens_list user) = true ->
  (forall items, py_iter (User.get_allergens_list user) <> Ok items) ->
  In d (fst (candidate_pool db user lat lon limit)) ->
  truthy (Dish.get_allergens_list d) = true ->
  get_rule_based_recommendations db user lat lon limit = Raise TypeError.
Proof.
  intros Hv Hno Hin Hd.
  unfold get_rule_based_recommendations, ranked, scored_candidates.
  destruct (candidate_pool db user lat lon limit) as [pool f]. simpl in Hin.
  destruct pool as [| x pool]; [destruct Hin |]. simpl is_empty. cbv iota.
  assert (Hc : computed_score db user (cuisine_filter_applied f) d = Raise TypeError).
  { apply raise_is_type_error. intros [s m] H.
    unfold computed_score in H.
    apply bind_ok in H. destruct H as (p & _ & H).
    rewrite (allergen_step_raises _ d (fst p) Hv Hd Hno) in H. discriminate. }
  rewrite (score_dishes_raises db user _ (x :: pool) d Hin Hc). reflexivity.
Qed.

End ColumnFacts.


(** The number 5 stored as the allergens of the customer. *)
Lemma scalar_allergens_raise_witness :
  get_rule_based_recommendations Sample.nut_catalog
    (Sample.customer (Some "5") None) None None 2 = Raise TypeError.
Proof.
  apply (scalar_allergens_raise Sample.nut_catalog (Sample.customer (Some "5") None)
           None None 2 (Sample.dish 1 1 (Some "nuts"))).
  - vm_compute. reflexivity.
  - intros items H. vm_compute in H. discriminate.
  - vm_compute. left. reflexivity.
  - vm_compute. reflexivity.
Defined.

(** ** Sorting rearranges, keys stay distinct *)

Section KeyFacts.
Context {A B : Type}.
Variable key : A -> B.

Lemma insert_by_perm (before : A -> A -> bool) (x : A) (l : list A) :
  Permutation (x :: l) (insert_by before x l).
Proof.
  induction l as [| y l IH]; simpl; [apply Permutation_refl |].
  destruct (before y x); [| apply Permutation_refl].
  eapply Permutation_trans; [apply perm_swap |]. now apply perm_skip.
Qed.

Lemma sort_by_perm (before : A -> A -> bool) (l : list A) :
  Permutation l (sort_by before l).
Proof.
  induction l as [| x l IH]; simpl; [apply perm_nil |].
  eapply Permutation_trans; [apply perm_skip; exact IH | apply insert_by_perm].
Qed.

Lemma distinct_keys_sort (before : A -> A -> bool) (l : list A) :
  NoDup (map key l) -> NoDup (map key (sort_by before l)).
Proof.
  apply Permutation_NoDup, Permutation_map, sort_by_perm.
Qed.

Lemma distinct_keys_filter (f : A -> bool) (l : list A) :
  NoDup (map key l) -> NoDup (map key (filter f l)).
Proof.
  induction l as [| x l IH]; simpl; intros H; [constructor |].
  inversion H as [| ? ? Hx Hl]; subst.
  destruct (f x); simpl; [| now apply IH].
  constructor; [| now apply IH].
  intros Hin. apply Hx.
  apply in_map_iff in Hin. destruct Hin as (y & Hy & Hin).
  apply filter_In in Hin. apply in_map_iff. exists y. tauto.
Qed.

Lemma distinct_keys_firstn (n : nat) (l : list A) :
  NoDup (map key l) -> NoDup (map key (firstn n l)).
Proof.
  intros H. rewrite <- (firstn_skipn n l), map_app in H.
  now apply NoDup_app_remove_r in H.
Qed.

Lemma distinct_keys_py_take (n : Z) (l : list A) :
  NoDup (map key l) -> NoDup (map key (py_take n l)).
Proof.
  destruct (py_take_prefix n l) as (k & ->). apply distinct_keys_firstn.
Qed.

Lemma distinct_keys_sql_limit (n : Z) (l : list A) :
  NoDup (map key l) -> NoDup (map key (sql_limit n l)).
Proof.
  destruct (sql_limit_prefix n l) as (k & ->). apply distinct_keys_firstn.
Qed.

(** Among rows with distinct keys, a key names one row. *)
Lemma distinct_keys_inj (l : list A) (a b : A) :
  NoDup (map key l) -> In a l -> In b l -> key a = key b -> a = b.
Proof.
  induction l as [| x l IH]; simpl; intros H Ha Hb E; [destruct Ha |].
  inversion H as [| ? ? Hx Hl]; subst.
  destruct Ha as [-> | Ha], Hb as [-> | Hb].
  - reflexivity.
  - exfalso. apply Hx. rewrite E. now apply in_map.
  - exfalso. apply Hx. rewrite <- E. now apply in_map.
  - now apply IH.
Qed.

End KeyFacts.

Section RankingFacts.
Context {rt : PyRuntime}.

Lemma distinct_ids_pool (db : Database) (user : User.t) (lat lon : option Q)
      (limit : Z) :
  NoDup (map Dish.id (dishes db)) ->
  NoDup (map Dish.id (fst (candidate_pool db user lat lon limit))).
Proof.
  intros H.
  destruct (candidate_pool_shape db (fun l => NoDup (map Dish.id l))
              (distinct_keys_filter Dish.id _ _ H)
              (fun f l => distinct_keys_filter Dish.id f l)
              user lat lon limit) as (q & -> & Hq).
  unfold fetch. now apply distinct_keys_sql_limit, distinct_keys_sort.
Qed.

Lemma distinct_ids_scored (db : Database) (user : User.t) (cuisine_applied : bool)
      (pool : list Dish.t) :
  NoDup (map Dish.id pool) ->
  forall scored,
    score_dishes db user cuisine_applied pool = Ok scored ->
    NoDup (map (fun e => Dish.id (fst e)) scored).
Proof.
  induction pool as [| dish pool IH]; intros Hnd scored H; simpl in H.
  - injection H as <-. constructor.
  - inversion Hnd as [| ? ? Hx Hl]; subst.
    apply bind_ok in H. destruct H as ([s m] & Hc & H).
    apply bind_ok in H. destruct H as (rest & Hrest & H).
    injection H as <-. simpl.
    pose proof (IH Hl rest Hrest) as Hr.
    destruct (scored_entry dish s m) as [e |] eqn:Ee; [| exact Hr].
    simpl. rewrite (scored_entry_dish _ _ _ _ Ee).
    constructor; [| exact Hr].
    intros Hin. apply Hx.
    apply in_map_iff in Hin. destruct Hin as (e' & He' & Hin).
    apply (score_dishes_in db user cuisine_applied pool rest Hrest) in Hin.
    destruct Hin as (d' & s' & m' & Hd' & _ & Hent).
    apply scored_entry_dish in Hent. rewrite Hent in He'. rewrite <- He'.
    now apply in_map.
Qed.

Lemma distinct_ids_top (db : Database) (prefs : list string) (limit : Z)
      (scored : list (Dish.t * Q)) :
  NoDup (map (fun e => Dish.id (fst e)) scored) ->
  NoDup (map (fun e => Dish.id (fst e)) (top_dishes db prefs limit scored)).
Proof.
  intros H. destruct prefs as [| c cs] eqn:Ep.
  - simpl. now apply distinct_keys_py_take.
  - rewrite <- Ep.
    assert (Hne : prefs <> []) by (rewrite Ep; discriminate).
    destruct (top_dishes_split db prefs limit scored Hne) as (others & -> & Ho).
    assert (Hm : NoDup (map (fun e => Dish.id (fst e))
                          (py_take limit (cuisine_matched_list db prefs scored)))).
    { unfold cuisine_matched_list.
      now apply distinct_keys_py_take, distinct_keys_sort, distinct_keys_filter. }
    destruct Ho as [-> | [-> _]]; [now rewrite app_nil_r |].
    rewrite map_app. apply NoDup_app; [exact Hm | |].
    + unfold other_dishes_list.
      now apply distinct_keys_py_take, distinct_keys_sort, distinct_keys_filter.
    + intros i H1 H2.
      apply in_map_iff in H1. destruct H1 as (e1 & E1 & H1).
      apply in_map_iff in H2. destruct H2 as (e2 & E2 & H2).
      apply py_take_in, cuisine_matched_list_in in H1.
      apply py_take_in, other_dishes_list_in in H2.
      destruct H1 as [H1 M1], H2 as [H2 M2].
      assert (E : e1 = e2).
      { apply (distinct_keys_inj (fun e => Dish.id (fst e)) scored); auto.
        now rewrite E1, E2. }
      subst e2. rewrite M1 in M2. discriminate.
Qed.

(** X19.  No dish is recommended twice: when the dishes of the catalog have
    distinct ids, so have the dishes a call returns. *)
Theorem no_dish_twice (db : Database) (user : User.t) (lat lon : option Q)
        (limit : Z) (result : list Dish.t) :
  NoDup (map Dish.id (dishes db)) ->
  get_rule_based_recommendations db user lat lon limit = Ok result ->
  NoDup (map Dish.id result).
Proof.
  intros Hnd H.
  destruct (recommendations_cases db user lat lon limit result H)
    as (scored & Hscored & -> & _).
  rewrite map_map.
  apply distinct_ids_top, distinct_keys_sort.
  unfold scored_candidates in Hscored.
  pose proof (distinct_ids_pool db user lat lon limit Hnd) as Hpool.
  destruct (candidate_pool db user lat lon limit) as [pool f]. simpl in Hpool.
  exact (distinct_ids_scored db user _ pool Hpool scored Hscored).
Qed.

(** X20.  Without preferred cuisines the call returns the best-scored
    candidates: the scored candidates, rearranged in descending order of
    score, split into the returned dishes and the rest, and for a limit
    that is not negative the returned dishes are [limit] many, or all the
    candidates when there are fewer. *)
Theorem best_scores_without_preference (db : Database) (user : User.t)
        (lat lon : option Q) (limit : Z) (result : list Dish.t) :
  User.get_preferred_cuisines_list user = [] ->
  get_rule_based_recommendations db user lat lon limit = Ok result ->
  exists scored top rest,
    scored_candidates db user lat lon limit = Ok scored
    /\ result = map fst top
    /\ Permutation scored (top ++ rest)
    /\ by_score_desc (top ++ rest)
    /\ ((0 <= limit)%Z ->
        length top = Nat.min (Z.to_nat limit) (length scored)).
Proof.
  intros Hp H.
  destruct (recommendations_cases db user lat lon limit result H)
    as (scored & Hscored & -> & _).
  rewrite Hp. simpl top_dishes.
  set (S := sort_by score_before scored).
  assert (Hk : exists k, py_take limit S = firstn k S
                         /\ ((0 <= limit)%Z -> k = Z.to_nat limit)).
  { unfold py_take. destruct (limit <? 0)%Z eqn:E.
    - eexists. split; [reflexivity |]. apply Z.ltb_lt in E. lia.
    - eexists. split; [reflexivity | reflexivity]. }
  destruct Hk as (k & Hk & Hlim).
  exists scored, (firstn k S), (skipn k S).
  split; [exact Hscored |].
  split; [now rewrite Hk |].
  rewrite firstn_skipn.
  split; [apply sort_by_perm |].
  split; [apply score_sort_sorted |].
  intros Hl. rewrite length_firstn, (Hlim Hl). unfold S.
  now rewrite sort_by_length.
Qed.

End RankingFacts.

Lemma no_dish_twice_witness :
  NoDup (map Dish.id [Sample.dish 1 1 None; Sample.dish 2 2 None]).
Proof.
  assert (Hnd : NoDup (map Dish.id (dishes Sample.catalog))).
  { simpl. repeat constructor; simpl; intuition discriminate. }
  assert (H : get_rule_based_recommendations Sample.catalog (Sample.customer None None)
                None None 2
              = Ok [Sample.dish 1 1 None; Sample.dish 2 2 None])
    by (vm_compute; reflexivity).
  exact (no_dish_twice Sample.catalog (Sample.customer None None) None None 2 _ Hnd H).
Defined.

Lemma best_scores_without_preference_witness :
  exists scored top rest,
    scored_candidates Sample.catalog (Sample.customer None None) None None 2 = Ok scored
    /\ [Sample.dish 1 1 None; Sample.dish 2 2 None] = map fst top
    /\ Permutation scored (top ++ rest)
    /\ by_score_desc (top ++ rest)
    /\ ((0 <= 2)%Z -> length top = Nat.min (Z.to_nat 2) (length scored)).
Proof.
  apply (best_scores_without_preference Sample.catalog (Sample.customer None None)
           None None 2);
    vm_compute; reflexivity.
Defined.

(** ** The order of a limited query *)

Section OrderFacts.

Lemma key_order_lt_eq {A : Type} (cmp : A -> A -> comparison) :
  key_order cmp ->
  forall x y z, cmp x y = Lt -> cmp y z = Eq -> cmp x z = Lt.
Proof.
  intros (Hanti & Heq & _) x y z Hxy Hyz.
  pose proof (Heq y z x Hyz) as H.
  rewrite (Hanti x y), Hxy in H. simpl in H.
  rewrite (Hanti z x), <- H. reflexivity.
Qed.

Lemma key_order_on {A B : Type} (f : B -> A) (cmp : A -> A -> comparison) :
  key_order cmp -> key_order (fun x y => cmp (f x) (f y)).
Proof.
  intros (Hanti & Heq & Hlt). repeat split; intros.
  - apply Hanti.
  - now apply Heq.
  - eapply Hlt; eassumption.
Qed.

Lemma key_order_lex {A : Type} (c1 c2 : A -> A -> comparison) :
  key_order c1 -> key_order c2 -> key_order (fun x y => lex (c1 x y) (c2 x y)).
Proof.
  intros H1 H2.
  pose proof (key_order_lt_eq c1 H1) as Hle1.
  destruct H1 as (Hanti1 & Heq1 & Hlt1), H2 as (Hanti2 & Heq2 & Hlt2).
  repeat split.
  - intros x y. rewrite (Hanti1 x y), (Hanti2 x y).
    now destruct (c1 x y).
  - intros x y z H. unfold lex in H.
    destruct (c1 x y) eqn:E1; try discriminate.
    now rewrite (Heq1 x y z E1), (Heq2 x y z H).
  - intros x y z Hxy Hyz. unfold lex in Hxy, Hyz.
    destruct (c1 x y) eqn:Exy; try discriminate;
      destruct (c1 y z) eqn:Eyz; try discriminate.
    + rewrite (Heq1 x y z Exy), Eyz. simpl. eapply Hlt2; eassumption.
    + now rewrite (Heq1 x y z Exy), Eyz.
    + now rewrite (Hle1 x y z Exy Eyz).
    + now rewrite (Hlt1 x y z Exy Eyz).
Qed.

Lemma key_order_desc {A : Type} (cmp : A -> A -> comparison) :
  key_order cmp -> key_order (desc_cmp cmp).
Proof.
  intros (Hanti & Heq & Hlt). repeat split.
  - intros [x |] [y |]; simpl; try reflexivity. apply Hanti.
  - intros [x |] [y |] [z |]; simpl; intros H; try discriminate; try reflexivity.
    rewrite (Hanti x z), (Hanti y z). f_equal. symmetry. now apply Heq.
  - intros [x |] [y |] [z |]; simpl; intros Hxy Hyz; try discriminate;
      try reflexivity.
    eapply Hlt; eassumption.
Qed.

Lemma key_order_Z : key_order Z.compare.
Proof.
  repeat split.
  - intros x y. apply Z.compare_antisym.
  - intros x y z H. apply Z.compare_eq in H. now subst.
  - intros x y z Hxy Hyz.
    change (x < y)%Z in Hxy. change (y < z)%Z in Hyz. change (x < z)%Z. lia.
Qed.

Lemma key_order_Q : key_order Qcompare.
Proof.
  repeat split.
  - intros x y. symmetry. apply Qcompare_antisym.
  - intros x y z H. apply Qeq_alt in H. now rewrite H.
  - intros x y z Hxy Hyz. apply Qlt_alt in Hxy, Hyz.
    apply Qlt_alt. eapply Qlt_trans; eassumption.
Qed.

Lemma key_order_popularity : key_order popularity_cmp.
Proof.
  unfold popularity_cmp.
  apply (key_order_lex
           (fun y x => desc_cmp Qcompare (Dish.average_rating y) (Dish.average_rating x))
           (fun y x => lex (desc_cmp Z.compare (Dish.order_count y) (Dish.order_count x))
                           (desc_cmp Z.compare (Dish.view_count y) (Dish.view_count x)))).
  - apply (key_order_on Dish.average_rating), key_order_desc, key_order_Q.
  - apply (key_order_lex
             (fun y x => desc_cmp Z.compare (Dish.order_count y) (Dish.order_count x))
             (fun y x => desc_cmp Z.compare (Dish.view_count y) (Dish.view_count x))).
    + apply (key_order_on Dish.order_count), key_order_desc, key_order_Z.
    + apply (key_order_on Dish.view_count), key_order_desc, key_order_Z.
Qed.

(** Sorting by the strict part of a key order leaves no row after a row
    that goes strictly after it. *)
Lemma sort_by_key_order {A : Type} (cmp : A -> A -> comparison) (l : list A) :
  key_order cmp ->
  StronglySorted (fun x y => cmp x y <> Gt)
    (sort_by (fun y x => match cmp y x with Lt => true | _ => false end) l).
Proof.
  intros Hk. pose proof (key_order_lt_eq cmp Hk) as Hle.
  destruct Hk as (Hanti & Heq & Hlt).
  apply sort_by_sorted.
  - intros x y H. destruct (cmp y x); discriminate.
  - intros x y H. rewrite (Hanti y x). destruct (cmp y x); simpl; discriminate.
  - intros x y z Hxy Hyz.
    destruct (cmp x y) eqn:Exy; [| | now elim Hxy];
      destruct (cmp y z) eqn:Eyz; try (now elim Hyz).
    + rewrite (Heq x y z Exy), Eyz. discriminate.
    + rewrite (Heq x y z Exy), Eyz. discriminate.
    + rewrite (Hle x y z Exy Eyz). discriminate.
    + rewrite (Hlt x y z Exy Eyz). discriminate.
Qed.

Lemma sorted_weaken {A : Type} (R R' : A -> A -> Prop) (l : list A) :
  (forall x y, R x y -> R' x y) -> StronglySorted R l -> StronglySorted R' l.
Proof.
  intros Himp. induction 1 as [| x l Hs IH Hall]; constructor; [exact IH |].
  eapply Forall_impl; [| exact Hall]. intros y. apply Himp.
Qed.

Lemma fetch_sorted (n : Z) (q : list Dish.t) :
  StronglySorted (fun x y => popularity_cmp x y <> Gt) (fetch n q).
Proof.
  unfold fetch. destruct (sql_limit_prefix n (sort_by popularity_before q)) as (k & ->).
  apply firstn_sorted.
  exact (sort_by_key_order popularity_cmp q key_order_popularity).
Qed.

Lemma views_order_of_cmp (x y : Dish.t) :
  desc_cmp Z.compare (Dish.view_count x) (Dish.view_count y) <> Gt ->
  views_in_order x y.
Proof.
  unfold views_in_order, desc_cmp.
  destruct (Dish.view_count x) as [v |], (Dish.view_count y) as [w |];
    try (intros; exact I).
  intros H. apply Z.compare_le_iff. exact H.
Qed.

Lemma counts_order_of_cmp (x y : Dish.t) :
  lex (desc_cmp Z.compare (Dish.order_count x) (Dish.order_count y))
      (desc_cmp Z.compare (Dish.view_count x) (Dish.view_count y)) <> Gt ->
  counts_in_order x y.
Proof.
  unfold counts_in_order, lex, desc_cmp at 1.
  destruct (Dish.order_count x) as [m |], (Dish.order_count y) as [n |];
    try (intros; exact I).
  destruct (Z.compare n m) eqn:E; intros H.
  - right. apply Z.compare_eq in E. split; [now symmetry |].
    now apply views_order_of_cmp.
  - left. exact E.
  - now elim H.
Qed.

Lemma listed_order_of_cmp (x y : Dish.t) :
  popularity_cmp x y <> Gt -> listed_in_order x y.
Proof.
  unfold popularity_cmp, listed_in_order. unfold lex at 1, desc_cmp at 1.
  destruct (Dish.average_rating x) as [a |], (Dish.average_rating y) as [b |].
  - destruct (Qcompare b a) eqn:E; intros H.
    + right. apply Qeq_alt in E. split; [now symmetry |].
      now apply counts_order_of_cmp.
    + left. now apply Qlt_alt.
    + now elim H.
  - intros _. exact I.
  - intros H. now elim H.
  - apply counts_order_of_cmp.
Qed.

End OrderFacts.

(** X21.  The popular dishes come in the order of the query: rated dishes
    before unrated ones and the higher rating first, then the higher order
    count, then the higher view count. *)
Theorem popular_dishes_by_rating (db : Database) (lat lon : option Q) (limit : Z) :
  StronglySorted listed_in_order (get_popular_dishes db lat lon limit).
Proof.
  unfold get_popular_dishes.
  eapply sorted_weaken; [apply listed_order_of_cmp | apply fetch_sorted].
Qed.

(** ** The dietary preference as a hard filter *)

Section DietaryFacts.
Context {rt : PyRuntime}.
Variable db : Database.
Variable user : User.t.
Variable pref : string.
Hypothesis Hpref : User.dietary_preferences user = Some pref.
Hypothesis Hset : PyStr.nonempty pref = true.

Lemma with_dietary_type_typed (v : string) (q : list Dish.t) (d : Dish.t) :
  In d (with_dietary_type v q) -> Dish.dietary_type d = Some v.
Proof.
  unfold with_dietary_type, column_is. intros H.
  apply filter_In in H. destruct H as [_ H].
  destruct (Dish.dietary_type d) as [t |]; [| discriminate].
  apply String.eqb_eq in H. now subst.
Qed.

(** With a dietary preference the stage filters by it, and by nothing else
    unless it reports the spice filter. *)
Lemma dietary_stage_shape (q : list Dish.t) :
  exists q' spice,
    dietary_spice_stage user q = (q', true, spice)
    /\ incl q' (with_dietary_type (PyStr.lower pref) q)
    /\ (spice = false -> q' = with_dietary_type (PyStr.lower pref) q).
Proof.
  unfold dietary_spice_stage. rewrite Hpref, Hset.
  destruct (User.spice_level user) as [sp |]; [destruct (PyStr.nonempty sp) |].
  - eexists _, true. split; [reflexivity |].
    split; [apply incl_filter | discriminate].
  - eexists _, false. split; [reflexivity |]. split; [apply incl_refl | reflexivity].
  - eexists _, false. split; [reflexivity |]. split; [apply incl_refl | reflexivity].
Qed.

Lemma dietary_pool (limit : Z) (st : list Dish.t * Filters) :
  (1 <= limit)%Z ->
  with_dietary_type (PyStr.lower pref) (available_dishes db) <> [] ->
  (exists q' spice,
      st = (fetch (limit * 5) q',
            {| cuisine_filter_applied := false;
               dietary_filter_applied := true;
               spice_filter_applied := spice |})
      /\ incl q' (with_dietary_type (PyStr.lower pref) (available_dishes db))
      /\ (spice = false ->
          q' = with_dietary_type (PyStr.lower pref) (available_dishes db))) ->
  forall d,
    In d (fst (fallback_level4 db limit
                 (fallback_level3 db limit
                    (fallback_level2 db user limit st)))) ->
    Dish.dietary_type d = Some (PyStr.lower pref).
Proof.
  intros Hl Hsome (q' & spice & -> & Hincl & Hexact).
  assert (Hfull : fetch (limit * 5)
                    (with_dietary_type (PyStr.lower pref) (available_dishes db)) <> []).
  { intros E. apply fetch_nil in E; [contradiction | lia]. }
  assert (Hkeep : forall found f,
             found <> [] ->
             fallback_level4 db limit (fallback_level3 db limit (found, f)) = (found, f)).
  { intros found f Hne. unfold fallback_level3, fallback_level4.
    destruct found; [now elim Hne | reflexivity]. }
  unfold fallback_level2.
  cbn [spice_filter_applied dietary_filter_applied cuisine_filter_applied].
  destruct (is_empty (fetch (limit * 5) q')) eqn:Ee.
  - destruct spice; cbn [andb].
    + rewrite Hpref, Hset. cbn [andb]. rewrite (Hkeep _ _ Hfull). cbn [fst].
      intros d Hd. apply fetch_incl in Hd. now apply with_dietary_type_typed in Hd.
    + rewrite (Hexact eq_refl) in Ee.
      destruct (fetch (limit * 5)
                  (with_dietary_type (PyStr.lower pref) (available_dishes db)));
        [now elim Hfull | discriminate].
  - cbn [andb]. rewrite Hkeep by (intros E; rewrite E in Ee; discriminate). cbn [fst].
    intros d Hd. apply fetch_incl, Hincl in Hd.
    now apply with_dietary_type_typed in Hd.
Qed.

(** X22.  A dietary preference is a hard filter: for a limit of at least 1
    and a call whose location plays no part, when some available dish has
    the preferred dietary type and the call does not end with the cuisine
    filter applied, every dish of the pool has that dietary type. *)
Theorem dietary_preference_is_kept (lat lon : option Q) (limit : Z) :
  (1 <= limit)%Z ->
  Geo.coord_truthy lat && Geo.coord_truthy lon = false
  \/ nearby_producer_ids db lat lon 20%R = [] ->
  (exists d, In d (available_dishes db)
             /\ Dish.dietary_type d = Some (PyStr.lower pref)) ->
  cuisine_filter_applied (snd (candidate_pool db user lat lon limit)) = false ->
  Forall (fun d => Dish.dietary_type d = Some (PyStr.lower pref))
         (fst (candidate_pool db user lat lon limit)).
Proof.
  intros Hl Hloc (d0 & Hd0 & Ht0) Hflag. apply Forall_forall.
  assert (Hsome : with_dietary_type (PyStr.lower pref) (available_dishes db) <> []).
  { intros E.
    assert (Hin : In d0 (with_dietary_type (PyStr.lower pref) (available_dishes db))).
    { unfold with_dietary_type. apply filter_In. split; [exact Hd0 |].
      unfold column_is. rewrite Ht0. apply String.eqb_refl. }
    rewrite E in Hin. destruct Hin. }
  assert (Eloc : location_stage db lat lon 20%R (available_dishes db)
                 = available_dishes db).
  { unfold location_stage. destruct Hloc as [-> | ->]; [reflexivity |].
    now destruct (Geo.coord_truthy lat && Geo.coord_truthy lon). }
  destruct (dietary_stage_shape (available_dishes db))
    as (q' & spice & Eds & Hincl & Hexact).
  unfold candidate_pool in *. unfold strict_query in *.
  rewrite Eloc, Eds in *.
  destruct (User.get_preferred_cuisines_list user) as [| c cs].
  - (* no preferred cuisine *)
    destruct (is_empty (fetch (limit * 5) q')) eqn:Ee.
    + unfold fallback_level1. simpl cuisine_filter_applied. cbv iota.
      apply (dietary_pool limit _ Hl Hsome). now exists q', spice.
    + simpl. intros d Hd. apply fetch_incl, Hincl in Hd.
      now apply with_dietary_type_typed in Hd.
  - destruct (matching_cuisine_producer_ids db (c :: cs)) as [| i ids].
    + destruct (is_empty (fetch (limit * 5) q')) eqn:Ee.
      * unfold fallback_level1. simpl cuisine_filter_applied. cbv iota.
        apply (dietary_pool limit _ Hl Hsome). now exists q', spice.
      * simpl. intros d Hd. apply fetch_incl, Hincl in Hd.
        now apply with_dietary_type_typed in Hd.
    + destruct (is_empty (fetch (limit * 5)
                            (from_producers (i :: ids) (available_dishes db)))) eqn:Ee.
      * unfold fallback_level1. simpl cuisine_filter_applied. cbv iota.
        rewrite Eds.
        apply (dietary_pool limit _ Hl Hsome). exists q', spice.
        split; [| split; assumption].
        simpl. now destruct spice.
      * simpl in Hflag. discriminate.
Qed.

End DietaryFacts.

(** A vegetarian who likes hot food, and a catalog whose only vegetarian
    dish is mild: the spice filter is dropped, the dietary filter is kept. *)
Lemma dietary_preference_is_kept_witness :
  Forall (fun d => Dish.dietary_type d = Some "veg")
         (fst (candidate_pool Sample.veg_catalog Sample.vegetarian None None 2)).
Proof.
  apply (dietary_preference_is_kept Sample.veg_catalog Sample.vegetarian "Veg"
           eq_refl eq_refl None None 2).
  - lia.
  - left. reflexivity.
  - exists (Sample.veg_dish 2 2). split; [vm_compute; auto | reflexivity].
  - vm_compute. reflexivity.
Defined.

(** ** Cuisine-matched dishes first *)

Section CuisineFirst.
Context {rt : PyRuntime}.

(** The composer's test says that the vendor matches a preferred cuisine. *)
Lemma partition_test_iff (db : Database) (user : User.t) (dish : Dish.t) :
  is_cuisine_match db (User.get_preferred_cuisines_list user) dish = true
  <-> vendor_matches db (User.get_preferred_cuisines_list user) dish.
Proof.
  rewrite <- (cuisine_flag_is_partition_test db user dish 0).
  apply cuisine_flag_iff.
Qed.

Lemma filter_split_perm {A : Type} (f : A -> bool) (l : list A) :
  Permutation l (filter f l ++ filter (fun x => negb (f x)) l).
Proof.
  induction l as [| x l IH]; simpl; [apply perm_nil |].
  destruct (f x); simpl.
  - now apply perm_skip.
  - eapply Permutation_trans; [apply perm_skip; exact IH |].
    apply Permutation_middle.
Qed.

(** A slice is the prefix of its own length. *)
Lemma py_take_own_length {A : Type} (n : Z) (l : list A) :
  py_take n l = firstn (length (py_take n l)) l.
Proof.
  destruct (py_take_prefix n l) as (k & ->).
  rewrite length_firstn.
  destruct (Nat.le_ge_cases k (length l)) as [H | H].
  - now rewrite Nat.min_l.
  - rewrite Nat.min_r by exact H. now rewrite !firstn_all2 by lia.
Qed.

(** C5.  With a non-empty preference list, the scored candidates split into
    those whose vendor has a specialty matching a preferred cuisine and the
    others, each part in descending order of score; the call returns a
    prefix of the first part followed by a prefix of the second; a dish of
    the second part is returned only when the whole first part is, and for
    a limit that is not negative the first part is taken up to [limit]. *)
Theorem cuisine_matched_first (db : Database) (user : User.t) (lat lon : option Q)
        (limit : Z) (result : list Dish.t) :
  User.get_preferred_cuisines_list user <> [] ->
  get_rule_based_recommendations db user lat lon limit = Ok result ->
  exists scored matched rest_matched others rest_others,
    scored_candidates db user lat lon limit = Ok scored
    /\ result = map fst (matched ++ others)
    /\ Permutation scored ((matched ++ rest_matched) ++ (others ++ rest_others))
    /\ Forall (fun e => vendor_matches db (User.get_preferred_cuisines_list user)
                          (fst e)) (matched ++ rest_matched)
    /\ Forall (fun e => ~ vendor_matches db (User.get_preferred_cuisines_list user)
                            (fst e)) (others ++ rest_others)
    /\ by_score_desc (matched ++ rest_matched)
    /\ by_score_desc (others ++ rest_others)
    /\ (others <> [] -> rest_matched = [])
    /\ ((0 <= limit)%Z ->
        length matched = Nat.min (Z.to_nat limit) (length (matched ++ rest_matched))).
Proof.
  intros Hne H.
  destruct (recommendations_cases db user lat lon limit result H)
    as (scored & Hscored & -> & _).
  set (prefs := User.get_preferred_cuisines_list user) in *.
  set (S := sort_by score_before scored).
  set (M := cuisine_matched_list db prefs S).
  set (O := other_dishes_list db prefs S).
  destruct (top_dishes_split db prefs limit S Hne) as (others & Htop & Hothers).
  fold M O in Htop, Hothers.
  set (matched := py_take limit M) in *.
  assert (Hm : matched ++ skipn (length matched) M = M).
  { unfold matched at 1. rewrite py_take_own_length. apply firstn_skipn. }
  assert (Ho : exists rest_others, others ++ rest_others = O).
  { destruct Hothers as [-> | [-> _]]; [now exists O |].
    eexists. rewrite py_take_own_length. apply firstn_skipn. }
  destruct Ho as (rest_others & Ho).
  exists scored, matched, (skipn (length matched) M), others, rest_others.
  rewrite Hm, Ho.
  split; [exact Hscored |].
  split; [now rewrite Htop |].
  split.
  { eapply Permutation_trans; [apply (sort_by_perm score_before) |]. fold S.
    eapply Permutation_trans;
      [apply (filter_split_perm (fun e : Dish.t * Q => is_cuisine_match db prefs (fst e))) |].
    apply Permutation_app; apply sort_by_perm. }
  split.
  { apply Forall_forall. intros e He. apply cuisine_matched_list_in in He.
    apply partition_test_iff. tauto. }
  split.
  { apply Forall_forall. intros e He Hv. apply other_dishes_list_in in He.
    apply partition_test_iff in Hv. fold prefs in Hv.
    destruct He as [_ He]. rewrite Hv in He. discriminate. }
  split; [apply score_sort_sorted |].
  split; [apply score_sort_sorted |].
  split.
  - intros Hsome. destruct Hothers as [-> | [_ Hlen]]; [now elim Hsome |].
    fold matched in Hlen. unfold matched in *.
    rewrite (py_take_short _ _ Hlen). apply skipn_all.
  - intros Hl. unfold matched, py_take.
    destruct (limit <? 0)%Z eqn:E; [apply Z.ltb_lt in E; lia |].
    apply length_firstn.
Qed.

End CuisineFirst.

(** A customer who prefers South Indian food while the South Indian kitchen
    awaits approval: no cuisine filter applies, the dish of the South Indian
    kitchen comes first and the other two follow. *)
Lemma cuisine_matched_first_witness :
  vendor_matches Sample.catalog_pending ["South Indian"] (Sample.dish 2 2 None)
  /\ exists matched others : list (Dish.t * Q),
       [Sample.dish 2 2 None; Sample.dish 3 3 None; Sample.dish 1 1 None]
       = map fst (matched ++ others)
       /\ In (Sample.dish 2 2 None) (map fst matched)
       /\ Forall (fun e => ~ vendor_matches Sample.catalog_pending ["South Indian"]
                               (fst e)) others.
Proof.
  assert (Hv : vendor_matches Sample.catalog_pending ["South Indian"]
                 (Sample.dish 2 2 None)).
  { eexists _, "South Indian", "South Indian".
    split; [reflexivity |]. split; [reflexivity |].
    split; [now left | reflexivity]. }
  split; [exact Hv |].
  assert (Hne : User.get_preferred_cuisines_list
                  (Sample.customer None (Some "South Indian")) <> [])
    by (vm_compute; discriminate).
  assert (H : get_rule_based_recommendations Sample.catalog_pending
                (Sample.customer None (Some "South Indian")) None None 10
              = Ok [Sample.dish 2 2 None; Sample.dish 3 3 None; Sample.dish 1 1 None])
    by (vm_compute; reflexivity).
  destruct (cuisine_matched_first Sample.catalog_pending
              (Sample.customer None (Some "South Indian")) None None 10
              [Sample.dish 2 2 None; Sample.dish 3 3 None; Sample.dish 1 1 None] Hne H)
    as (scored & matched & rm & others & ro & _ & Hres & _ & _ & Ho & _).
  change (User.get_preferred_cuisines_list (Sample.customer None (Some "South Indian")))
    with ["South Indian"] in Ho.
  apply Forall_app in Ho. destruct Ho as [Ho _].
  exists matched, others. split; [exact Hres |]. split; [| exact Ho].
  assert (Hin : In (Sample.dish 2 2 None) (map fst (matched ++ others)))
    by (rewrite <- Hres; now left).
  rewrite map_app in Hin. apply in_app_or in Hin. destruct Hin as [Hin | Hin];
    [exact Hin |].
  apply in_map_iff in Hin. destruct Hin as (e & He & Hin).
  rewrite Forall_forall in Ho. specialize (Ho e Hin). rewrite He in Ho.
  now elim Ho.
Defined.

(** ** Cuisine text that is not JSON *)

Lemma string_app_assoc (a b c : string) : ((a ++ b) ++ c = a ++ (b ++ c))%string.
Proof.
  induction a as [| x a IH]; simpl; [reflexivity | now rewrite IH].
Qed.

Lemma has_char_app (c : ascii) (a b : string) :
  has_char c (a ++ b) <-> has_char c a \/ has_char c b.
Proof.
  induction a as [| x a IH]; simpl; [tauto | rewrite IH; tauto].
Qed.

Lemma rev_string_app (s acc : string) :
  PyStr.rev_string acc s = (PyStr.rev_string "" s ++ acc)%string.
Proof.
  revert acc. induction s as [| c s IH]; intros acc; simpl; [reflexivity |].
  rewrite (IH (String c acc)), (IH (String c "")).
  now rewrite string_app_assoc.
Qed.

Lemma join_commas_cons (f : string) (fields : list string) :
  fields <> [] ->
  join_commas (f :: fields) = (f ++ "," ++ join_commas fields)%string.
Proof.
  destruct fields as [| g fields]; [intros H; now elim H | reflexivity].
Qed.

(** [split(',')] cuts the text at its commas and nowhere else. *)
Lemma split_on_aux_fields (s cur : string) :
  comma_free (PyStr.rev_string "" cur) ->
  PyStr.split_on_aux "," cur s <> []
  /\ join_commas (PyStr.split_on_aux "," cur s) = (PyStr.rev_string "" cur ++ s)%string
  /\ Forall comma_free (PyStr.split_on_aux "," cur s).
Proof.
  revert cur. induction s as [| c s IH]; intros cur Hcur; simpl.
  - split; [discriminate |]. split; [now rewrite append_empty_r |].
    constructor; [exact Hcur | constructor].
  - destruct (Ascii.eqb c ",") eqn:E.
    + apply Ascii.eqb_eq in E. subst c.
      destruct (IH "") as (Hne & Hjoin & Hall); [intros [] |].
      split; [discriminate |].
      split; [| constructor; assumption].
      rewrite (join_commas_cons _ _ Hne), Hjoin. reflexivity.
    + apply Ascii.eqb_neq in E.
      assert (Hrev : PyStr.rev_string "" (String c cur)
                     = (PyStr.rev_string "" cur ++ String c "")%string)
        by (simpl; apply rev_string_app).
      destruct (IH (String c cur)) as (Hne & Hjoin & Hall).
      { rewrite Hrev. intros H. apply has_char_app in H.
        destruct H as [H | [H | []]]; [now apply Hcur | now apply E]. }
      split; [exact Hne |]. split; [| exact Hall].
      rewrite Hjoin, Hrev. now rewrite string_app_assoc.
Qed.

Lemma split_on_fields (s : string) :
  PyStr.split_on "," s <> []
  /\ join_commas (PyStr.split_on "," s) = s
  /\ Forall comma_free (PyStr.split_on "," s).
Proof.
  unfold PyStr.split_on. apply (split_on_aux_fields s ""). intros [].
Qed.

(** [lstrip] removes the white space a text starts with. *)
Lemma lstrip_spec (f : string) :
  exists l, f = (l ++ PyStr.lstrip f)%string /\ blank l.
Proof.
  induction f as [| c f (l & Hl & Hb)]; simpl.
  - exists "". split; [reflexivity | intros c []].
  - destruct (PyStr.is_space c) eqn:E.
    + exists (String c l). split; [simpl; now rewrite <- Hl |].
      intros x [-> | Hx]; [exact E | now apply Hb].
    + exists "". split; [reflexivity | intros x []].
Qed.

(** [rstrip] removes the white space a text ends with. *)
Lemma rstrip_spec (g : string) :
  exists r, g = (PyStr.rstrip g ++ r)%string /\ blank r /\ clean_tail (PyStr.rstrip g).
Proof.
  induction g as [| c g (r & Hr & Hb & Ht)]; simpl.
  - exists "". split; [reflexivity |]. split; [intros c [] |].
    intros p c H. destruct p; discriminate.
  - destruct (PyStr.rstrip g) as [| d t] eqn:Eg.
    + simpl in Hr. subst r.
      destruct (PyStr.is_space c) eqn:E.
      * exists (String c g). split; [reflexivity |].
        split; [intros x [-> | Hx]; [exact E | now apply Hb] |].
        intros p x H. destruct p; discriminate.
      * exists g. split; [reflexivity |]. split; [exact Hb |].
        intros p x H. destruct p as [| y p]; simpl in H.
        -- now injection H as <-.
        -- injection H as _ H. destruct p; discriminate.
    + exists r. split; [simpl; now rewrite Hr |]. split; [exact Hb |].
      intros p x H. destruct p as [| y p]; simpl in H; [discriminate |].
      injection H as _ H. exact (Ht p x H).
Qed.

Lemma strip_spec (f : string) : trimmed_to f (PyStr.strip f).
Proof.
  unfold PyStr.strip.
  destruct (lstrip_spec f) as (l & Hl & Hbl).
  destruct (rstrip_spec (PyStr.lstrip f)) as (r & Hr & Hbr & Ht).
  exists l, r. split; [now rewrite <- Hr |].
  split; [exact Hbl |]. split; [exact Hbr |].
  split; [apply rstrip_clean_head, lstrip_clean_head | exact Ht].
Qed.

Lemma lstrip_blank (f : string) : blank f -> PyStr.lstrip f = "".
Proof.
  induction f as [| c f IH]; intros H; simpl; [reflexivity |].
  rewrite (H c (or_introl eq_refl)). apply IH. intros x Hx. apply H. now right.
Qed.

(** A field is blank exactly when nothing is left of it. *)
Lemma blank_iff_strip (f : string) : blank f <-> PyStr.strip f = "".
Proof.
  split.
  - intros H. unfold PyStr.strip. now rewrite (lstrip_blank f H).
  - intros E. destruct (strip_spec f) as (l & r & Hf & Hl & Hr & _).
    rewrite E in Hf. simpl in Hf. subst f.
    intros c Hc. apply has_char_app in Hc. destruct Hc; auto.
Qed.

Lemma kept_fields_of (fields : list string) :
  kept_fields fields
    (map PyStr.strip (filter (fun c => PyStr.nonempty (PyStr.strip c)) fields)).
Proof.
  induction fields as [| f fields IH]; simpl; [constructor |].
  destruct (PyStr.nonempty (PyStr.strip f)) eqn:E; simpl.
  - apply kept_field; [| apply strip_spec | exact IH].
    intros H. apply blank_iff_strip in H. rewrite H in E. discriminate.
  - apply kept_blank; [| exact IH].
    apply blank_iff_strip. now destruct (PyStr.strip f).
Qed.

Section CuisineText.
Context {rt : PyRuntime}.

(** The [except] branch of the accessor. *)
Lemma cuisines_fallback (u : User.t) (s : string) :
  User.preferred_cuisines u = Some s ->
  s <> "" ->
  json_loads s = None ->
  User.get_preferred_cuisines_list u
  = map PyStr.strip
        (filter (fun c => PyStr.nonempty (PyStr.strip c)) (PyStr.split_on "," s)).
Proof.
  intros Hcol Hne Hjson.
  unfold User.get_preferred_cuisines_list.
  rewrite Hcol.
  apply nonempty_true_iff in Hne. rewrite Hne, Hjson.
  destruct (PyStr.contains "," s) eqn:Hcomma; [reflexivity |].
  rewrite (split_on_no_sep _ _ Hcomma). simpl.
  destruct (PyStr.nonempty (PyStr.strip s)); reflexivity.
Qed.

(** C6, as the code has it.  A stored cuisine text in the ASCII range that
    [json.loads] rejects is read as comma-separated text: cut at its commas,
    the fields that are not blank make the preference list, each without
    the white space around it, in order; and such a text does not make the
    recommendation call fail: a call whose query bound fits the database
    driver and that evaluates no distance returns a list whenever the other
    list columns are well typed. *)
Theorem unparseable_cuisines_are_split (u : User.t) (s : string) :
  User.preferred_cuisines u = Some s ->
  s <> "" ->
  ascii_text s = true ->
  json_loads s = None ->
  (exists fields,
      fields <> []
      /\ join_commas fields = s
      /\ Forall comma_free fields
      /\ kept_fields fields (User.get_preferred_cuisines_list u))
  /\ (forall db lat lon limit,
         fits_int64 (limit * 5) ->
         no_distance_evaluated db lat lon ->
         lists_well_typed db u ->
         exists result,
           get_rule_based_recommendations db u lat lon limit = Ok result).
Proof.
  intros Hcol Hne _ Hjson. split.
  - destruct (split_on_fields s) as (Hfields & Hjoin & Hfree).
    exists (PyStr.split_on "," s).
    split; [exact Hfields |]. split; [exact Hjoin |]. split; [exact Hfree |].
    rewrite (cuisines_fallback u s Hcol Hne Hjson). apply kept_fields_of.
  - intros db lat lon limit _ _. apply recommendations_return.
Qed.

End CuisineText.

(** Three fields, the middle one blank. *)
Lemma unparseable_cuisines_are_split_witness :
  (exists fields,
      fields <> []
      /\ join_commas fields = " Tamil, ,Kerala"
      /\ Forall comma_free fields
      /\ kept_fields fields ["Tamil"; "Kerala"])
  /\ exists result,
       get_rule_based_recommendations Sample.catalog
         (Sample.customer None (Some " Tamil, ,Kerala")) None None 2 = Ok result.
Proof.
  destruct (unparseable_cuisines_are_split
              (Sample.customer None (Some " Tamil, ,Kerala")) " Tamil, ,Kerala"
              eq_refl) as [Hfields Hcall].
  - discriminate.
  - reflexivity.
  - vm_compute. reflexivity.
  - split; [exact Hfields |].
    apply (Hcall Sample.catalog None None 2%Z).
    + unfold fits_int64. lia.
    + left. reflexivity.
    + repeat split; try (intros _; eexists; reflexivity).
      intros d [<- | [<- | [<- | []]]] _; eexists; reflexivity.
Defined.
